(** * vm_manager.py: a lifecycle manager for one Compute Engine instance

    A shallow embedding of [src/vm_manager.py] (class [VMManager]) and the
    properties of its configuration store, startup-script generator,
    operation poller and lifecycle controller.

    Python strings are [string]; the configuration dictionary is a record
    with one field per key of [default_config] once the manager is built, and
    a [gmap string json] while it is being loaded from disk.  Remote calls,
    file writes, console output and sleeps are effects of a small monad over
    an arbitrary remote behaviour. *)

From stdpp Require Import base strings list gmap fin_maps pretty.
From Stdlib Require Import ZArith Ascii String Lia.

Local Open Scope Z_scope.

#[global] Arguments String.append : simpl never.

(** ** Strings *)

Module Str.

(** The double-quote and newline characters of the Python literals. *)
Definition dq : string := String "034"%char "".
Definition nl : string := String "010"%char "".
Definition esc : string := String "027"%char "".

(** Join lines, each one terminated by a newline. *)
Fixpoint lines (ls : list string) : string :=
  match ls with
  | [] => ""
  | l :: rest => l +:+ nl +:+ lines rest
  end.

(** [sub] occurs literally in [s]. *)
Definition Substring (sub s : string) : Prop :=
  ∃ p q, s = p +:+ sub +:+ q.

Definition is_upper (a : ascii) : bool :=
  let n := nat_of_ascii a in (65 <=? n)%nat && (n <=? 90)%nat.
Definition is_lower (a : ascii) : bool :=
  let n := nat_of_ascii a in (97 <=? n)%nat && (n <=? 122)%nat.
Definition is_cased (a : ascii) : bool := is_upper a || is_lower a.
Definition to_lower (a : ascii) : ascii :=
  if is_upper a then ascii_of_nat (nat_of_ascii a + 32) else a.
Definition to_upper (a : ascii) : ascii :=
  if is_lower a then ascii_of_nat (nat_of_ascii a - 32) else a.

(** [str.lower] where the text is ASCII.  A [string] here is the sequence of
    bytes of the text: the letters A-Z are lowered, and every other byte is
    kept, so that a letter outside ASCII, which Python lowers by code point,
    is left as it is. *)
Fixpoint lower (s : string) : string :=
  match s with
  | EmptyString => EmptyString
  | String a r => String (to_lower a) (lower r)
  end.

(** [str.title] where the text is ASCII: a letter that follows a letter is
    lowered, any other letter is raised.  Every other byte is kept and counts
    as no letter, so that a letter outside ASCII, which Python cases by code
    point, is left as it is. *)
Fixpoint title_from (previous_is_cased : bool) (s : string) : string :=
  match s with
  | EmptyString => EmptyString
  | String a r =>
      String (if previous_is_cased then to_lower a else to_upper a)
             (title_from (is_cased a) r)
  end.
Definition title (s : string) : string := title_from false s.

(** Python truthiness of a [str]. *)
Definition truthy (s : string) : bool :=
  match s with EmptyString => false | _ => true end.

End Str.

(** ** The configuration of a built manager *)

(** One field per key of [default_config] (lines 107-126), with the type the
    default value has. *)
Record Config := {
  project_id : string;
  region : string;
  zone : string;
  vm_name : string;
  machine_type : string;
  os_choice : string;
  disk_size : Z;
  enable_http_server : bool;
  enable_monitoring : bool;
  instance_state : string;
  auto_start : bool;
  auto_restart : bool;
  preemptible : bool;
  tags : list string;
  labels : gmap string string
}.

(** [self.config["instance_state"] = v] *)
Definition set_instance_state (v : string) (c : Config) : Config :=
  {| project_id := project_id c; region := region c; zone := zone c;
     vm_name := vm_name c; machine_type := machine_type c;
     os_choice := os_choice c; disk_size := disk_size c;
     enable_http_server := enable_http_server c;
     enable_monitoring := enable_monitoring c;
     instance_state := v;
     auto_start := auto_start c; auto_restart := auto_restart c;
     preemptible := preemptible c; tags := tags c; labels := labels c |}.

(** ** Startup-script generator (lines 183-243) *)

Module Script.
Import Str.

Definition get_zone (c : Config) : string :=
  if truthy (zone c) then zone c else region c +:+ "-a".

Definition tee : string := " | tee -a /var/log/startup.log".
Definition echo (msg : string) : string := "echo " +:+ dq +:+ msg +:+ dq +:+ tee.

Definition header (c : Config) : string :=
  lines [
    "#!/bin/bash";
    echo ("=== Starting " +:+ title (os_choice c) +:+ " VM Setup ===");
    echo "Timestamp: $(date)";
    echo ("VM Name: " +:+ vm_name c);
    echo ("Machine Type: " +:+ machine_type c);
    echo ("Zone: " +:+ get_zone c)
  ].

Definition apache_section (c : Config) : string :=
  nl +:+ lines [
    echo "Updating package lists...";
    "apt-get update 2>&1" +:+ tee;
    echo "Installing Apache2...";
    "apt-get install -y apache2 2>&1" +:+ tee;
    echo "Creating hello world page...";
    "mkdir -p /var/www/html";
    "cat > /var/www/html/index.html << 'EOF'";
    "<html>";
    "<head><title>Python-Managed VM</title></head>";
    "<body>";
    "<h1>Hello, World!</h1>";
    "<p>VM: " +:+ vm_name c +:+ "</p>";
    "<p>Zone: " +:+ get_zone c +:+ "</p>";
    "<p>Machine Type: " +:+ machine_type c +:+ "</p>";
    "<p>Managed by: Python Script</p>";
    "<p>Timestamp: $(date)</p>";
    "</body>";
    "</html>";
    "EOF";
    echo "Starting Apache2...";
    "systemctl start apache2 2>&1" +:+ tee;
    "systemctl enable apache2 2>&1" +:+ tee
  ].

Definition nginx_section (c : Config) : string :=
  nl +:+ lines [
    echo "Installing Nginx...";
    "apt-get update 2>&1" +:+ tee;
    "apt-get install -y nginx 2>&1" +:+ tee;
    "echo " +:+ dq +:+ ("<h1>Hello from Debian!</h1><p>VM: " +:+ vm_name c +:+ "</p>")
      +:+ dq +:+ " > /var/www/html/index.html";
    "systemctl start nginx 2>&1" +:+ tee;
    "systemctl enable nginx 2>&1" +:+ tee
  ].

Definition footer (c : Config) : string :=
  nl +:+ lines [
    echo ("=== " +:+ title (os_choice c) +:+ " VM Setup Complete ===")
  ].

Definition generate_startup_script (c : Config) : string :=
  let base_script := header c in
  let base_script :=
    if enable_http_server c then
      if String.eqb (os_choice c) "ubuntu" then base_script +:+ apache_section c
      else if String.eqb (os_choice c) "debian" then base_script +:+ nginx_section c
      else base_script
    else base_script in
  base_script +:+ footer c.

(** The keys of the configuration that [generate_startup_script] reads. *)
Definition same_inputs (c c' : Config) : Prop :=
  os_choice c = os_choice c' ∧ vm_name c = vm_name c' ∧
  machine_type c = machine_type c' ∧ zone c = zone c' ∧
  region c = region c' ∧ enable_http_server c = enable_http_server c'.

(** The script is the header, the section the branches select, the footer. *)
Definition section_of (c : Config) : string :=
  if enable_http_server c then
    if String.eqb (os_choice c) "ubuntu" then apache_section c
    else if String.eqb (os_choice c) "debian" then nginx_section c
    else ""
  else "".

End Script.

(** ** Exceptions and outcomes *)

(** A raised Python exception: its class and [str(e)].  [Exception] is an
    exception whose class derives from [Exception]; [BaseException] is one
    whose class does not ([KeyboardInterrupt], [SystemExit], [GeneratorExit]):
    an [except Exception] clause lets it through, a bare [except] does not. *)
Inductive exn :=
  | Exception (cls msg : string)
  | BaseException (cls msg : string).

Definition exn_msg (e : exn) : string :=
  match e with Exception _ m | BaseException _ m => m end.

(** [isinstance(e, Exception)] *)
Definition is_exception (e : exn) : bool :=
  match e with Exception _ _ => true | BaseException _ _ => false end.

Definition KeyboardInterrupt : exn := BaseException "KeyboardInterrupt" "".
Definition ValueError (msg : string) : exn := Exception "ValueError" msg.

Definition AttributeError (obj attr : string) : exn :=
  Exception "AttributeError"
    ("'" +:+ obj +:+ "' object has no attribute '" +:+ attr +:+ "'").
Definition KeyError (key : string) : exn :=
  Exception "KeyError" ("'" +:+ key +:+ "'").

(** What a call of a method does: it returns, it raises, or (a [while True]
    loop that was given too little fuel) it is still running. *)
Inductive outcome (A : Type) :=
  | Ret (a : A)
  | Raise (e : exn)
  | Diverge.
Arguments Ret {A} a.
Arguments Raise {A} e.
Arguments Diverge {A}.

(** What a remote or file-system call answers. *)
Inductive result (A : Type) :=
  | Ok (a : A)
  | Err (e : exn).
Arguments Ok {A} a.
Arguments Err {A} e.

Inductive level := INFO | WARNING | ERROR.

(** [Colors] (lines 26-35) *)
Module Colors.
Import Str.
Definition RED : string := esc +:+ "[0;31m".
Definition GREEN : string := esc +:+ "[0;32m".
Definition YELLOW : string := esc +:+ "[1;33m".
Definition BLUE : string := esc +:+ "[0;34m".
Definition PURPLE : string := esc +:+ "[0;35m".
Definition CYAN : string := esc +:+ "[0;36m".
Definition WHITE : string := esc +:+ "[1;37m".
Definition RESET : string := esc +:+ "[0m".
End Colors.

(** ** Configuration store and construction (lines 40-44, 90-181) *)

Module Store.

(** A JSON value as [json.load] returns it (numbers are the integers). *)
#[warnings="-register-all"] Inductive json :=
  | JNull
  | JBool (b : bool)
  | JInt (n : Z)
  | JStr (s : string)
  | JList (l : list json)
  | JDict (d : list (string * json)).

(** [default_config], in the order of the dictionary literal. *)
Definition default_config : list (string * json) := [
  ("project_id", JStr "your-gcp-project-id");
  ("region", JStr "us-central1");
  ("zone", JStr "");
  ("vm_name", JStr "python-managed-vm");
  ("machine_type", JStr "e2-micro");
  ("os_choice", JStr "ubuntu");
  ("disk_size", JInt 20);
  ("enable_http_server", JBool true);
  ("enable_monitoring", JBool false);
  ("instance_state", JStr "RUNNING");
  ("auto_start", JBool true);
  ("auto_restart", JBool true);
  ("preemptible", JBool false);
  ("tags", JList [JStr "python-managed"; JStr "http-server"]);
  ("labels", JDict [("created-by", JStr "python-script");
                    ("environment", JStr "development")])
].

Definition default_doc : gmap string json := list_to_map default_config.

(** The configuration file: missing, present but [open]/[json.load] raise
    [Exception(msg)], or present and holding a JSON object. *)
Inductive file :=
  | Absent
  | Unreadable (msg : string)
  | Document (doc : gmap string json).

(** The disk: the file, and the error [open(path, 'w')] raises, if any. *)
Record disk := {
  content : file;
  write_error : option string
}.

Inductive event :=
  | Print (text : string)
  | Logged (lvl : level) (msg : string)
  | Write (path : string) (doc : gmap string json).

(** The manager while [__init__] runs: [self.logger] exists only once
    [setup_logging] has assigned it. *)
Record manager := {
  config_file : string;
  logger : bool
}.

Definition print_colored (message color : string) : list event :=
  [Print (color +:+ message +:+ Colors.RESET)].

(** [self.logger.<method>(message)]: an [AttributeError] while the attribute
    is not there. *)
Definition logger_call (self : manager) (lvl : level) (message : string)
  : outcome unit * list event :=
  if logger self then (Ret tt, [Logged lvl message])
  else (Raise (AttributeError "VMManager" "logger"), []).

Definition log_info (self : manager) (message : string) : outcome unit * list event :=
  let p := print_colored ("[INFO] " +:+ message) Colors.BLUE in
  let '(r, l) := logger_call self INFO message in (r, p ++ l).

Definition log_success (self : manager) (message : string) : outcome unit * list event :=
  let p := print_colored ("[SUCCESS] " +:+ message) Colors.GREEN in
  let '(r, l) := logger_call self INFO ("SUCCESS: " +:+ message) in (r, p ++ l).

Definition log_error (self : manager) (message : string) : outcome unit * list event :=
  let p := print_colored ("[ERROR] " +:+ message) Colors.RED in
  let '(r, l) := logger_call self ERROR message in (r, p ++ l).

(** One round of the merge loop of lines 133-135. *)
Definition fill (config : gmap string json) (kv : string * json)
  : gmap string json :=
  let '(key, value) := kv in
  match config !! key with
  | None => <[key := value]> config
  | Some _ => config
  end.

(** The merge loop of lines 133-135. *)
Definition merge_defaults (config : gmap string json) : gmap string json :=
  foldl fill config default_config.

(** [load_config] (lines 105-145): the value returned or the exception
    raised, the disk afterwards, and what was printed, logged and written. *)
Definition load_config (self : manager) (d : disk)
  : outcome (gmap string json) * disk * list event :=
  match content d with
  | Document config => (Ret (merge_defaults config), d, [])
  | Unreadable e =>
      let '(r, evs) := log_error self ("Error loading config: " +:+ e) in
      match r with
      | Ret _ => (Ret default_doc, d, evs)
      | Raise x => (Raise x, d, evs)
      | Diverge => (Diverge, d, evs)
      end
  | Absent =>
      match write_error d with
      | Some e => (Raise (Exception "OSError" e), d, [])
      | None =>
          let d' := {| content := Document default_doc; write_error := None |} in
          let w := [Write (config_file self) default_doc] in
          let '(r, evs) :=
            log_info self ("Created default config file: " +:+ config_file self) in
          match r with
          | Ret _ => (Ret default_doc, d', w ++ evs)
          | Raise x => (Raise x, d', w ++ evs)
          | Diverge => (Diverge, d', w ++ evs)
          end
      end
  end.

(** [setup_logging] (lines 90-103); [log_filename] carries the clock. *)
Definition setup_logging (self : manager) (log_filename : string)
  : manager * outcome unit * list event :=
  let self := {| config_file := config_file self; logger := true |} in
  let '(r, evs) := log_info self ("Logging to: " +:+ log_filename) in
  (self, r, evs).

(** [__init__] up to and including [setup_logging] (lines 40-43): the
    configuration is loaded first, the logger is set up second. *)
Definition init (path log_filename : string) (d : disk)
  : outcome (manager * gmap string json) * disk * list event :=
  let self := {| config_file := path; logger := false |} in
  let '(r, d', evs) := load_config self d in
  match r with
  | Ret config =>
      let '(self, r2, evs2) := setup_logging self log_filename in
      match r2 with
      | Ret _ => (Ret (self, config), d', evs ++ evs2)
      | Raise x => (Raise x, d', evs ++ evs2)
      | Diverge => (Diverge, d', evs ++ evs2)
      end
  | Raise x => (Raise x, d', evs)
  | Diverge => (Diverge, d', evs)
  end.

(** Sequencing of two steps of [__init__]: the second runs when the first
    returned. *)
Definition and_then {A} (a : outcome unit * list event)
    (k : outcome A * list event) : outcome A * list event :=
  match a with
  | (Ret _, l) => let '(r, l') := k in (r, l ++ l')
  | (Raise x, l) => (Raise x, l)
  | (Diverge, l) => (Diverge, l)
  end.

(** [sys.exit(code)] raises [SystemExit], which is no [Exception]: an
    [except Exception] clause lets it through. *)
Definition SystemExit (code : string) : exn := BaseException "SystemExit" code.

(** [self.config["project_id"] == "your-gcp-project-id"] *)
Definition is_placeholder (v : json) : bool :=
  match v with
  | JStr s => String.eqb s "your-gcp-project-id"
  | _ => false
  end.

(** Lines 166-168: no project configured and none detected. *)
Definition exit_unset (self : manager) : outcome unit * list event :=
  and_then (log_error self "Please set project_id in config file")
           (Raise (SystemExit "1"), []).

(** The handler of lines 178-181. *)
Definition exit_failed (self : manager) (e : exn) : outcome unit * list event :=
  and_then (log_error self ("Failed to setup GCP clients: " +:+ exn_msg e))
    (and_then
       (log_error self
          "Make sure you're authenticated: gcloud auth application-default login")
       (Raise (SystemExit "1"), [])).

(** [setup_gcp_clients] (lines 156-181).  [auth] is what
    [google.auth.default()] does: the project it detects, if any, or the
    exception it raises; [clients] is what the construction of the five
    clients does.  The result is the outcome, [self.config] afterwards and
    the events. *)
Definition setup_gcp_clients (self : manager) (config : gmap string json)
    (auth : result (option string)) (clients : result unit)
  : outcome unit * gmap string json * list event :=
  let body : outcome unit * gmap string json * list event :=
    match auth with
    | Err e => (Raise e, config, [])
    | Ok project =>
        let '(r, config', evs) :=
          match config !! "project_id" with
          | None => (Raise (KeyError "project_id"), config, [])
          | Some v =>
              if is_placeholder v then
                match project with
                | Some p =>
                    if Str.truthy p then
                      let '(r, l) :=
                        log_info self ("Using detected project: " +:+ p) in
                      (r, <["project_id" := JStr p]> config, l)
                    else
                      let '(r, l) := exit_unset self in (r, config, l)
                | None =>
                    let '(r, l) := exit_unset self in (r, config, l)
                end
              else (Ret tt, config, [])
          end in
        match r with
        | Ret _ =>
            match clients with
            | Err e => (Raise e, config', evs)
            | Ok _ =>
                let '(r2, l2) :=
                  log_success self "Google Cloud clients initialized" in
                (r2, config', evs ++ l2)
            end
        | _ => (r, config', evs)
        end
    end in
  let '(r, config', evs) := body in
  match r with
  | Raise x =>
      if is_exception x
      then let '(r', l') := exit_failed self x in (r', config', evs ++ l')
      else (Raise x, config', evs)
  | _ => (r, config', evs)
  end.

(** [__init__] (lines 40-44): [load_config], [setup_logging], then
    [setup_gcp_clients]. *)
Definition construct (path log_filename : string) (d : disk)
    (auth : result (option string)) (clients : result unit)
  : outcome (manager * gmap string json) * disk * list event :=
  let '(r, d', evs) := init path log_filename d in
  match r with
  | Ret (self, config) =>
      let '(r2, config', evs2) := setup_gcp_clients self config auth clients in
      match r2 with
      | Ret _ => (Ret (self, config'), d', evs ++ evs2)
      | Raise x => (Raise x, d', evs ++ evs2)
      | Diverge => (Diverge, d', evs ++ evs2)
      end
  | Raise x => (Raise x, d', evs)
  | Diverge => (Diverge, d', evs)
  end.

End Store.

(** ** The remote API as the manager uses it *)

Module Compute.

(** [compute_v1.Operation.Status] *)
Inductive op_status := UNDEFINED_STATUS | PENDING | RUNNING | DONE.

Definition is_DONE (s : op_status) : bool :=
  match s with DONE => true | _ => false end.

(** What [operations.get] returns: [error] is the rendering of the error
    message of the operation, empty (and falsy) when none is attached. *)
Record Operation := {
  status : op_status;
  error : string;
  progress : Z
}.

(** The scope of the operation a handle stands for. *)
Inductive scope := ZoneScoped | GlobalScoped.

(** The handle a mutating call returns: whether it has a [name] attribute,
    and the scope of the operation it stands for. *)
Record Handle := {
  op_name : option string;
  op_scope : scope
}.

Record AccessConfig := { nat_i_p : string }.
Record NetworkInterface := {
  network_i_p : string;
  access_configs : list AccessConfig
}.

(** What [instances.get] returns. *)
Record Instance := {
  inst_status : string;
  network_interfaces : list NetworkInterface
}.

(** The resource [create_instance] builds (lines 354-430). *)
Record InstanceResource := {
  r_name : string;
  r_machine_type : string;
  r_device_name : string;
  r_source_image : string;
  r_disk_size_gb : Z;
  r_disk_type : string;
  r_network : string;
  r_access_config : string * string;
  r_preemptible : bool;
  r_automatic_restart : bool;
  r_on_host_maintenance : string;
  r_service_accounts : list (string * list string);
  r_metadata : list (string * string);
  r_tags : list string;
  r_labels : gmap string string
}.

(** The resource [create_firewall_rule] builds (lines 295-305). *)
Record FirewallResource := {
  fw_name : string;
  fw_direction : string;
  fw_priority : Z;
  fw_source_ranges : list string;
  fw_target_tags : list string;
  fw_allowed : list (string * list string)
}.

(** Any behaviour of the remote side and of the file system: a state [R]
    and, for each call the manager makes, the answer and the next state. *)
Record Api (R : Type) := {
  instances_get : string → string → string → R → result Instance * R;
  instances_insert : string → string → InstanceResource → R → result Handle * R;
  instances_start : string → string → string → R → result Handle * R;
  instances_stop : string → string → string → R → result Handle * R;
  instances_reset : string → string → string → R → result Handle * R;
  instances_delete : string → string → string → R → result Handle * R;
  firewalls_get : string → string → R → result unit * R;
  firewalls_insert : string → FirewallResource → R → result Handle * R;
  zone_operations_get : string → string → string → R → result Operation * R;
  global_operations_get : string → string → R → result Operation * R;
  file_write : string → Config → R → result unit * R
}.
Arguments instances_get {R}.
Arguments instances_insert {R}.
Arguments instances_start {R}.
Arguments instances_stop {R}.
Arguments instances_reset {R}.
Arguments instances_delete {R}.
Arguments firewalls_get {R}.
Arguments firewalls_insert {R}.
Arguments zone_operations_get {R}.
Arguments global_operations_get {R}.
Arguments file_write {R}.

(** What a run leaves behind, in the order it happened. *)
Inductive event :=
  | Print (text : string)
  | Logged (lvl : level) (msg : string)
  | Sleep (seconds : Z)
  | InstancesGet (project zone instance : string)
  | InstancesInsert (project zone : string) (resource : InstanceResource)
  | InstancesStart (project zone instance : string)
  | InstancesStop (project zone instance : string)
  | InstancesReset (project zone instance : string)
  | InstancesDelete (project zone instance : string)
  | FirewallsGet (project firewall : string)
  | FirewallsInsert (project : string) (resource : FirewallResource)
  | ZoneOperationsGet (project zone operation : string) (answer : result Operation)
  | GlobalOperationsGet (project operation : string) (answer : result Operation)
  | FileWrite (path : string) (config : Config).

End Compute.

(** ** The manager's methods as effectful computations *)

Module VM.
Import Str Compute.

(** The object: [self.config_file] and [self.config]. *)
Record VMManager := {
  config_file : string;
  config : Config
}.

Definition with_config (c : Config) (self : VMManager) : VMManager :=
  {| config_file := config_file self; config := c |}.

(** The state after a computation, its outcome and its events. *)
Record Out (R A : Type) := {
  res : outcome A;
  self_of : VMManager;
  env_of : R;
  evs : list event
}.
Arguments res {R A}.
Arguments self_of {R A}.
Arguments env_of {R A}.
Arguments evs {R A}.
Arguments Build_Out {R A}.

Definition M (R A : Type) : Type := VMManager → R → Out R A.

Section Monad.
Context {R : Type}.

Definition ret {A} (a : A) : M R A :=
  λ self r, Build_Out (Ret a) self r [].

Definition raise {A} (e : exn) : M R A :=
  λ self r, Build_Out (Raise e) self r [].

Definition diverge {A} : M R A :=
  λ self r, Build_Out Diverge self r [].

Definition bind {A B} (m : M R A) (f : A → M R B) : M R B :=
  λ self r,
    let o := m self r in
    match res o with
    | Ret a =>
        let o' := f a (self_of o) (env_of o) in
        Build_Out (res o') (self_of o') (env_of o') (evs o ++ evs o')
    | Raise e => Build_Out (Raise e) (self_of o) (env_of o) (evs o)
    | Diverge => Build_Out Diverge (self_of o) (env_of o) (evs o)
    end.

(** [try: m] with a handler [h] for the exceptions that [catches] selects;
    any other exception leaves the statement as it was raised. *)
Definition try_catch {A} (catches : exn → bool) (m : M R A) (h : exn → M R A)
  : M R A :=
  λ self r,
    let o := m self r in
    match res o with
    | Raise e =>
        if catches e then
          let o' := h e (self_of o) (env_of o) in
          Build_Out (res o') (self_of o') (env_of o') (evs o ++ evs o')
        else o
    | _ => o
    end.

Definition emit (e : event) : M R unit :=
  λ self r, Build_Out (Ret tt) self r [e].

Definition get_config : M R Config :=
  λ self r, Build_Out (Ret (config self)) self r [].

Definition set_config (c : Config) : M R unit :=
  λ self r, Build_Out (Ret tt) (with_config c self) r [].

Definition get_config_file : M R string :=
  λ self r, Build_Out (Ret (config_file self)) self r [].

(** A call of the remote side: the event [ev] built from its answer. *)
Definition call {A} (f : R → result A * R) (ev : result A → event) : M R A :=
  λ self r,
    let '(x, r') := f r in
    Build_Out (match x with Ok a => Ret a | Err e => Raise e end) self r' [ev x].

End Monad.

#[global] Instance M_ret {R} : MRet (M R) := @ret R.
#[global] Instance M_bind {R} : MBind (M R) := λ A B f m, bind m f.

(** [try: m  except Exception as e: h e] *)
Abbreviation try_except := (try_catch is_exception).

(** [try: m  except: h], which catches whatever is raised. *)
Abbreviation try_bare := (try_catch (λ _, true)).

Section Methods.
Context {R : Type} (api : Api R).

Definition print (text : string) : M R unit := emit (Print text).

Definition print_colored (message color : string) : M R unit :=
  print (color +:+ message +:+ Colors.RESET).

Definition log_info (message : string) : M R unit :=
  print_colored ("[INFO] " +:+ message) Colors.BLUE;;
  emit (Logged INFO message).

Definition log_success (message : string) : M R unit :=
  print_colored ("[SUCCESS] " +:+ message) Colors.GREEN;;
  emit (Logged INFO ("SUCCESS: " +:+ message)).

Definition log_warning (message : string) : M R unit :=
  print_colored ("[WARNING] " +:+ message) Colors.YELLOW;;
  emit (Logged WARNING message).

Definition log_error (message : string) : M R unit :=
  print_colored ("[ERROR] " +:+ message) Colors.RED;;
  emit (Logged ERROR message).

Definition sleep (seconds : Z) : M R unit := emit (Sleep seconds).

(** [save_config] (lines 147-154) *)
Definition save_config : M R unit :=
  try_except
    (c ← get_config;
     path ← get_config_file;
     call (file_write api path c) (λ _, FileWrite path c);;
     log_success ("Configuration saved to " +:+ path))
    (λ e, log_error ("Error saving config: " +:+ exn_msg e)).

(** [operation.name] *)
Definition attr_name (operation : Handle) : M R string :=
  match op_name operation with
  | Some n => mret n
  | None => raise (AttributeError "Operation" "name")
  end.

(** One [get] of the loop (lines 250-262): the branch taken is the one
    [hasattr(operation, 'name')] selects. *)
Definition poll (operation : Handle) : M R Operation :=
  c ← get_config;
  if bool_decide (is_Some (op_name operation)) then
    n ← attr_name operation;
    call (zone_operations_get api (project_id c) (Script.get_zone c) n)
         (ZoneOperationsGet (project_id c) (Script.get_zone c) n)
  else
    n ← attr_name operation;
    call (global_operations_get api (project_id c) n)
         (GlobalOperationsGet (project_id c) n).

(** The [while True] loop (lines 249-273), for at most [fuel] rounds. *)
Fixpoint wait_loop (fuel : nat) (operation : Handle) (operation_type : string)
  : M R bool :=
  match fuel with
  | O => diverge
  | S fuel' =>
      result ← poll operation;
      if is_DONE (status result) then
        if truthy (error result) then
          log_error (operation_type +:+ " failed: " +:+ error result);;
          mret false
        else
          log_success (operation_type +:+ " completed successfully");;
          mret true
      else
        log_info (operation_type +:+ " in progress... ("
                  +:+ pretty (progress result) +:+ "%)");;
        sleep 2;;
        wait_loop fuel' operation operation_type
  end.

(** [wait_for_operation] (lines 245-273) *)
Definition wait_for_operation (fuel : nat) (operation : Handle)
    (operation_type : string) : M R bool :=
  log_info ("Waiting for " +:+ operation_type +:+ " to complete...");;
  wait_loop fuel operation operation_type.

(** [show_access_info] (lines 622-645) *)
Definition show_access_info : M R unit :=
  try_except
    (c ← get_config;
     instance ← call (instances_get api (project_id c) (Script.get_zone c) (vm_name c))
                     (λ _, InstancesGet (project_id c) (Script.get_zone c) (vm_name c));
     print_colored "=== Access Information ===" Colors.CYAN;;
     match network_interfaces instance with
     | ni :: _ =>
         match access_configs ni with
         | ac :: _ =>
             let external_ip := nat_i_p ac in
             print "SSH Command:";;
             print ("  gcloud compute ssh " +:+ vm_name c +:+ " --zone="
                    +:+ Script.get_zone c +:+ " --project=" +:+ project_id c);;
             print ("External IP: " +:+ external_ip);;
             if enable_http_server c
             then print ("Web URL: http://" +:+ external_ip)
             else mret tt
         | [] => mret tt
         end
     | [] => mret tt
     end)
    (λ e, log_error ("Failed to get access information: " +:+ exn_msg e)).

(** [get_instance_status] (lines 456-467) *)
Definition get_instance_status : M R (option string) :=
  try_except
    (c ← get_config;
     instance ← call (instances_get api (project_id c) (Script.get_zone c) (vm_name c))
                     (λ _, InstancesGet (project_id c) (Script.get_zone c) (vm_name c));
     mret (Some (inst_status instance)))
    (λ e, log_error ("Failed to get instance status: " +:+ exn_msg e);;
          mret None).

(** [start_instance] (lines 469-503) *)
Definition start_instance (fuel : nat) : M R bool :=
  c ← get_config;
  let instance_name := vm_name c in
  let zone := Script.get_zone c in
  status ← get_instance_status;
  match status with
  | None =>
      log_error ("Instance " +:+ instance_name +:+ " not found");;
      mret false
  | Some st =>
      if String.eqb st "RUNNING" then
        log_warning ("Instance " +:+ instance_name +:+ " is already running");;
        mret true
      else
        log_info ("Starting instance " +:+ instance_name +:+ "...");;
        try_except
          (c ← get_config;
           operation ← call (instances_start api (project_id c) zone instance_name)
                            (λ _, InstancesStart (project_id c) zone instance_name);
           ok ← wait_for_operation fuel operation "instance start";
           if (ok : bool) then
             log_success ("Instance " +:+ instance_name +:+ " started successfully!");;
             c ← get_config;
             set_config (set_instance_state "RUNNING" c);;
             save_config;;
             sleep 5;;
             show_access_info;;
             mret true
           else mret false)
          (λ e, log_error ("Failed to start instance: " +:+ exn_msg e);;
                mret false)
  end.

(** [stop_instance] (lines 505-537) *)
Definition stop_instance (fuel : nat) : M R bool :=
  c ← get_config;
  let instance_name := vm_name c in
  let zone := Script.get_zone c in
  status ← get_instance_status;
  match status with
  | None =>
      log_error ("Instance " +:+ instance_name +:+ " not found");;
      mret false
  | Some st =>
      if String.eqb st "TERMINATED" || String.eqb st "STOPPED" then
        log_warning ("Instance " +:+ instance_name +:+ " is already stopped");;
        mret true
      else
        log_info ("Stopping instance " +:+ instance_name +:+ "...");;
        try_except
          (c ← get_config;
           operation ← call (instances_stop api (project_id c) zone instance_name)
                            (λ _, InstancesStop (project_id c) zone instance_name);
           ok ← wait_for_operation fuel operation "instance stop";
           if (ok : bool) then
             log_success ("Instance " +:+ instance_name +:+ " stopped successfully!");;
             c ← get_config;
             set_config (set_instance_state "TERMINATED" c);;
             save_config;;
             mret true
           else mret false)
          (λ e, log_error ("Failed to stop instance: " +:+ exn_msg e);;
                mret false)
  end.

(** [restart_instance] (lines 539-563) *)
Definition restart_instance (fuel : nat) : M R bool :=
  c ← get_config;
  let instance_name := vm_name c in
  let zone := Script.get_zone c in
  log_info ("Restarting instance " +:+ instance_name +:+ "...");;
  try_except
    (c ← get_config;
     operation ← call (instances_reset api (project_id c) zone instance_name)
                      (λ _, InstancesReset (project_id c) zone instance_name);
     ok ← wait_for_operation fuel operation "instance restart";
     if (ok : bool) then
       log_success ("Instance " +:+ instance_name +:+ " restarted successfully!");;
       sleep 5;;
       show_access_info;;
       mret true
     else mret false)
    (λ e, log_error ("Failed to restart instance: " +:+ exn_msg e);;
          mret false).

(** [delete_instance] (lines 565-587) *)
Definition delete_instance (fuel : nat) : M R bool :=
  c ← get_config;
  let instance_name := vm_name c in
  let zone := Script.get_zone c in
  log_warning ("Deleting instance " +:+ instance_name +:+ "...");;
  try_except
    (c ← get_config;
     operation ← call (instances_delete api (project_id c) zone instance_name)
                      (λ _, InstancesDelete (project_id c) zone instance_name);
     ok ← wait_for_operation fuel operation "instance deletion";
     if (ok : bool) then
       log_success ("Instance " +:+ instance_name +:+ " deleted successfully!");;
       mret true
     else mret false)
    (λ e, log_error ("Failed to delete instance: " +:+ exn_msg e);;
          mret false).

(** The firewall rule of lines 280 and 295-305. *)
Definition rule_name_of (c : Config) : string := vm_name c +:+ "-allow-http".

Definition firewall_rule_of (c : Config) : FirewallResource :=
  {| fw_name := rule_name_of c;
     fw_direction := "INGRESS";
     fw_priority := 1000;
     fw_source_ranges := ["0.0.0.0/0"];
     fw_target_tags := ["http-server"];
     fw_allowed := [("tcp", ["80"; "443"])] |}.

(** [create_firewall_rule] (lines 275-321) *)
Definition create_firewall_rule (fuel : nat) : M R bool :=
  c ← get_config;
  if negb (enable_http_server c) then mret true
  else
    let rule_name := rule_name_of c in
    existing_rule ←
      try_bare
        (x ← call (firewalls_get api (project_id c) rule_name)
                  (λ _, FirewallsGet (project_id c) rule_name);
         log_info ("Firewall rule " +:+ rule_name +:+ " already exists");;
         mret (Some x))
        (λ _, mret None);
    match existing_rule with
    | Some _ => mret true
    | None =>
        log_info ("Creating firewall rule: " +:+ rule_name);;
        let firewall_rule := firewall_rule_of c in
        try_except
          (c ← get_config;
           operation ← call (firewalls_insert api (project_id c) firewall_rule)
                            (λ _, FirewallsInsert (project_id c) firewall_rule);
           ok ← wait_for_operation fuel operation "firewall rule creation";
           if (ok : bool) then
             log_success ("Firewall rule " +:+ rule_name +:+ " created");;
             mret true
           else mret false)
          (λ e, log_error ("Failed to create firewall rule: " +:+ exn_msg e);;
                mret false)
    end.

(** [self.os_images] (lines 47-52) *)
Definition os_images : list (string * string) := [
  ("ubuntu", "projects/ubuntu-os-cloud/global/images/ubuntu-minimal-2504-plucky-amd64-v20250624");
  ("debian", "projects/debian-cloud/global/images/family/debian-12");
  ("centos", "projects/centos-cloud/global/images/family/centos-stream-9");
  ("rhel", "projects/rhel-cloud/global/images/family/rhel-9")
].

Fixpoint dict_get (d : list (string * string)) (key : string) : option string :=
  match d with
  | [] => None
  | (k, v) :: rest => if String.eqb k key then Some v else dict_get rest key
  end.

(** [self.os_images[key]] *)
Definition os_image (key : string) : M R string :=
  match dict_get os_images key with
  | Some image => mret image
  | None => raise (KeyError key)
  end.

(** [field = int(n)] for an [int64] field of a message (line 367): a
    [ValueError] for a value outside the range of the field, with the text
    the message library gives it. *)
Definition in_int64 (n : Z) : bool := (- 2 ^ 63 <=? n) && (n <? 2 ^ 63).

Definition int64 (n : Z) : M R Z :=
  if in_int64 n then mret n
  else raise (ValueError ("Value out of range: " +:+ pretty n)).

(** [str(b)] for a [bool] *)
Definition str_bool (b : bool) : string := if b then "True" else "False".

Definition contains (x : string) (l : list string) : bool :=
  existsb (String.eqb x) l.

(** The instance resource of lines 354-430, given the image looked up; the
    disk size is the configured one, which [create_instance] has passed
    through [int64] by then. *)
Definition instance_resource_of (c : Config) (source_image : string)
  : InstanceResource :=
  let zone := Script.get_zone c in
  {| r_name := vm_name c;
     r_machine_type := "zones/" +:+ zone +:+ "/machineTypes/" +:+ machine_type c;
     r_device_name := "boot-disk";
     r_source_image := source_image;
     r_disk_size_gb := disk_size c;
     r_disk_type := "zones/" +:+ zone +:+ "/diskTypes/pd-standard";
     r_network := "projects/" +:+ project_id c +:+ "/global/networks/default";
     r_access_config := ("ONE_TO_ONE_NAT", "External NAT");
     r_preemptible := preemptible c;
     r_automatic_restart := auto_restart c && negb (preemptible c);
     r_on_host_maintenance := if preemptible c then "TERMINATE" else "MIGRATE";
     r_service_accounts :=
       if enable_monitoring c then
         [("default", ["https://www.googleapis.com/auth/monitoring.write";
                       "https://www.googleapis.com/auth/logging.write"])]
       else [];
     r_metadata := [("startup-script", Script.generate_startup_script c);
                    ("enable-oslogin", "true")];
     r_tags :=
       if enable_http_server c && negb (contains "http-server" (tags c))
       then tags c ++ ["http-server"] else tags c;
     r_labels :=
       <["preemptible" := lower (str_bool (preemptible c))]>
       (<["instance-state" := lower (instance_state c)]>
       (<["managed-by" := "python-script"]>
       (<["os-type" := os_choice c]> (labels c)))) |}.

(** [create_instance] (lines 323-454) *)
Definition create_instance (fuel : nat) : M R bool :=
  c ← get_config;
  let instance_name := vm_name c in
  let zone := Script.get_zone c in
  log_info ("=== Creating VM Instance: " +:+ instance_name +:+ " ===");;
  log_info ("Project: " +:+ project_id c);;
  log_info ("Zone: " +:+ zone);;
  log_info ("Machine Type: " +:+ machine_type c);;
  log_info ("OS: " +:+ os_choice c);;
  log_info ("Disk Size: " +:+ pretty (disk_size c) +:+ " GB");;
  log_info ("HTTP Server: " +:+ str_bool (enable_http_server c));;
  log_info ("Preemptible: " +:+ str_bool (preemptible c));;
  existing_instance ←
    try_bare
      (x ← call (instances_get api (project_id c) zone instance_name)
                (λ _, InstancesGet (project_id c) zone instance_name);
       log_warning ("Instance " +:+ instance_name +:+ " already exists");;
       mret (Some x))
      (λ _, mret None);
  match existing_instance with
  | Some _ => mret true
  | None =>
      rule_ok ← create_firewall_rule fuel;
      if negb rule_ok then
        log_error "Failed to create firewall rule";;
        mret false
      else
        c ← get_config;
        source_image ← os_image (os_choice c);
        int64 (disk_size c);;
        let instance := instance_resource_of c source_image in
        try_except
          (log_info "Submitting instance creation request...";;
           c ← get_config;
           operation ← call (instances_insert api (project_id c) zone instance)
                            (λ _, InstancesInsert (project_id c) zone instance);
           ok ← wait_for_operation fuel operation "instance creation";
           if (ok : bool) then
             log_success ("VM instance " +:+ instance_name +:+ " created successfully!");;
             c ← get_config;
             (if String.eqb (instance_state c) "TERMINATED" then
                log_info "Stopping instance as per configuration...";;
                stop_instance fuel;;
                mret tt
              else mret tt);;
             mret true
           else mret false)
          (λ e, log_error ("Failed to create instance: " +:+ exn_msg e);;
                mret false)
  end.

(** [show_deployment_summary] (lines 647-665) *)
Definition show_deployment_summary : M R unit :=
  c ← get_config;
  print_colored "=== Deployment Summary ===" Colors.CYAN;;
  print ("VM Name: " +:+ vm_name c);;
  print ("Project: " +:+ project_id c);;
  print ("Zone: " +:+ Script.get_zone c);;
  print ("Machine Type: " +:+ machine_type c);;
  print ("OS Choice: " +:+ os_choice c);;
  print ("Disk Size: " +:+ pretty (disk_size c) +:+ " GB");;
  print ("HTTP Server: " +:+ str_bool (enable_http_server c));;
  print ("Monitoring: " +:+ str_bool (enable_monitoring c));;
  print ("Instance State: " +:+ instance_state c);;
  print ("Preemptible: " +:+ str_bool (preemptible c));;
  print ("Auto Restart: " +:+ str_bool (auto_restart c));;
  status ← get_instance_status;
  match status with
  | Some st => if truthy st then print ("Current Status: " +:+ st) else mret tt
  | None => mret tt
  end.

End Methods.
End VM.

(** ** Concrete configurations and a concrete remote side *)

Module Examples.
Import Compute.

(** [default_config] with its values typed. *)
Definition default_config : Config :=
  {| project_id := "your-gcp-project-id"; region := "us-central1"; zone := "";
     vm_name := "python-managed-vm"; machine_type := "e2-micro";
     os_choice := "ubuntu"; disk_size := 20;
     enable_http_server := true; enable_monitoring := false;
     instance_state := "RUNNING"; auto_start := true; auto_restart := true;
     preemptible := false; tags := ["python-managed"; "http-server"];
     labels := <["created-by" := "python-script"]>
               (<["environment" := "development"]> ∅) |}.

Definition with_fields (name os reg : string) (http : bool) (wanted : string)
    (c : Config) : Config :=
  {| project_id := "my-project"; region := reg; zone := zone c;
     vm_name := name; machine_type := machine_type c;
     os_choice := os; disk_size := disk_size c;
     enable_http_server := http;
     enable_monitoring := enable_monitoring c;
     instance_state := wanted;
     auto_start := auto_start c; auto_restart := auto_restart c;
     preemptible := preemptible c; tags := tags c; labels := labels c |}.

(** The scenarios of the specification. *)
Definition demo : Config :=
  with_fields "demo" "ubuntu" "us-west1" true "RUNNING" default_config.
Definition demo_debian : Config :=
  with_fields "demo" "debian" "us-west1" true "RUNNING" default_config.
Definition demo_no_http : Config :=
  with_fields "demo" "ubuntu" "us-west1" false "RUNNING" default_config.
Definition demo_windows_no_http : Config :=
  with_fields "demo" "windows" "us-west1" false "RUNNING" default_config.

Definition with_disk_size (n : Z) (c : Config) : Config :=
  {| project_id := project_id c; region := region c; zone := zone c;
     vm_name := vm_name c; machine_type := machine_type c;
     os_choice := os_choice c; disk_size := n;
     enable_http_server := enable_http_server c;
     enable_monitoring := enable_monitoring c;
     instance_state := instance_state c;
     auto_start := auto_start c; auto_restart := auto_restart c;
     preemptible := preemptible c; tags := tags c; labels := labels c |}.

(** A disk size one past the largest 64-bit integer. *)
Definition demo_huge_disk : Config := with_disk_size (2 ^ 63) demo_no_http.

(** A small cloud: the instances of the zone with their status, the firewall
    rules of the project, the operation in flight (its name, its scope, the
    number of polls before it is done, the error it ends with), and the
    configuration file.  An operation is found only by the client of its
    scope, as on the provider. *)
Record cloud := {
  instances : list (string * string);
  firewalls : list string;
  operation : option (string * scope);
  remaining : nat;
  latency : nat;
  fails_with : string;
  saved : option Config
}.

Definition same_scope (a b : scope) : bool :=
  match a, b with
  | ZoneScoped, ZoneScoped | GlobalScoped, GlobalScoped => true
  | _, _ => false
  end.

Definition not_found (what : string) : exn :=
  Exception "NotFound" ("404 " +:+ what +:+ " was not found").

Fixpoint status_of (name : string) (l : list (string * string)) : option string :=
  match l with
  | [] => None
  | (n, s) :: rest => if String.eqb n name then Some s else status_of name rest
  end.

Fixpoint set_status (name st : string) (l : list (string * string))
  : list (string * string) :=
  match l with
  | [] => []
  | (n, s) :: rest =>
      if String.eqb n name then (n, st) :: rest else (n, s) :: set_status name st rest
  end.

Definition remove (name : string) (l : list (string * string))
  : list (string * string) :=
  filter (λ p, String.eqb (fst p) name = false) l.

Definition begin (op : string) (sc : scope) (insts : list (string * string))
    (fw : list string) (r : cloud) : result Handle * cloud :=
  (Ok {| op_name := Some op; op_scope := sc |},
   {| instances := insts; firewalls := fw; operation := Some (op, sc);
      remaining := latency r; latency := latency r;
      fails_with := fails_with r; saved := saved r |}).

Definition on_instance (op name : string) (f : list (string * string) → list (string * string))
    (r : cloud) : result Handle * cloud :=
  match status_of name (instances r) with
  | Some _ => begin op ZoneScoped (f (instances r)) (firewalls r) r
  | None => (Err (not_found name), r)
  end.

Definition observe (sc : scope) (op : string) (r : cloud) : result Operation * cloud :=
  match operation r with
  | Some (o, s) =>
      if String.eqb o op && same_scope s sc then
        match remaining r with
        | O => (Ok {| status := DONE; error := fails_with r; progress := 100 |}, r)
        | S k =>
            (Ok {| status := RUNNING; error := ""; progress := 50 |},
             {| instances := instances r; firewalls := firewalls r;
                operation := operation r; remaining := k; latency := latency r;
                fails_with := fails_with r; saved := saved r |})
        end
      else (Err (not_found op), r)
  | None => (Err (not_found op), r)
  end.

Definition cloud_api : Api cloud :=
  {| instances_get := λ _ _ name r,
       match status_of name (instances r) with
       | Some st =>
           (Ok {| inst_status := st;
                  network_interfaces :=
                    [{| network_i_p := "10.0.0.2";
                        access_configs := [{| nat_i_p := "203.0.113.7" |}] |}] |}, r)
       | None => (Err (not_found name), r)
       end;
     instances_insert := λ _ _ res r,
       match status_of (r_name res) (instances r) with
       | Some _ => (Err (Exception "Conflict" "409 already exists"), r)
       | None =>
           begin "operation-insert" ZoneScoped
                 (instances r ++ [(r_name res, "RUNNING")]) (firewalls r) r
       end;
     instances_start := λ _ _ name,
       on_instance "operation-start" name (set_status name "RUNNING");
     instances_stop := λ _ _ name,
       on_instance "operation-stop" name (set_status name "TERMINATED");
     instances_reset := λ _ _ name,
       on_instance "operation-reset" name (set_status name "RUNNING");
     instances_delete := λ _ _ name,
       on_instance "operation-delete" name (remove name);
     firewalls_get := λ _ rule r,
       if existsb (String.eqb rule) (firewalls r) then (Ok tt, r)
       else (Err (not_found rule), r);
     firewalls_insert := λ _ res r,
       begin "operation-firewall" GlobalScoped
             (instances r) (firewalls r ++ [fw_name res]) r;
     zone_operations_get := λ _ _ op, observe ZoneScoped op;
     global_operations_get := λ _ op, observe GlobalScoped op;
     file_write := λ _ c r,
       (Ok tt,
        {| instances := instances r; firewalls := firewalls r;
           operation := operation r; remaining := remaining r;
           latency := latency r; fails_with := fails_with r;
           saved := Some c |}) |}.

(** The small cloud on a machine where the write of the configuration file
    is interrupted from the keyboard. *)
Definition interrupted_api : Api cloud :=
  {| instances_get := instances_get cloud_api;
     instances_insert := instances_insert cloud_api;
     instances_start := instances_start cloud_api;
     instances_stop := instances_stop cloud_api;
     instances_reset := instances_reset cloud_api;
     instances_delete := instances_delete cloud_api;
     firewalls_get := firewalls_get cloud_api;
     firewalls_insert := firewalls_insert cloud_api;
     zone_operations_get := zone_operations_get cloud_api;
     global_operations_get := global_operations_get cloud_api;
     file_write := λ _ _ r, (Err KeyboardInterrupt, r) |}.

(** A remote side and a file system where every call is interrupted from
    the keyboard. *)
Definition ctrl_c : Api unit :=
  {| instances_get := λ _ _ _ r, (Err KeyboardInterrupt, r);
     instances_insert := λ _ _ _ r, (Err KeyboardInterrupt, r);
     instances_start := λ _ _ _ r, (Err KeyboardInterrupt, r);
     instances_stop := λ _ _ _ r, (Err KeyboardInterrupt, r);
     instances_reset := λ _ _ _ r, (Err KeyboardInterrupt, r);
     instances_delete := λ _ _ _ r, (Err KeyboardInterrupt, r);
     firewalls_get := λ _ _ r, (Err KeyboardInterrupt, r);
     firewalls_insert := λ _ _ r, (Err KeyboardInterrupt, r);
     zone_operations_get := λ _ _ _ r, (Err KeyboardInterrupt, r);
     global_operations_get := λ _ _ r, (Err KeyboardInterrupt, r);
     file_write := λ _ _ r, (Err KeyboardInterrupt, r) |}.

Definition empty_cloud (polls : nat) : cloud :=
  {| instances := []; firewalls := []; operation := None;
     remaining := 0; latency := polls; fails_with := ""; saved := None |}.

Definition cloud_with (insts : list (string * string)) (fw : list string)
    (polls : nat) (err : string) : cloud :=
  {| instances := insts; firewalls := fw; operation := None;
     remaining := 0; latency := polls; fails_with := err; saved := None |}.

Definition manager (c : Config) : VM.VMManager :=
  {| VM.config_file := "vm_config.json"; VM.config := c |}.

(** A cloud with the operation [op] in flight: [k] polls before it is done. *)
Definition in_flight (insts : list (string * string)) (op : string) (sc : scope)
    (k : nat) (err : string) : cloud :=
  {| instances := insts; firewalls := []; operation := Some (op, sc);
     remaining := k; latency := 2; fails_with := err; saved := None |}.

Definition running : Operation := {| status := RUNNING; error := ""; progress := 50 |}.
Definition finished (err : string) : Operation :=
  {| status := DONE; error := err; progress := 100 |}.

Definition stop_handle : Handle :=
  {| op_name := Some "operation-stop"; op_scope := ZoneScoped |}.

End Examples.

(** ** Traces and what is said of them *)

Module Run.
Import Str Compute VM.

(** The events of the logging methods. *)
Definition printed (message color : string) : list event :=
  [Print (color +:+ message +:+ Colors.RESET)].
Definition info (message : string) : list event :=
  printed ("[INFO] " +:+ message) Colors.BLUE ++ [Logged INFO message].
Definition success (message : string) : list event :=
  printed ("[SUCCESS] " +:+ message) Colors.GREEN
  ++ [Logged INFO ("SUCCESS: " +:+ message)].
Definition warning (message : string) : list event :=
  printed ("[WARNING] " +:+ message) Colors.YELLOW ++ [Logged WARNING message].
Definition failure (message : string) : list event :=
  printed ("[ERROR] " +:+ message) Colors.RED ++ [Logged ERROR message].

(** [o] with the events [l] before its own. *)
Definition after {R A} (l : list event) (o : Out R A) : Out R A :=
  Build_Out (res o) (self_of o) (env_of o) (l ++ evs o).

(** Classes of events. *)
Definition is_write (e : event) : bool :=
  match e with FileWrite _ _ => true | _ => false end.
Definition is_insert (e : event) : bool :=
  match e with InstancesInsert _ _ _ => true | _ => false end.
Definition is_stop (e : event) : bool :=
  match e with InstancesStop _ _ _ => true | _ => false end.
Definition is_global_get (e : event) : bool :=
  match e with GlobalOperationsGet _ _ _ => true | _ => false end.
(** A request that changes the remote side. *)
Definition is_mutation (e : event) : bool :=
  match e with
  | InstancesInsert _ _ _ | InstancesStart _ _ _ | InstancesStop _ _ _
  | InstancesReset _ _ _ | InstancesDelete _ _ _ | FirewallsInsert _ _ => true
  | _ => false
  end.
(** The poll that saw the operation done with no error attached. *)
Definition is_done_ok (e : event) : bool :=
  match e with
  | ZoneOperationsGet _ _ _ (Ok a) | GlobalOperationsGet _ _ (Ok a) =>
      is_DONE (status a) && negb (truthy (error a))
  | _ => false
  end.

Definition count (P : event → bool) (l : list event) : nat :=
  List.length (filter (λ e, P e = true) l).

(** At most [n] events of the class [P] in any run of [m]. *)
Definition bounded {R A} (n : nat) (P : event → bool) (m : M R A) : Prop :=
  ∀ self r, (count P (evs (m self r)) ≤ n)%nat.

(** [m] leaves the object as it found it. *)
Definition keeps {R A} (m : M R A) : Prop :=
  ∀ self r, self_of (m self r) = self.

(** [m] lets no [Exception] out: what it raises, if anything, is of a class
    that an [except Exception] clause does not catch. *)
Definition no_exception {R A} (m : M R A) : Prop :=
  ∀ self r e, res (m self r) = Raise e → is_exception e = false.

(** The polls of the operation [n] from the remote state [r] answer [obs],
    one after the other, and leave the remote state [r']. *)
Fixpoint observed {R} (api : Api R) (c : Config) (n : string)
    (obs : list Operation) (r r' : R) : Prop :=
  match obs with
  | [] => r' = r
  | o :: rest =>
      ∃ r1, zone_operations_get api (project_id c) (Script.get_zone c) n r
            = (Ok o, r1) ∧ observed api c n rest r1 r'
  end.

(** The events of one round that saw [o] not done, and of the last round. *)
Definition round (c : Config) (n ty : string) (o : Operation) : list event :=
  ZoneOperationsGet (project_id c) (Script.get_zone c) n (Ok o)
  :: info (ty +:+ " in progress... (" +:+ pretty (progress o) +:+ "%)")
  ++ [Sleep 2].

Definition last_round (c : Config) (n ty : string) (o : Operation) : list event :=
  ZoneOperationsGet (project_id c) (Script.get_zone c) n (Ok o)
  :: if truthy (error o) then failure (ty +:+ " failed: " +:+ error o)
     else success (ty +:+ " completed successfully").

(** A class of events that holds no console output, no sleep and no read of
    an instance or of an operation. *)
Definition passive (P : event → bool) : Prop :=
  (∀ t, P (Print t) = false) ∧ (∀ l m, P (Logged l m) = false) ∧
  (∀ s, P (Sleep s) = false) ∧ (∀ p z n, P (InstancesGet p z n) = false) ∧
  (∀ p z n a, P (ZoneOperationsGet p z n a) = false) ∧
  (∀ p n a, P (GlobalOperationsGet p n a) = false).

(** The status values [stop_instance] takes as already stopped. *)
Definition stopped (st : string) : bool :=
  String.eqb st "TERMINATED" || String.eqb st "STOPPED".

(** The events of a wait that sees [pre] and then [last]. *)
Definition waited (c : Config) (n ty : string) (pre : list Operation)
    (last : Operation) : list event :=
  info ("Waiting for " +:+ ty +:+ " to complete...")
  ++ flat_map (round c n ty) pre ++ last_round c n ty last.

(** The opening log lines of [create_instance] (lines 328-335). *)
Definition banner (c : Config) : list event :=
  info ("=== Creating VM Instance: " +:+ vm_name c +:+ " ===")
  ++ info ("Project: " +:+ project_id c)
  ++ info ("Zone: " +:+ Script.get_zone c)
  ++ info ("Machine Type: " +:+ machine_type c)
  ++ info ("OS: " +:+ os_choice c)
  ++ info ("Disk Size: " +:+ pretty (disk_size c) +:+ " GB")
  ++ info ("HTTP Server: " +:+ str_bool (enable_http_server c))
  ++ info ("Preemptible: " +:+ str_bool (preemptible c)).

(** The object and the file after a start or a stop: as they were; or the
    wanted state in [instance_state], every other key as it was, and one
    write, of the configuration so changed, after a poll that saw the
    operation done with no error. *)
Definition untouched {R} (self : VMManager) (o : Out R bool) : Prop :=
  self_of o = self ∧ count is_write (evs o) = 0%nat.

Definition changed_after_success {R} (wanted : string) (self : VMManager)
    (o : Out R bool) : Prop :=
  self_of o = with_config (set_instance_state wanted (config self)) self ∧
  instance_state (config (self_of o)) = wanted ∧
  ∃ pre post,
    evs o = pre ++ FileWrite (config_file self) (config (self_of o)) :: post ∧
    count is_write pre = 0%nat ∧ count is_write post = 0%nat ∧
    ∃ e, e ∈ pre ∧ is_done_ok e = true.

(** How a run that changed anything can have ended: it returned [True], or
    it was left by an exception that is no [Exception]. *)
Definition ended_well {R} (o : Out R bool) : Prop :=
  res o = Ret true ∨ ∃ e, res o = Raise e ∧ is_exception e = false.

(** C10 as the specification words it: whatever does not end in success
    leaves the object and the file as they were. *)
Definition unchanged_unless_success {R} (self : VMManager) (o : Out R bool)
  : Prop :=
  res o ≠ Ret true → untouched self o.

(** C10 as the code has it: the same for a run that returns [False], is
    still waiting, or raises an [Exception]; and a run that changed anything
    did so after success, and then returned [True] or was left by an
    exception that is no [Exception]. *)
Definition persists_only_after_success {R} (wanted : string) (self : VMManager)
    (o : Out R bool) : Prop :=
  (res o ≠ Ret true → (∀ e, res o = Raise e → is_exception e = true) →
   untouched self o) ∧
  (¬ untouched self o → changed_after_success wanted self o ∧ ended_well o) ∧
  (∀ e, res o = Raise e → is_exception e = false).

Section Unfolded.
Context {R : Type} (api : Api R).

(** What [stop_instance] does once the stop request was accepted, from the
    outcome [w] of the wait. *)
Definition stop_finish (self : VMManager) (w : Out R bool) : Out R bool :=
  let name := vm_name (config self) in
  match res w with
  | Ret true =>
      let s := save_config api
                 (with_config (set_instance_state "TERMINATED" (config (self_of w)))
                              (self_of w))
                 (env_of w) in
      Build_Out (match res s with
                 | Ret _ => Ret true
                 | Raise e => Raise e
                 | Diverge => Diverge
                 end) (self_of s) (env_of s)
        (evs w ++ success ("Instance " +:+ name +:+ " stopped successfully!") ++ evs s)
  | Ret false => w
  | Raise e =>
      if is_exception e then
        Build_Out (Ret false) (self_of w) (env_of w)
          (evs w ++ failure ("Failed to stop instance: " +:+ exn_msg e))
      else w
  | Diverge => w
  end.

(** What [start_instance] does once the start request was accepted, from the
    outcome [w] of the wait. *)
Definition start_finish (self : VMManager) (w : Out R bool) : Out R bool :=
  let name := vm_name (config self) in
  match res w with
  | Ret true =>
      let s := save_config api
                 (with_config (set_instance_state "RUNNING" (config (self_of w)))
                              (self_of w))
                 (env_of w) in
      let started := success ("Instance " +:+ name +:+ " started successfully!") in
      match res s with
      | Ret _ =>
          let a := show_access_info api (self_of s) (env_of s) in
          Build_Out (match res a with
                     | Ret _ => Ret true
                     | Raise e => Raise e
                     | Diverge => Diverge
                     end) (self_of a) (env_of a)
            (evs w ++ started ++ evs s ++ [Sleep 5] ++ evs a)
      | Raise e => Build_Out (Raise e) (self_of s) (env_of s) (evs w ++ started ++ evs s)
      | Diverge => Build_Out Diverge (self_of s) (env_of s) (evs w ++ started ++ evs s)
      end
  | Ret false => w
  | Raise e =>
      if is_exception e then
        Build_Out (Ret false) (self_of w) (env_of w)
          (evs w ++ failure ("Failed to start instance: " +:+ exn_msg e))
      else w
  | Diverge => w
  end.

(** What [create_firewall_rule] does once the insert was accepted, from the
    outcome [w] of the wait. *)
Definition firewall_finish (self : VMManager) (w : Out R bool) : Out R bool :=
  match res w with
  | Ret true =>
      Build_Out (Ret true) (self_of w) (env_of w)
        (evs w ++ success ("Firewall rule " +:+ rule_name_of (config self) +:+ " created"))
  | Ret false => w
  | Raise e =>
      if is_exception e then
        Build_Out (Ret false) (self_of w) (env_of w)
          (evs w ++ failure ("Failed to create firewall rule: " +:+ exn_msg e))
      else w
  | Diverge => w
  end.

(** The statements of [create_instance] after the firewall rule is there
    (lines 354-454), for the instance name and the zone read on entry. *)
Definition submit (fuel : nat) (instance_name zone : string) : M R bool :=
  c ← get_config;
  source_image ← os_image (os_choice c);
  int64 (disk_size c);;
  let instance := instance_resource_of c source_image in
  try_except
    (log_info "Submitting instance creation request...";;
     c ← get_config;
     operation ← call (instances_insert api (project_id c) zone instance)
                      (λ _, InstancesInsert (project_id c) zone instance);
     ok ← wait_for_operation api fuel operation "instance creation";
     if (ok : bool) then
       log_success ("VM instance " +:+ instance_name +:+ " created successfully!");;
       c ← get_config;
       (if String.eqb (instance_state c) "TERMINATED" then
          log_info "Stopping instance as per configuration...";;
          stop_instance api fuel;;
          mret tt
        else mret tt);;
       mret true
     else mret false)
    (λ e, log_error ("Failed to create instance: " +:+ exn_msg e);;
          mret false).

(** What [create_instance] does when the instance is not found, from the
    outcome [w] of [create_firewall_rule]. *)
Definition after_firewall (fuel : nat) (self : VMManager) (w : Out R bool)
  : Out R bool :=
  match res w with
  | Ret true =>
      after (evs w)
        (submit fuel (vm_name (config self)) (Script.get_zone (config self))
                (self_of w) (env_of w))
  | Ret false =>
      Build_Out (Ret false) (self_of w) (env_of w)
        (evs w ++ failure "Failed to create firewall rule")
  | Raise e => Build_Out (Raise e) (self_of w) (env_of w) (evs w)
  | Diverge => Build_Out Diverge (self_of w) (env_of w) (evs w)
  end.

End Unfolded.


(** More classes of events. *)
Definition is_start_reset_delete (e : event) : bool :=
  match e with
  | InstancesStart _ _ _ | InstancesReset _ _ _ | InstancesDelete _ _ _ => true
  | _ => false
  end.
(** A poll that saw the operation done. *)
Definition is_done_poll (e : event) : bool :=
  match e with
  | ZoneOperationsGet _ _ _ (Ok a) | GlobalOperationsGet _ _ (Ok a) =>
      is_DONE (status a)
  | _ => false
  end.
(** A request to the remote side, of any kind. *)
Definition is_request (e : event) : bool :=
  match e with
  | Print _ | Logged _ _ | Sleep _ | FileWrite _ _ => false
  | _ => true
  end.
Definition is_print (e : event) : bool :=
  match e with Print _ => true | _ => false end.

(** The external address [show_access_info] shows: that of the first access
    configuration of the first network interface. *)
Definition external_ip (i : Instance) : option string :=
  match network_interfaces i with
  | ni :: _ =>
      match access_configs ni with
      | ac :: _ => Some (nat_i_p ac)
      | [] => None
      end
  | [] => None
  end.

(** The lines [show_deployment_summary] prints from the configuration. *)
Definition summary (c : Config) : list event :=
  printed "=== Deployment Summary ===" Colors.CYAN
  ++ [Print ("VM Name: " +:+ vm_name c);
      Print ("Project: " +:+ project_id c);
      Print ("Zone: " +:+ Script.get_zone c);
      Print ("Machine Type: " +:+ machine_type c);
      Print ("OS Choice: " +:+ os_choice c);
      Print ("Disk Size: " +:+ pretty (disk_size c) +:+ " GB");
      Print ("HTTP Server: " +:+ str_bool (enable_http_server c));
      Print ("Monitoring: " +:+ str_bool (enable_monitoring c));
      Print ("Instance State: " +:+ instance_state c);
      Print ("Preemptible: " +:+ str_bool (preemptible c));
      Print ("Auto Restart: " +:+ str_bool (auto_restart c))].

End Run.

(** * Properties *)

(** ** Occurrences in strings *)

Module StrFacts.
Import Str.

Lemma append_nil_r (s : string) : s +:+ "" = s.
Proof.
  induction s as [|a s IH]; [done|].
  unfold String.append; fold String.append. by rewrite IH.
Qed.

Lemma append_assoc (a b c : string) : (a +:+ b) +:+ c = a +:+ b +:+ c.
Proof.
  induction a as [|x a IH]; [done|].
  unfold String.append; fold String.append. by rewrite IH.
Qed.

Lemma Substring_refl (s : string) : Substring s s.
Proof. exists "", "". by rewrite append_nil_r. Qed.

Lemma Substring_app_l (x a b : string) : Substring x a → Substring x (a +:+ b).
Proof.
  intros (p & q & ->). exists p, (q +:+ b). by rewrite !append_assoc.
Qed.

Lemma Substring_app_r (x a b : string) : Substring x b → Substring x (a +:+ b).
Proof.
  intros (p & q & ->). exists (a +:+ p), q. by rewrite !append_assoc.
Qed.

Lemma Substring_lines_here (x l : string) (rest : list string) :
  Substring x l → Substring x (lines (l :: rest)).
Proof. intros H. cbn [lines]. by apply Substring_app_l. Qed.

Lemma Substring_lines_later (x l : string) (rest : list string) :
  Substring x (lines rest) → Substring x (lines (l :: rest)).
Proof. intros H. cbn [lines]. by do 2 apply Substring_app_r. Qed.

Lemma truthy_nonempty (s : string) : truthy s = true ↔ s ≠ "".
Proof. destruct s; cbn; split; congruence. Qed.

End StrFacts.

(** Search an occurrence through the appends and the lines of the goal. *)
Ltac find_substring :=
  lazymatch goal with
  | |- Str.Substring ?x ?x => apply StrFacts.Substring_refl
  | |- Str.Substring _ (Str.lines (_ :: _)) =>
      first [ apply StrFacts.Substring_lines_here; find_substring
            | apply StrFacts.Substring_lines_later; find_substring ]
  | |- Str.Substring _ (_ +:+ _) =>
      first [ apply StrFacts.Substring_app_l; find_substring
            | apply StrFacts.Substring_app_r; find_substring ]
  end.

(** ** The startup script *)

Module ScriptFacts.
Import Str Script.

Lemma get_zone_same (c c' : Config) : same_inputs c c' → get_zone c = get_zone c'.
Proof. intros (_ & _ & _ & Hz & Hr & _). unfold get_zone. by rewrite Hz, Hr. Qed.

Lemma script_same (c c' : Config) :
  same_inputs c c' → generate_startup_script c = generate_startup_script c'.
Proof.
  intros H. pose proof (get_zone_same _ _ H) as Hz.
  destruct H as (Ho & Hn & Hm & _ & _ & Hh).
  unfold generate_startup_script, header, apache_section, nginx_section, footer.
  by rewrite Ho, Hn, Hm, Hh, Hz.
Qed.

Lemma get_zone_configured (c : Config) : zone c ≠ "" → get_zone c = zone c.
Proof.
  intros H. unfold get_zone. by apply StrFacts.truthy_nonempty in H as ->.
Qed.

Lemma get_zone_derived (c : Config) : zone c = "" → get_zone c = region c +:+ "-a".
Proof. intros H. unfold get_zone. by rewrite H. Qed.

Lemma script_shape (c : Config) :
  generate_startup_script c = header c +:+ section_of c +:+ footer c.
Proof.
  unfold generate_startup_script, section_of.
  destruct (enable_http_server c); [|done].
  destruct (String.eqb _ "ubuntu"); [by rewrite StrFacts.append_assoc|].
  destruct (String.eqb _ "debian"); [by rewrite StrFacts.append_assoc|done].
Qed.

Lemma header_in_script (x : string) (c : Config) :
  Substring x (header c) → Substring x (generate_startup_script c).
Proof. intros H. rewrite script_shape. by apply StrFacts.Substring_app_l. Qed.


Lemma section_in_script (x : string) (c : Config) :
  Substring x (section_of c) → Substring x (generate_startup_script c).
Proof.
  intros H. rewrite script_shape.
  by apply StrFacts.Substring_app_r, StrFacts.Substring_app_l.
Qed.

(** C7: the script is a function of the configuration keys it reads alone
    (two configurations that agree on them give the same text), it contains
    the configured instance name and the resolved zone, and the resolved zone
    is the configured zone when that is not empty and the region followed by
    [-a] when it is: region [us-west1] resolves to [us-west1-a]. *)
Theorem generate_startup_script_deterministic (c : Config) :
  (∀ c', same_inputs c c' →
         generate_startup_script c' = generate_startup_script c) ∧
  Substring (vm_name c) (generate_startup_script c) ∧
  Substring (get_zone c) (generate_startup_script c) ∧
  (zone c ≠ "" → get_zone c = zone c) ∧
  (zone c = "" → get_zone c = region c +:+ "-a") ∧
  (zone c = "" → region c = "us-west1" → get_zone c = "us-west1-a").
Proof.
  split; [|split; [|split; [|split; [|split]]]].
  - intros c' H. symmetry. by apply script_same.
  - apply header_in_script. unfold header, echo. find_substring.
  - apply header_in_script. unfold header, echo. find_substring.
  - apply get_zone_configured.
  - apply get_zone_derived.
  - intros Hz Hr. rewrite get_zone_derived by done. by rewrite Hr.
Qed.

(** The scenario of C7 on the configuration [demo]. *)
Lemma generate_startup_script_deterministic_witness :
  Substring "demo" (generate_startup_script Examples.demo) ∧
  Substring "us-west1-a" (generate_startup_script Examples.demo) ∧
  get_zone Examples.demo = "us-west1-a".
Proof.
  destruct (generate_startup_script_deterministic Examples.demo)
    as (_ & Hn & Hz & _ & _ & Hw).
  rewrite (Hw eq_refl eq_refl) in Hz.
  exact (conj Hn (conj Hz (Hw eq_refl eq_refl))).
Defined.



End ScriptFacts.

(** ** The configuration store *)

Module StoreFacts.
Import Store.

Lemma fill_lookup (config : gmap string json) (key : string) (value : json)
    (k : string) :
  fill config (key, value) !! k
  = match config !! k with
    | Some v => Some v
    | None => if decide (key = k) then Some value else None
    end.
Proof.
  unfold fill. destruct (config !! key) eqn:E.
  - destruct (config !! k) eqn:Ek; [done|].
    case_decide; [congruence|done].
  - rewrite lookup_insert. case_decide.
    + subst k. by rewrite E.
    + by destruct (config !! k).
Qed.

Lemma foldl_fill (l : list (string * json)) (config : gmap string json) :
  foldl fill config l = config ∪ list_to_map l.
Proof.
  revert config. induction l as [|[k v] l IH]; intros config.
  - cbn. by rewrite (right_id_L ∅ (∪)).
  - cbn [foldl]. rewrite IH, list_to_map_cons. apply map_eq. intros i.
    rewrite !lookup_union, fill_lookup, lookup_insert.
    destruct (config !! i), (decide (k = i)), (list_to_map l !! i); done.
Qed.

(** On a document, the merge keeps every key on disk and adds the default of
    every key that is missing. *)
Lemma merge_defaults_union (config : gmap string json) :
  merge_defaults config = config ∪ default_doc.
Proof. unfold merge_defaults, default_doc. by rewrite <- foldl_fill. Qed.

Lemma merge_defaults_lookup (config : gmap string json) (k : string) :
  merge_defaults config !! k
  = match config !! k with
    | Some v => Some v
    | None => default_doc !! k
    end.
Proof.
  rewrite merge_defaults_union, lookup_union.
  destruct (config !! k), (default_doc !! k); done.
Qed.

(** Were the logger there, a missing file would be created with the
    defaults and an unreadable one would give the defaults. *)
Lemma load_config_with_logger (path msg : string) :
  let self := {| config_file := path; logger := true |} in
  (load_config self {| content := Absent; write_error := None |}).1
  = (Ret default_doc, {| content := Document default_doc; write_error := None |}) ∧
  (load_config self {| content := Unreadable msg; write_error := None |}).1.1
  = Ret default_doc.
Proof. done. Qed.

(** C6: [__init__] calls [load_config] before [setup_logging] has assigned
    [self.logger].  A document on disk is returned with the missing defaults
    filled in and nothing is logged; but when the file is missing, it is
    created with the defaults and then [log_info] raises [AttributeError], and
    when it cannot be read or parsed, the error is printed and then
    [log_error] raises [AttributeError]: in both cases no configuration is
    returned and the construction of the manager fails. *)
Theorem load_config_raises_before_logging (path log_filename msg : string)
    (doc : gmap string json) (w : option string) :
  let self := {| config_file := path; logger := false |} in
  load_config self {| content := Document doc; write_error := w |}
  = (Ret (doc ∪ default_doc), {| content := Document doc; write_error := w |}, []) ∧
  load_config self {| content := Absent; write_error := None |}
  = (Raise (AttributeError "VMManager" "logger"),
     {| content := Document default_doc; write_error := None |},
     [Write path default_doc;
      Print (Colors.BLUE +:+ ("[INFO] " +:+ "Created default config file: " +:+ path)
             +:+ Colors.RESET)]) ∧
  load_config self {| content := Unreadable msg; write_error := w |}
  = (Raise (AttributeError "VMManager" "logger"),
     {| content := Unreadable msg; write_error := w |},
     [Print (Colors.RED +:+ ("[ERROR] " +:+ "Error loading config: " +:+ msg)
             +:+ Colors.RESET)]) ∧
  (init path log_filename {| content := Absent; write_error := None |}).1.1
  = Raise (AttributeError "VMManager" "logger") ∧
  (init path log_filename {| content := Unreadable msg; write_error := w |}).1.1
  = Raise (AttributeError "VMManager" "logger").
Proof.
  cbn zeta. split; [|done].
  unfold load_config. cbn [content]. by rewrite merge_defaults_union.
Qed.

End StoreFacts.


Module RunFacts.
Import Str Compute VM Run.

Section Laws.
Context {R : Type}.

Lemma count_app (P : event → bool) (l1 l2 : list event) :
  count P (l1 ++ l2) = (count P l1 + count P l2)%nat.
Proof. unfold count. by rewrite filter_app, length_app. Qed.

Lemma count_zero (P : event → bool) (l : list event) :
  count P l = 0%nat ↔ ∀ e, e ∈ l → P e = false.
Proof.
  unfold count. induction l as [|x l IH].
  - split; [|done]. intros _ e H. by apply elem_of_nil in H.
  - rewrite filter_cons. destruct (decide (P x = true)) as [Hx|Hx].
    + split; [done|]. intros H. specialize (H x (list_elem_of_here _ _)). congruence.
    + rewrite IH. split.
      * intros H e [->|He]%elem_of_cons; [by destruct (P x)|by apply H].
      * intros H e He. apply H. by apply list_elem_of_further.
Qed.

Lemma run_bind {A B} (m : M R A) (f : A → M R B) self r :
  (m ≫= f) self r
  = match res (m self r) with
    | Ret a => after (evs (m self r)) (f a (self_of (m self r)) (env_of (m self r)))
    | Raise e => Build_Out (Raise e) (self_of (m self r)) (env_of (m self r))
                           (evs (m self r))
    | Diverge => Build_Out Diverge (self_of (m self r)) (env_of (m self r))
                           (evs (m self r))
    end.
Proof. unfold mbind, M_bind, bind. by destruct (res (m self r)). Qed.

Lemma run_try {A} (c : exn → bool) (m : M R A) (h : exn → M R A) self r :
  try_catch c m h self r
  = match res (m self r) with
    | Raise e =>
        if c e
        then after (evs (m self r)) (h e (self_of (m self r)) (env_of (m self r)))
        else m self r
    | _ => m self r
    end.
Proof. unfold try_catch. by destruct (res (m self r)). Qed.

Lemma after_after {A} (l1 l2 : list event) (o : Out R A) :
  after l1 (after l2 o) = after (l1 ++ l2) o.
Proof. unfold after. cbn. by rewrite app_assoc. Qed.

Lemma after_nil {A} (o : Out R A) : after [] o = o.
Proof. by destruct o. Qed.

(** Binding a computation that only emits events. *)
Lemma run_emit_bind {A B} (m : M R A) (f : A → M R B) (a : A) (l : list event) self r :
  m self r = Build_Out (Ret a) self r l →
  (m ≫= f) self r = after l (f a self r).
Proof. intros H. rewrite run_bind, H. done. Qed.

Lemma run_log_info (msg : string) self (r : R) :
  log_info msg self r = Build_Out (Ret tt) self r (info msg).
Proof. done. Qed.
Lemma run_log_success (msg : string) self (r : R) :
  log_success msg self r = Build_Out (Ret tt) self r (success msg).
Proof. done. Qed.
Lemma run_log_warning (msg : string) self (r : R) :
  log_warning msg self r = Build_Out (Ret tt) self r (warning msg).
Proof. done. Qed.
Lemma run_log_error (msg : string) self (r : R) :
  log_error msg self r = Build_Out (Ret tt) self r (failure msg).
Proof. done. Qed.

Lemma run_get_config {B} (f : Config → M R B) self r :
  (get_config ≫= f) self r = f (config self) self r.
Proof. rewrite run_bind. cbn. apply after_nil. Qed.

Lemma run_call {A} (g : R → result A * R) (ev : result A → event)
    (x : result A) (r' : R) self r :
  g r = (x, r') →
  call g ev self r
  = Build_Out (match x with Ok a => Ret a | Err e => Raise e end) self r' [ev x].
Proof. intros H. unfold call. by rewrite H. Qed.

End Laws.
End RunFacts.

(** ** The operation poller *)

Module PollerFacts.
Import Str Compute VM Run RunFacts.

Section Poller.
Context {R : Type} (api : Api R).

Lemma run_poll_named (h : Handle) (n : string) (x : result Operation) (r1 : R) self r :
  op_name h = Some n →
  zone_operations_get api (project_id (config self)) (Script.get_zone (config self)) n r
  = (x, r1) →
  poll api h self r
  = Build_Out (match x with Ok a => Ret a | Err e => Raise e end) self r1
      [ZoneOperationsGet (project_id (config self)) (Script.get_zone (config self)) n x].
Proof.
  intros Hn Hx. unfold poll. rewrite run_get_config, Hn. cbn.
  unfold attr_name. rewrite Hn.
  rewrite (run_emit_bind _ _ n []) by done.
  rewrite (run_call _ _ _ _ _ _ Hx). by destruct x.
Qed.

Lemma run_poll_nameless (h : Handle) self r :
  op_name h = None →
  poll api h self r = Build_Out (Raise (AttributeError "Operation" "name")) self r [].
Proof.
  intros Hn. unfold poll. rewrite run_get_config, Hn. cbn.
  unfold attr_name. by rewrite Hn.
Qed.

Lemma wait_loop_step (fuel : nat) (h : Handle) (ty : string) :
  wait_loop api (S fuel) h ty
  = (result ← poll api h;
     if is_DONE (status result) then
       if truthy (error result) then
         log_error (ty +:+ " failed: " +:+ error result);; mret false
       else
         log_success (ty +:+ " completed successfully");; mret true
     else
       log_info (ty +:+ " in progress... (" +:+ pretty (progress result) +:+ "%)");;
       sleep 2;;
       wait_loop api fuel h ty).
Proof. done. Qed.

(** One round that sees the operation not done. *)
Lemma wait_loop_round (fuel : nat) (h : Handle) (n ty : string) (o : Operation)
    (r1 : R) self r :
  op_name h = Some n →
  zone_operations_get api (project_id (config self)) (Script.get_zone (config self)) n r
  = (Ok o, r1) →
  is_DONE (status o) = false →
  wait_loop api (S fuel) h ty self r
  = after (round (config self) n ty o) (wait_loop api fuel h ty self r1).
Proof.
  intros Hn Hx Hs. rewrite wait_loop_step, run_bind.
  rewrite (run_poll_named _ _ _ _ _ _ Hn Hx). cbn [res self_of env_of evs]. rewrite Hs.
  rewrite (run_emit_bind _ _ tt _ _ _ (run_log_info _ _ _)).
  rewrite (run_emit_bind (sleep 2) _ tt [Sleep 2]) by done.
  rewrite !after_after. reflexivity.
Qed.

(** The round that sees the operation done. *)
Lemma wait_loop_done (fuel : nat) (h : Handle) (n ty : string) (o : Operation)
    (r1 : R) self r :
  op_name h = Some n →
  zone_operations_get api (project_id (config self)) (Script.get_zone (config self)) n r
  = (Ok o, r1) →
  is_DONE (status o) = true →
  wait_loop api (S fuel) h ty self r
  = Build_Out (Ret (negb (truthy (error o)))) self r1
              (last_round (config self) n ty o).
Proof.
  intros Hn Hx Hs. rewrite wait_loop_step, run_bind.
  rewrite (run_poll_named _ _ _ _ _ _ Hn Hx). cbn [res self_of env_of evs]. rewrite Hs.
  unfold last_round. destruct (truthy (error o)).
  - by rewrite (run_emit_bind _ _ tt _ _ _ (run_log_error _ _ _)).
  - by rewrite (run_emit_bind _ _ tt _ _ _ (run_log_success _ _ _)).
Qed.

Lemma wait_loop_observed (h : Handle) (n ty : string) (pre : list Operation)
    (last : Operation) (fuel : nat) self r r' :
  op_name h = Some n →
  Forall (λ o, is_DONE (status o) = false) pre →
  is_DONE (status last) = true →
  observed api (config self) n (pre ++ [last]) r r' →
  (List.length pre < fuel)%nat →
  wait_loop api fuel h ty self r
  = Build_Out (Ret (negb (truthy (error last)))) self r'
      (flat_map (round (config self) n ty) pre ++ last_round (config self) n ty last).
Proof.
  intros Hn Hpre Hlast. revert fuel r.
  induction Hpre as [|o pre Ho Hpre IH]; intros fuel r Hobs Hfuel.
  - destruct fuel as [|fuel]; [cbn in Hfuel; lia|].
    destruct Hobs as (r1 & Hx & ->).
    by rewrite (wait_loop_done _ _ _ _ _ _ _ _ Hn Hx Hlast).
  - destruct fuel as [|fuel]; [cbn in Hfuel; lia|].
    destruct Hobs as (r1 & Hx & Hobs).
    rewrite (wait_loop_round _ _ _ _ _ _ _ _ Hn Hx Ho).
    rewrite (IH fuel r1 Hobs) by (cbn in Hfuel; lia).
    unfold after. cbn [res self_of env_of evs flat_map]. by rewrite <- app_assoc.
Qed.

Lemma wait_loop_running (h : Handle) (n ty : string) (pre rest : list Operation)
    (fuel : nat) self r r' :
  op_name h = Some n →
  Forall (λ o, is_DONE (status o) = false) pre →
  observed api (config self) n (pre ++ rest) r r' →
  (fuel ≤ List.length pre)%nat →
  res (wait_loop api fuel h ty self r) = Diverge.
Proof.
  intros Hn Hpre. revert fuel r.
  induction Hpre as [|o pre Ho Hpre IH]; intros fuel r Hobs Hfuel.
  - destruct fuel; [done|cbn in Hfuel; lia].
  - destruct fuel as [|fuel]; [done|].
    destruct Hobs as (r1 & Hx & Hobs).
    rewrite (wait_loop_round _ _ _ _ _ _ _ _ Hn Hx Ho). cbn [after res].
    apply (IH fuel r1 Hobs). cbn in Hfuel. lia.
Qed.

Lemma run_wait_for_operation (fuel : nat) (h : Handle) (ty : string) self r :
  wait_for_operation api fuel h ty self r
  = after (info ("Waiting for " +:+ ty +:+ " to complete..."))
          (wait_loop api fuel h ty self r).
Proof.
  unfold wait_for_operation.
  by rewrite (run_emit_bind _ _ tt _ _ _ (run_log_info _ _ _)).
Qed.

(** C1: when the polls of a named operation answer a sequence of
    observations of which the last, and only the last, is DONE, and the loop
    is given more rounds than there are earlier observations,
    [wait_for_operation] returns [True] exactly when the DONE observation has
    no error attached and [False] exactly when it has one; it leaves the
    object untouched; and its events are the opening log line, then for each
    earlier observation the poll, the progress line with the numeric progress
    and a sleep of 2, then the last poll and the success line or the failure
    line with the error.  With no more rounds than earlier observations it has
    not returned: nothing but a DONE observation ends the loop. *)
Theorem wait_for_operation_polls (h : Handle) (n ty : string)
    (pre : list Operation) (last : Operation) (fuel : nat) self r r' :
  op_name h = Some n →
  Forall (λ o, status o ≠ DONE) pre →
  status last = DONE →
  observed api (config self) n (pre ++ [last]) r r' →
  ((List.length pre < fuel)%nat →
     wait_for_operation api fuel h ty self r
     = Build_Out (Ret (bool_decide (error last = ""))) self r'
         (info ("Waiting for " +:+ ty +:+ " to complete...")
          ++ flat_map (round (config self) n ty) pre
          ++ last_round (config self) n ty last)) ∧
  ((fuel ≤ List.length pre)%nat →
     res (wait_for_operation api fuel h ty self r) = Diverge).
Proof.
  intros Hn Hpre Hlast Hobs.
  assert (Forall (λ o, is_DONE (status o) = false) pre) as Hpre'.
  { eapply Forall_impl; [exact Hpre|]. intros o Ho. cbn in Ho. by destruct (status o). }
  assert (is_DONE (status last) = true) as Hlast' by (by rewrite Hlast).
  split; intros Hfuel; rewrite run_wait_for_operation.
  - rewrite (wait_loop_observed _ _ _ _ _ _ _ _ _ Hn Hpre' Hlast' Hobs Hfuel).
    unfold after. cbn [res self_of env_of evs]. f_equal. f_equal.
    destruct (error last); cbn; [done|]. by rewrite bool_decide_eq_false_2.
  - cbn [after res]. by apply (wait_loop_running _ _ _ _ _ _ _ _ _ Hn Hpre' Hobs).
Qed.

End Poller.
End PollerFacts.

(** ** Laws of the three properties of computations *)

Module Laws.
Import Str Compute VM Run RunFacts.

Section Laws.
Context {R : Type}.
Implicit Types P : event → bool.

Lemma bounded_ret {A} n P (a : A) : bounded (R:=R) n P (mret a).
Proof. intros self r. change (0 ≤ n)%nat. lia. Qed.

Lemma bounded_raise {A} n P e : bounded (R:=R) (A:=A) n P (raise e).
Proof. intros self r. change (0 ≤ n)%nat. lia. Qed.

Lemma bounded_diverge {A} n P : bounded (R:=R) (A:=A) n P diverge.
Proof. intros self r. change (0 ≤ n)%nat. lia. Qed.

Lemma bounded_get_config n P : bounded (R:=R) n P get_config.
Proof. intros self r. change (0 ≤ n)%nat. lia. Qed.

Lemma bounded_get_config_file n P : bounded (R:=R) n P get_config_file.
Proof. intros self r. change (0 ≤ n)%nat. lia. Qed.

Lemma bounded_set_config n P c : bounded (R:=R) n P (set_config c).
Proof. intros self r. change (0 ≤ n)%nat. lia. Qed.

Lemma count_one P e : (count P [e] ≤ 1)%nat.
Proof.
  unfold count. rewrite filter_cons.
  destruct (decide (P e = true)); cbn; lia.
Qed.

Lemma count_none P e : P e = false → count P [e] = 0%nat.
Proof.
  intros H. unfold count. rewrite filter_cons.
  destruct (decide (P e = true)); [congruence|done].
Qed.

Lemma bounded_emit n P e : P e = false → bounded (R:=R) n P (emit e).
Proof.
  intros H self r. change (count P [e] ≤ n)%nat. rewrite count_none by done. lia.
Qed.

Lemma bounded_call {A} n P (g : R → result A * R) ev :
  (∀ x, P (ev x) = false) → bounded n P (call g ev).
Proof.
  intros H self r. unfold call. destruct (g r) as [x r'].
  change (count P [ev x] ≤ n)%nat. rewrite count_none by done. lia.
Qed.

Lemma bounded_call_one {A} P (g : R → result A * R) ev : bounded 1 P (call g ev).
Proof. intros self r. unfold call. destruct (g r) as [x r']. apply count_one. Qed.

Lemma bounded_bind {A B} a b P (m : M R A) (f : A → M R B) :
  bounded a P m → (∀ x, bounded b P (f x)) → bounded (a + b) P (m ≫= f).
Proof.
  intros Hm Hf self r. rewrite run_bind. specialize (Hm self r).
  destruct (res (m self r)) as [x| |]; cbn [evs after]; [|lia..].
  rewrite count_app. specialize (Hf x (self_of (m self r)) (env_of (m self r))). lia.
Qed.

Lemma bounded_try {A} a b P c (m : M R A) (h : exn → M R A) :
  bounded a P m → (∀ e, bounded b P (h e)) → bounded (a + b) P (try_catch c m h).
Proof.
  intros Hm Hh self r. rewrite run_try. specialize (Hm self r).
  destruct (res (m self r)) as [|e|]; cbn [evs after]; [lia| |lia].
  destruct (c e); cbn [evs after]; [|lia].
  rewrite count_app. specialize (Hh e (self_of (m self r)) (env_of (m self r))). lia.
Qed.

Lemma bounded_bind_quiet {A B} n P (m : M R A) (f : A → M R B) :
  bounded 0 P m → (∀ x, bounded n P (f x)) → bounded n P (m ≫= f).
Proof. apply (bounded_bind 0 n). Qed.

Lemma bounded_bind_then_quiet {A B} n P (m : M R A) (f : A → M R B) :
  bounded n P m → (∀ x, bounded 0 P (f x)) → bounded n P (m ≫= f).
Proof. intros Hm Hf. rewrite <- (Nat.add_0_r n). by apply bounded_bind. Qed.

Lemma bounded_try_quiet {A} n P c (m : M R A) (h : exn → M R A) :
  bounded n P m → (∀ e, bounded 0 P (h e)) → bounded n P (try_catch c m h).
Proof. intros Hm Hh. rewrite <- (Nat.add_0_r n). by apply bounded_try. Qed.

Lemma bounded_quiet {A} n P (m : M R A) : bounded 0 P m → bounded n P m.
Proof. intros H self r. specialize (H self r). lia. Qed.

Lemma keeps_ret {A} (a : A) : keeps (R:=R) (mret a).
Proof. done. Qed.
Lemma keeps_raise {A} e : keeps (R:=R) (A:=A) (raise e).
Proof. done. Qed.
Lemma keeps_diverge {A} : keeps (R:=R) (A:=A) diverge.
Proof. done. Qed.
Lemma keeps_emit e : keeps (R:=R) (emit e).
Proof. done. Qed.
Lemma keeps_get_config : keeps (R:=R) get_config.
Proof. done. Qed.
Lemma keeps_get_config_file : keeps (R:=R) get_config_file.
Proof. done. Qed.
Lemma keeps_call {A} (g : R → result A * R) ev : keeps (call g ev).
Proof. intros self r. unfold call. by destruct (g r). Qed.

Lemma keeps_bind {A B} (m : M R A) (f : A → M R B) :
  keeps m → (∀ x, keeps (f x)) → keeps (m ≫= f).
Proof.
  intros Hm Hf self r. rewrite run_bind. specialize (Hm self r).
  destruct (res (m self r)); cbn; [|done..]. by rewrite Hf.
Qed.

Lemma keeps_try {A} c (m : M R A) (h : exn → M R A) :
  keeps m → (∀ e, keeps (h e)) → keeps (try_catch c m h).
Proof.
  intros Hm Hh self r. rewrite run_try. specialize (Hm self r).
  destruct (res (m self r)) as [|e|]; cbn; [done| |done].
  destruct (c e); cbn; [|done]. by rewrite Hh.
Qed.

Lemma no_exception_ret {A} (a : A) : no_exception (R:=R) (mret a).
Proof. done. Qed.
Lemma no_exception_diverge {A} : no_exception (R:=R) (A:=A) diverge.
Proof. done. Qed.
Lemma no_exception_emit e : no_exception (R:=R) (emit e).
Proof. done. Qed.
Lemma no_exception_get_config : no_exception (R:=R) get_config.
Proof. done. Qed.
Lemma no_exception_get_config_file : no_exception (R:=R) get_config_file.
Proof. done. Qed.
Lemma no_exception_set_config c : no_exception (R:=R) (set_config c).
Proof. done. Qed.

Lemma no_exception_bind {A B} (m : M R A) (f : A → M R B) :
  no_exception m → (∀ x, no_exception (f x)) → no_exception (m ≫= f).
Proof.
  intros Hm Hf self r e. rewrite run_bind. specialize (Hm self r).
  destruct (res (m self r)) as [a|e'|] eqn:E; cbn [res after];
    [apply Hf|intros [= ->]; by apply Hm|done].
Qed.

(** A [try] that catches every [Exception], and whose handler lets none out,
    lets none out, whatever its body does. *)
Lemma no_exception_try {A} c (m : M R A) (h : exn → M R A) :
  (∀ e, is_exception e = true → c e = true) →
  (∀ e, no_exception (h e)) → no_exception (try_catch c m h).
Proof.
  intros Hc Hh self r e. rewrite run_try.
  destruct (res (m self r)) as [a|e'|] eqn:E; [by rewrite E| |by rewrite E].
  destruct (c e') eqn:Ec; [apply Hh|].
  rewrite E. intros [= ->]. destruct (is_exception e) eqn:Hi; [|done].
  rewrite (Hc _ Hi) in Ec. discriminate.
Qed.

End Laws.
End Laws.

(** Decompose a goal on a method into goals on its parts. *)
Ltac method_step :=
  first
    [ apply Laws.bounded_ret | apply Laws.bounded_raise | apply Laws.bounded_diverge
    | apply Laws.bounded_get_config | apply Laws.bounded_get_config_file
    | apply Laws.bounded_set_config
    | apply Laws.bounded_emit; first [reflexivity | done]
    | apply Laws.bounded_call; intros ?; first [reflexivity | done]
    | apply Laws.bounded_bind_quiet; [|intros ?]
    | apply Laws.bounded_try_quiet; [|intros ?]
    | apply Laws.keeps_ret | apply Laws.keeps_raise | apply Laws.keeps_diverge
    | apply Laws.keeps_emit | apply Laws.keeps_get_config
    | apply Laws.keeps_get_config_file | apply Laws.keeps_call
    | apply Laws.keeps_bind; [|intros ?]
    | apply Laws.keeps_try; [|intros ?]
    | apply Laws.no_exception_ret | apply Laws.no_exception_diverge
    | apply Laws.no_exception_emit | apply Laws.no_exception_get_config
    | apply Laws.no_exception_get_config_file | apply Laws.no_exception_set_config
    | apply Laws.no_exception_try; [done|intros ?]
    | apply Laws.no_exception_bind; [|intros ?]
    | match goal with
      | |- _ (if ?b then _ else _) => destruct b
      | |- _ (match ?x with _ => _ end) => destruct x
      end ].

Ltac method_steps :=
  unfold VM.log_info, VM.log_success, VM.log_warning, VM.log_error,
         VM.print_colored, VM.print, VM.sleep;
  repeat method_step.

(** ** The parts of the lifecycle methods *)

Module PartsFacts.
Import Str Compute VM Run RunFacts Laws PollerFacts.

Ltac passive_steps H :=
  destruct H as (? & ? & ? & ? & ? & ?);
  unfold VM.log_info, VM.log_success, VM.log_warning, VM.log_error,
         VM.print_colored, VM.print, VM.sleep;
  repeat first
    [ apply Laws.bounded_emit; solve [auto]
    | apply Laws.bounded_call; intros ?; solve [auto]
    | method_step ].

Section Parts.
Context {R : Type} (api : Api R).
Implicit Types P : event → bool.

Lemma keeps_poll h : keeps (poll api h).
Proof. unfold poll, attr_name. method_steps. Qed.

Lemma keeps_wait_loop fuel h ty : keeps (wait_loop api fuel h ty).
Proof.
  induction fuel as [|fuel IH]; [apply keeps_diverge|].
  rewrite wait_loop_step. apply keeps_bind; [apply keeps_poll|intros o].
  method_steps. exact IH.
Qed.

Lemma keeps_wait_for_operation fuel h ty : keeps (wait_for_operation api fuel h ty).
Proof. unfold wait_for_operation. method_steps. apply keeps_wait_loop. Qed.

Lemma quiet_poll P h : passive P → bounded 0 P (poll api h).
Proof. intros HP. unfold poll, attr_name. passive_steps HP. Qed.

Lemma quiet_wait_loop P fuel h ty : passive P → bounded 0 P (wait_loop api fuel h ty).
Proof.
  intros HP. induction fuel as [|fuel IH]; [apply bounded_diverge|].
  rewrite wait_loop_step. apply bounded_bind_quiet; [by apply quiet_poll|intros o].
  passive_steps HP. exact IH.
Qed.

Lemma quiet_wait_for_operation P fuel h ty :
  passive P → bounded 0 P (wait_for_operation api fuel h ty).
Proof.
  intros HP. unfold wait_for_operation.
  apply bounded_bind_quiet; [|intros ?; by apply quiet_wait_loop].
  passive_steps HP.
Qed.

(** The poll never asks the global-operations client for an answer: the
    branch that would is taken only by a handle with no name, and stops at
    [operation.name]. *)
Lemma poll_never_global h : bounded 0 is_global_get (poll api h).
Proof.
  intros self r. destruct (op_name h) as [n|] eqn:Hn.
  - destruct (zone_operations_get api (project_id (config self))
                (Script.get_zone (config self)) n r) as [x r1] eqn:Hx.
    by rewrite (run_poll_named _ _ _ _ _ _ _ Hn Hx).
  - by rewrite (run_poll_nameless _ _ _ _ Hn).
Qed.

(** A wait that returns [True] has seen the operation done with no error. *)
Lemma wait_loop_true fuel h ty self r :
  res (wait_loop api fuel h ty self r) = Ret true →
  ∃ e, e ∈ evs (wait_loop api fuel h ty self r) ∧ is_done_ok e = true.
Proof.
  revert r. induction fuel as [|fuel IH]; intros r; [done|].
  destruct (op_name h) as [n|] eqn:Hn.
  - destruct (zone_operations_get api (project_id (config self))
                (Script.get_zone (config self)) n r) as [[o|e] r1] eqn:Hx.
    + destruct (is_DONE (status o)) eqn:Hs.
      * rewrite (wait_loop_done _ _ _ _ _ _ _ _ _ Hn Hx Hs). cbn [res evs].
        intros [= Herr]. eexists. split; [apply list_elem_of_here|].
        cbn. rewrite Hs. by destruct (truthy (error o)).
      * rewrite (wait_loop_round _ _ _ _ _ _ _ _ _ Hn Hx Hs). cbn [after res evs].
        intros H. destruct (IH _ H) as (e & He & Hd).
        exists e. split; [|done]. apply elem_of_app. by right.
    + rewrite wait_loop_step, run_bind, (run_poll_named _ _ _ _ _ _ _ Hn Hx). done.
  - rewrite wait_loop_step, run_bind, (run_poll_nameless _ _ _ _ Hn). done.
Qed.

Lemma wait_for_operation_true fuel h ty self r :
  res (wait_for_operation api fuel h ty self r) = Ret true →
  ∃ e, e ∈ evs (wait_for_operation api fuel h ty self r) ∧ is_done_ok e = true.
Proof.
  rewrite run_wait_for_operation. cbn [after res evs]. intros H.
  destruct (wait_loop_true _ _ _ _ _ H) as (e & He & Hd).
  exists e. split; [|done]. apply elem_of_app. by right.
Qed.

(** [save_config]: one write of the current configuration, whatever it
    answers. *)
Lemma run_save_config self r :
  save_config api self r
  = match file_write api (config_file self) (config self) r with
    | (Ok _, r') =>
        Build_Out (Ret tt) self r'
          (FileWrite (config_file self) (config self)
           :: success ("Configuration saved to " +:+ config_file self))
    | (Err e, r') =>
        if is_exception e then
          Build_Out (Ret tt) self r'
            (FileWrite (config_file self) (config self)
             :: failure ("Error saving config: " +:+ exn_msg e))
        else
          Build_Out (Raise e) self r' [FileWrite (config_file self) (config self)]
    end.
Proof.
  unfold save_config. rewrite run_try, run_get_config.
  rewrite (run_emit_bind get_config_file _ (config_file self) []) by done.
  rewrite after_nil, run_bind.
  destruct (file_write api (config_file self) (config self) r) as [[[]|e] r'] eqn:Hw;
    rewrite (run_call _ _ _ _ _ _ Hw); [done|].
  cbn [res]. by destruct (is_exception e).
Qed.

Lemma keeps_save_config : keeps (save_config api).
Proof. unfold save_config. method_steps. Qed.

Lemma no_exception_save_config : no_exception (save_config api).
Proof. unfold save_config. method_steps. Qed.

Lemma quiet_save_config P :
  passive P → (∀ p c, P (FileWrite p c) = false) → bounded 0 P (save_config api).
Proof. intros HP Hw. unfold save_config. passive_steps HP. Qed.

(** [get_instance_status]: one read of the instance. *)
Lemma run_get_instance_status self r :
  get_instance_status api self r
  = let c := config self in
    match instances_get api (project_id c) (Script.get_zone c) (vm_name c) r with
    | (Ok i, r1) =>
        Build_Out (Ret (Some (inst_status i))) self r1
          [InstancesGet (project_id c) (Script.get_zone c) (vm_name c)]
    | (Err e, r1) =>
        if is_exception e then
          Build_Out (Ret None) self r1
            (InstancesGet (project_id c) (Script.get_zone c) (vm_name c)
             :: failure ("Failed to get instance status: " +:+ exn_msg e))
        else
          Build_Out (Raise e) self r1
            [InstancesGet (project_id c) (Script.get_zone c) (vm_name c)]
    end.
Proof.
  unfold get_instance_status. rewrite run_try, run_get_config, run_bind. cbn zeta.
  destruct (instances_get api _ _ _ r) as [[i|e] r1] eqn:Hg;
    rewrite (run_call _ _ _ _ _ _ Hg); [done|].
  cbn [res]. by destruct (is_exception e).
Qed.

Lemma keeps_get_instance_status : keeps (get_instance_status api).
Proof. unfold get_instance_status. method_steps. Qed.

Lemma no_exception_get_instance_status : no_exception (get_instance_status api).
Proof. unfold get_instance_status. method_steps. Qed.

Lemma quiet_get_instance_status P : passive P → bounded 0 P (get_instance_status api).
Proof. intros HP. unfold get_instance_status. passive_steps HP. Qed.

Lemma keeps_show_access_info : keeps (show_access_info api).
Proof. unfold show_access_info. method_steps. Qed.

Lemma no_exception_show_access_info : no_exception (show_access_info api).
Proof. unfold show_access_info. method_steps. Qed.

Lemma quiet_show_access_info P : passive P → bounded 0 P (show_access_info api).
Proof. intros HP. unfold show_access_info. passive_steps HP. Qed.

(** C2: whatever the scope of the operation, a handle that has a name is
    polled through the zone-operations client, with the zone of the
    configuration; the global-operations client is never asked; and a handle
    without a name, the only one that reaches the other branch, raises
    [AttributeError] there. *)
Theorem poll_ignores_scope (n : string) (sc : scope) self r :
  let c := config self in
  (∃ x, evs (poll api {| op_name := Some n; op_scope := sc |} self r)
        = [ZoneOperationsGet (project_id c) (Script.get_zone c) n x]) ∧
  (∀ h, count is_global_get (evs (poll api h self r)) = 0%nat) ∧
  poll api {| op_name := None; op_scope := sc |} self r
  = Build_Out (Raise (AttributeError "Operation" "name")) self r [].
Proof.
  cbn zeta. split; [|split].
  - destruct (zone_operations_get api (project_id (config self))
                (Script.get_zone (config self)) n r) as [x r1] eqn:Hx.
    exists x.
    by rewrite (run_poll_named api {| op_name := Some n; op_scope := sc |}
                  n x r1 self r eq_refl Hx).
  - intros h. pose proof (poll_never_global h self r). lia.
  - by apply run_poll_nameless.
Qed.

End Parts.
End PartsFacts.

(** ** Running a method step by step *)

Module Exec.
Import Str Compute VM Run RunFacts.

Section Exec.
Context {R : Type}.

Lemma run_bind_out {A B} (m : M R A) (f : A → M R B) self r x s' r' l :
  m self r = Build_Out x s' r' l →
  (m ≫= f) self r
  = match x with
    | Ret a => after l (f a s' r')
    | Raise e => Build_Out (Raise e) s' r' l
    | Diverge => Build_Out Diverge s' r' l
    end.
Proof. intros H. rewrite run_bind, H. by destruct x. Qed.

Lemma try_bind_out {A B} c (m : M R A) (f : A → M R B) (h : exn → M R B)
    self r x s' r' l :
  m self r = Build_Out x s' r' l →
  try_catch c (m ≫= f) h self r
  = match x with
    | Ret a => after l (try_catch c (f a) h s' r')
    | Raise e => if c e then after l (h e s' r') else Build_Out (Raise e) s' r' l
    | Diverge => Build_Out Diverge s' r' l
    end.
Proof.
  intros H. rewrite run_try, run_bind, H.
  destruct x as [a|e|]; cbn [res self_of env_of evs]; [| |reflexivity].
  2:{ by destruct (c e). }
  unfold after. cbn [res self_of env_of evs]. rewrite run_try.
  destruct (res (f a s' r')) as [b|e|] eqn:E; cbn [res self_of env_of evs];
    rewrite ?E; [reflexivity| |reflexivity].
  destruct (c e); cbn [res self_of env_of evs]; rewrite ?E; [|reflexivity].
  unfold after. cbn [res self_of env_of evs]. f_equal. by rewrite app_assoc.
Qed.

Lemma try_ret {A} c (a : A) (h : exn → M R A) self r :
  try_catch c (mret a) h self r = Build_Out (Ret a) self r [].
Proof. done. Qed.

(** A [try] around a statement whose outcome is known. *)
Lemma try_out {A} c (m : M R A) (h : exn → M R A) self r x s' r' l :
  m self r = Build_Out x s' r' l →
  try_catch c m h self r
  = match x with
    | Raise e => if c e then after l (h e s' r') else Build_Out (Raise e) s' r' l
    | _ => Build_Out x s' r' l
    end.
Proof.
  intros H. rewrite run_try, H. cbn [res self_of env_of evs].
  destruct x as [a|e|]; [reflexivity| |reflexivity]. by destruct (c e).
Qed.

Lemma after_out {A} (l l' : list event) (x : outcome A) s (r : R) :
  after l (Build_Out x s r l') = Build_Out x s r (l ++ l').
Proof. done. Qed.

Lemma out_eta {A} (o : Out R A) :
  o = Build_Out (res o) (self_of o) (env_of o) (evs o).
Proof. by destruct o. Qed.

Lemma run_mret {A} (a : A) self (r : R) :
  mret (M:=M R) a self r = Build_Out (Ret a) self r [].
Proof. done. Qed.
Lemma run_raise {A} e self (r : R) :
  raise (A:=A) e self r = Build_Out (Raise e) self r [].
Proof. done. Qed.
Lemma run_config self (r : R) :
  get_config self r = Build_Out (Ret (config self)) self r [].
Proof. done. Qed.
Lemma run_config_file self (r : R) :
  get_config_file self r = Build_Out (Ret (config_file self)) self r [].
Proof. done. Qed.
Lemma run_set_config c self (r : R) :
  set_config c self r = Build_Out (Ret tt) (with_config c self) r [].
Proof. done. Qed.
Lemma run_sleep z self (r : R) : sleep z self r = Build_Out (Ret tt) self r [Sleep z].
Proof. done. Qed.
Lemma run_print t self (r : R) : print t self r = Build_Out (Ret tt) self r [Print t].
Proof. done. Qed.
Lemma run_print_colored m c self (r : R) :
  print_colored m c self r = Build_Out (Ret tt) self r (printed m c).
Proof. done. Qed.

End Exec.
End Exec.

(** The equation of a statement that only computes. *)
Ltac pure_eqn m s r :=
  lazymatch m with
  | VM.log_info ?x => constr:(RunFacts.run_log_info x s r)
  | VM.log_success ?x => constr:(RunFacts.run_log_success x s r)
  | VM.log_warning ?x => constr:(RunFacts.run_log_warning x s r)
  | VM.log_error ?x => constr:(RunFacts.run_log_error x s r)
  | VM.sleep ?z => constr:(Exec.run_sleep z s r)
  | VM.print ?t => constr:(Exec.run_print t s r)
  | VM.print_colored ?a ?b => constr:(Exec.run_print_colored a b s r)
  | VM.get_config => constr:(Exec.run_config s r)
  | VM.get_config_file => constr:(Exec.run_config_file s r)
  | VM.set_config ?c => constr:(Exec.run_set_config c s r)
  | @VM.raise _ ?A ?e => constr:(@Exec.run_raise _ A e s r)
  | mret ?a => constr:(Exec.run_mret a s r)
  end.

(** Run the next statement of the method under execution in the goal: a
    statement whose outcome is a hypothesis, or one that only computes. *)
Ltac run_step :=
  match goal with
  | H : ?m ?s ?r = VM.Build_Out _ _ _ _
    |- context [VM.try_catch ?c (?m ≫= ?f) ?h ?s ?r] =>
      rewrite (Exec.try_bind_out c m f h s r _ _ _ _ H); cbv beta iota
  | H : ?m ?s ?r = VM.Build_Out _ _ _ _ |- context [(?m ≫= ?f) ?s ?r] =>
      rewrite (Exec.run_bind_out m f s r _ _ _ _ H); cbv beta iota
  | |- context [VM.try_catch ?c (?m ≫= ?f) ?h ?s ?r] =>
      let E := pure_eqn m s r in
      rewrite (Exec.try_bind_out c m f h s r _ _ _ _ E); cbv beta iota
  | |- context [(?m ≫= ?f) ?s ?r] =>
      let E := pure_eqn m s r in
      rewrite (Exec.run_bind_out m f s r _ _ _ _ E); cbv beta iota
  | |- context [VM.try_catch ?c (mret ?a) ?h ?s ?r] =>
      rewrite (Exec.try_ret c a h s r)
  | |- context [mret ?a ?s ?r] => rewrite (Exec.run_mret a s r)
  end.

(** Close an equation between two outcomes once the method has run. *)
Ltac run_done :=
  rewrite ?RunFacts.after_after; unfold Run.after;
  cbn [VM.res VM.self_of VM.env_of VM.evs];
  f_equal; cbn [app]; rewrite ?app_nil_r, <- ?app_assoc; cbn [app]; reflexivity.

(** Replace by 0 the counts that compute to it. *)
Ltac count_concrete :=
  repeat match goal with
         | |- context [Run.count ?P ?l] =>
             progress (replace (Run.count P l) with 0%nat by reflexivity)
         end.

(** ** Starting and stopping *)

Module StartStopFacts.
Import Str Compute VM Run RunFacts Laws PollerFacts PartsFacts Exec.

Section StartStop.
Context {R : Type} (api : Api R).

(** [save_config] returns, or is left by an exception that is no
    [Exception]. *)
Lemma res_save_config self r :
  res (save_config api self r) = Ret tt ∨
  ∃ e, res (save_config api self r) = Raise e ∧ is_exception e = false.
Proof.
  rewrite run_save_config. destruct (file_write api _ _ r) as [[[]|e] ?]; [by left|].
  destruct (is_exception e) eqn:He; [by left|right; by exists e].
Qed.

Lemma run_stop_instance fuel self r :
  stop_instance api fuel self r
  = let c := config self in
    let p := project_id c in
    let z := Script.get_zone c in
    let n := vm_name c in
    match instances_get api p z n r with
    | (Err e, r1) =>
        if is_exception e then
          Build_Out (Ret false) self r1
            (InstancesGet p z n
             :: failure ("Failed to get instance status: " +:+ exn_msg e)
             ++ failure ("Instance " +:+ n +:+ " not found"))
        else Build_Out (Raise e) self r1 [InstancesGet p z n]
    | (Ok i, r1) =>
        if stopped (inst_status i) then
          Build_Out (Ret true) self r1
            (InstancesGet p z n
             :: warning ("Instance " +:+ n +:+ " is already stopped"))
        else
          after (InstancesGet p z n
                 :: info ("Stopping instance " +:+ n +:+ "...")
                 ++ [InstancesStop p z n])
            match instances_stop api p z n r1 with
            | (Err e, r2) =>
                if is_exception e then
                  Build_Out (Ret false) self r2
                    (failure ("Failed to stop instance: " +:+ exn_msg e))
                else Build_Out (Raise e) self r2 []
            | (Ok h, r2) =>
                stop_finish api self (wait_for_operation api fuel h "instance stop" self r2)
            end
    end.
Proof.
  unfold stop_instance. rewrite run_get_config.
  pose proof (run_get_instance_status api self r) as Hst. cbn zeta in *.
  destruct (instances_get api _ _ _ r) as [[i|e] r1] eqn:Hg.
  2:{ destruct (is_exception e); run_step; reflexivity. }
  run_step.
  fold (stopped (inst_status i)). destruct (stopped (inst_status i)); [reflexivity|].
  do 2 run_step.
  destruct (instances_stop api _ _ _ r1) as [[h|e] r2] eqn:Hs;
    pose proof (run_call _ (λ _, InstancesStop (project_id (config self))
                  (Script.get_zone (config self)) (vm_name (config self)))
                  _ _ self r1 Hs) as Hc;
    cbv beta iota in Hc; run_step; [|by destruct (is_exception e)].
  unfold stop_finish.
  pose proof (keeps_wait_for_operation api fuel h "instance stop" self r2) as Hk.
  destruct (wait_for_operation api fuel h "instance stop" self r2)
    as [wres ws wenv wevs] eqn:Hw.
  cbn [res self_of env_of evs] in *. subst ws.
  destruct wres as [[|]|e|]; run_step;
    [|run_step; run_done|destruct (is_exception e); [do 2 run_step|]; run_done
     |run_done].
  do 3 run_step.
  pose proof (no_exception_save_config api
    (with_config (set_instance_state "TERMINATED" (config self)) self) wenv) as Hr.
  destruct (save_config api _ wenv) as [sres ss senv sevs] eqn:Hsv.
  cbn [res self_of env_of evs] in *. run_step.
  destruct sres as [[]|e|]; [run_step; run_done| |run_done].
  rewrite (Hr e eq_refl). run_done.
Qed.

Lemma run_start_instance fuel self r :
  start_instance api fuel self r
  = let c := config self in
    let p := project_id c in
    let z := Script.get_zone c in
    let n := vm_name c in
    match instances_get api p z n r with
    | (Err e, r1) =>
        if is_exception e then
          Build_Out (Ret false) self r1
            (InstancesGet p z n
             :: failure ("Failed to get instance status: " +:+ exn_msg e)
             ++ failure ("Instance " +:+ n +:+ " not found"))
        else Build_Out (Raise e) self r1 [InstancesGet p z n]
    | (Ok i, r1) =>
        if String.eqb (inst_status i) "RUNNING" then
          Build_Out (Ret true) self r1
            (InstancesGet p z n
             :: warning ("Instance " +:+ n +:+ " is already running"))
        else
          after (InstancesGet p z n
                 :: info ("Starting instance " +:+ n +:+ "...")
                 ++ [InstancesStart p z n])
            match instances_start api p z n r1 with
            | (Err e, r2) =>
                if is_exception e then
                  Build_Out (Ret false) self r2
                    (failure ("Failed to start instance: " +:+ exn_msg e))
                else Build_Out (Raise e) self r2 []
            | (Ok h, r2) =>
                start_finish api self
                  (wait_for_operation api fuel h "instance start" self r2)
            end
    end.
Proof.
  unfold start_instance. rewrite run_get_config.
  pose proof (run_get_instance_status api self r) as Hst. cbn zeta in *.
  destruct (instances_get api _ _ _ r) as [[i|e] r1] eqn:Hg.
  2:{ destruct (is_exception e); run_step; reflexivity. }
  run_step.
  destruct (String.eqb (inst_status i) "RUNNING"); [reflexivity|].
  do 2 run_step.
  destruct (instances_start api _ _ _ r1) as [[h|e] r2] eqn:Hs;
    pose proof (run_call _ (λ _, InstancesStart (project_id (config self))
                  (Script.get_zone (config self)) (vm_name (config self)))
                  _ _ self r1 Hs) as Hc;
    cbv beta iota in Hc; run_step; [|by destruct (is_exception e)].
  unfold start_finish.
  pose proof (keeps_wait_for_operation api fuel h "instance start" self r2) as Hk.
  destruct (wait_for_operation api fuel h "instance start" self r2)
    as [wres ws wenv wevs] eqn:Hw.
  cbn [res self_of env_of evs] in *. subst ws.
  destruct wres as [[|]|e|]; run_step;
    [|run_step; run_done|destruct (is_exception e); [do 2 run_step|]; run_done
     |run_done].
  do 3 run_step.
  pose proof (no_exception_save_config api
    (with_config (set_instance_state "RUNNING" (config self)) self) wenv) as Hr.
  destruct (save_config api _ wenv) as [sres ss senv sevs] eqn:Hsv.
  cbn [res self_of env_of evs] in *. run_step.
  destruct sres as [[]|e|]; [| |run_done].
  2:{ rewrite (Hr e eq_refl). run_done. }
  run_step.
  pose proof (no_exception_show_access_info api ss senv) as Hra.
  destruct (show_access_info api ss senv) as [ares as' aenv aevs] eqn:Ha.
  cbn [res self_of env_of evs] in *. run_step.
  destruct ares as [[]|e|]; [run_step; run_done| |run_done].
  rewrite (Hra e eq_refl). run_done.
Qed.

Lemma passive_is_write : passive is_write.
Proof. by repeat split. Qed.

Lemma count_quiet {A} (m : M R A) P self r :
  bounded 0 P m → count P (evs (m self r)) = 0%nat.
Proof. intros H. specialize (H self r). lia. Qed.

Lemma changed_shape wanted self (P w S T : list event) x (r' : R) e :
  count is_write P = 0%nat → count is_write w = 0%nat →
  count is_write S = 0%nat → count is_write T = 0%nat →
  e ∈ w → is_done_ok e = true →
  changed_after_success wanted self
    (Build_Out x
       (with_config (set_instance_state wanted (config self)) self) r'
       (P ++ w ++ S ++ FileWrite (config_file self)
                          (set_instance_state wanted (config self)) :: T)).
Proof.
  intros HP Hw HS HT He Hd. split; [done|split; [done|]].
  exists (P ++ w ++ S), T. split; [by rewrite <- !app_assoc|].
  split; [rewrite !count_app; lia|]. split; [done|].
  exists e. split; [|done]. rewrite !elem_of_app. auto.
Qed.

Lemma untouched_shape self (P w S : list event) x (r' : R) :
  count is_write P = 0%nat → count is_write w = 0%nat →
  count is_write S = 0%nat →
  untouched self (Build_Out x self r' (P ++ w ++ S)).
Proof. intros HP Hw HS. split; [done|]. cbn [evs]. rewrite !count_app. lia. Qed.

Lemma res_show_access_info self r :
  res (show_access_info api self r) = Ret tt ∨
  ∃ e, res (show_access_info api self r) = Raise e ∧ is_exception e = false.
Proof.
  unfold show_access_info. run_step.
  destruct (instances_get api (project_id (config self))
              (Script.get_zone (config self)) (vm_name (config self)) r)
    as [[i|e] r1] eqn:Hg;
    pose proof (run_call _ (λ _, InstancesGet (project_id (config self))
                  (Script.get_zone (config self)) (vm_name (config self)))
                  _ _ self r Hg) as Hc;
    cbv beta iota in Hc; run_step.
  2:{ destruct (is_exception e) eqn:He; [by left|right; by exists e]. }
  left. run_step.
  destruct (network_interfaces i) as [|ni ?]; [reflexivity|].
  destruct (access_configs ni) as [|ac ?]; [reflexivity|].
  do 3 run_step. by destruct (enable_http_server (config self)).
Qed.

Lemma stop_instance_persistence fuel self r :
  let o := stop_instance api fuel self r in
  untouched self o ∨ (changed_after_success "TERMINATED" self o ∧ ended_well o).
Proof.
  cbn zeta. rewrite run_stop_instance. cbn zeta.
  destruct (instances_get api _ _ _ r) as [[i|e] r1];
    [|left; by destruct (is_exception e)].
  destruct (stopped (inst_status i)); [left; split; reflexivity|].
  destruct (instances_stop api _ _ _ r1) as [[h|e] r2];
    [|left; by destruct (is_exception e)].
  pose proof (keeps_wait_for_operation api fuel h "instance stop" self r2) as Hk.
  pose proof (count_quiet (wait_for_operation api fuel h "instance stop") _ self r2
                (quiet_wait_for_operation api _ _ _ _ passive_is_write)) as Hq.
  pose proof (wait_for_operation_true api fuel h "instance stop" self r2) as Ht.
  unfold stop_finish.
  destruct (wait_for_operation api fuel h "instance stop" self r2)
    as [wres ws wenv wevs].
  cbn [res self_of env_of evs] in *. subst ws.
  destruct wres as [[|]|e|]; unfold after; cbn [res self_of env_of evs].
  - right. destruct (Ht eq_refl) as (e & He & Hd). rewrite run_save_config.
    cbn [config_file config with_config].
    destruct (file_write api _ _ wenv) as [[[]|x] r3];
      [|destruct (is_exception x) eqn:Hx];
      cbn [res self_of env_of evs];
      (split; [by apply (changed_shape _ _ _ _ _ _ _ _ e)|]);
      [by left|by left|right; by exists x].
  - left. rewrite <- (app_nil_r wevs). by apply untouched_shape.
  - left. destruct (is_exception e); cbn [res self_of env_of evs].
    + by apply untouched_shape.
    + rewrite <- (app_nil_r wevs). by apply untouched_shape.
  - left. rewrite <- (app_nil_r wevs). by apply untouched_shape.
Qed.

Lemma start_instance_persistence fuel self r :
  let o := start_instance api fuel self r in
  untouched self o ∨ (changed_after_success "RUNNING" self o ∧ ended_well o).
Proof.
  cbn zeta. rewrite run_start_instance. cbn zeta.
  destruct (instances_get api _ _ _ r) as [[i|e] r1];
    [|left; by destruct (is_exception e)].
  destruct (String.eqb (inst_status i) "RUNNING"); [left; split; reflexivity|].
  destruct (instances_start api _ _ _ r1) as [[h|e] r2];
    [|left; by destruct (is_exception e)].
  pose proof (keeps_wait_for_operation api fuel h "instance start" self r2) as Hk.
  pose proof (count_quiet (wait_for_operation api fuel h "instance start") _ self r2
                (quiet_wait_for_operation api _ _ _ _ passive_is_write)) as Hq.
  pose proof (wait_for_operation_true api fuel h "instance start" self r2) as Ht.
  unfold start_finish.
  destruct (wait_for_operation api fuel h "instance start" self r2)
    as [wres ws wenv wevs].
  cbn [res self_of env_of evs] in *. subst ws.
  destruct wres as [[|]|e|]; unfold after; cbn [res self_of env_of evs].
  - right. destruct (Ht eq_refl) as (e & He & Hd).
    rewrite run_save_config. cbn [config_file config with_config].
    assert (∀ x, is_exception x = false →
      changed_after_success "RUNNING" self
        (Build_Out (Raise x)
           (with_config (set_instance_state "RUNNING" (config self)) self) wenv
           ((InstancesGet (project_id (config self)) (Script.get_zone (config self))
               (vm_name (config self))
             :: info ("Starting instance " +:+ vm_name (config self) +:+ "...")
             ++ [InstancesStart (project_id (config self))
                   (Script.get_zone (config self)) (vm_name (config self))])
            ++ wevs
            ++ success ("Instance " +:+ vm_name (config self)
                        +:+ " started successfully!")
            ++ [FileWrite (config_file self)
                  (set_instance_state "RUNNING" (config self))]))) as Hint.
    { intros x _. by apply (changed_shape _ _ _ _ _ _ _ _ e). }
    assert (∀ said r3, count is_write said = 0%nat →
      let s := with_config (set_instance_state "RUNNING" (config self)) self in
      let a := show_access_info api s r3 in
      let o := Build_Out (match res a with
                          | Ret _ => Ret true
                          | Raise e => Raise e
                          | Diverge => Diverge
                          end) (self_of a) (env_of a)
                 ((InstancesGet (project_id (config self))
                     (Script.get_zone (config self)) (vm_name (config self))
                   :: info ("Starting instance " +:+ vm_name (config self) +:+ "...")
                   ++ [InstancesStart (project_id (config self))
                         (Script.get_zone (config self)) (vm_name (config self))])
                  ++ wevs
                  ++ success ("Instance " +:+ vm_name (config self)
                              +:+ " started successfully!")
                  ++ (FileWrite (config_file self)
                        (set_instance_state "RUNNING" (config self)) :: said)
                  ++ [Sleep 5] ++ evs a) in
      changed_after_success "RUNNING" self o ∧ ended_well o) as Hshown.
    { intros said r3 Hsaid. cbn zeta.
      pose proof (keeps_show_access_info api
        (with_config (set_instance_state "RUNNING" (config self)) self) r3) as Hka.
      pose proof (count_quiet (show_access_info api) _
        (with_config (set_instance_state "RUNNING" (config self)) self) r3
        (quiet_show_access_info api _ passive_is_write)) as Hqa.
      pose proof (res_show_access_info
        (with_config (set_instance_state "RUNNING" (config self)) self) r3) as Hra.
      destruct (show_access_info api _ r3) as [ares as' aenv aevs].
      cbn [res self_of env_of evs] in *. subst as'. split.
      - apply (changed_shape _ _ _ _ _ _ _ _ e); try done.
        rewrite !count_app, Hsaid, Hqa. reflexivity.
      - destruct Hra as [->|(x & -> & Hx)]; [by left|right; by exists x]. }
    destruct (file_write api _ _ wenv) as [[[]|x] r3];
      [|destruct (is_exception x) eqn:Hx]; cbn [res self_of env_of evs].
    + by apply Hshown.
    + by apply Hshown.
    + split; [exact (Hint x Hx)|right; by exists x].
  - left. rewrite <- (app_nil_r wevs). by apply untouched_shape.
  - left. destruct (is_exception e); cbn [res self_of env_of evs].
    + by apply untouched_shape.
    + rewrite <- (app_nil_r wevs). by apply untouched_shape.
  - left. rewrite <- (app_nil_r wevs). by apply untouched_shape.
Qed.

Lemma no_exception_start_instance fuel : no_exception (start_instance api fuel).
Proof.
  unfold start_instance.
  repeat first [apply no_exception_get_instance_status | method_step ]; method_steps.
Qed.

Lemma no_exception_stop_instance fuel : no_exception (stop_instance api fuel).
Proof.
  unfold stop_instance.
  repeat first [apply no_exception_get_instance_status | method_step ]; method_steps.
Qed.

Lemma no_exception_restart_instance fuel : no_exception (restart_instance api fuel).
Proof. unfold restart_instance. method_steps. Qed.

Lemma no_exception_delete_instance fuel : no_exception (delete_instance api fuel).
Proof. unfold delete_instance. method_steps. Qed.

Lemma persistence_cases wanted self (o : Out R bool) :
  untouched self o ∨ (changed_after_success wanted self o ∧ ended_well o) →
  (∀ e, res o = Raise e → is_exception e = false) →
  persists_only_after_success wanted self o.
Proof.
  intros H Hn. split; [|split; [|done]].
  - intros Hres He. destruct H as [H|(_ & [Ht|(e & Hr & Hx)])]; [done|done|].
    rewrite (He e Hr) in Hx. discriminate.
  - intros Hu. by destruct H.
Qed.

(** C10: in [start_instance] and in [stop_instance] alike, a run that
    returns [False], is still waiting or raises an [Exception] leaves the
    object as it was and writes nothing; a run that changes the object or
    writes the file has [instance_state] at the wanted state, every other key
    as it was, and its one write, of the configuration so changed, comes
    after a poll that saw the operation DONE with no error, with no write
    before or after it; such a run returns [True], unless the write or the
    read that follows it is left by an exception that is no [Exception]
    ([KeyboardInterrupt]), which is the only kind of exception these two
    methods let out. *)
Theorem persistence_after_success fuel self r :
  persists_only_after_success "RUNNING" self (start_instance api fuel self r) ∧
  persists_only_after_success "TERMINATED" self (stop_instance api fuel self r).
Proof.
  split; apply persistence_cases.
  - apply start_instance_persistence.
  - apply no_exception_start_instance.
  - apply stop_instance_persistence.
  - apply no_exception_stop_instance.
Qed.

Lemma stopped_iff (st : string) :
  stopped st = true ↔ st = "TERMINATED" ∨ st = "STOPPED".
Proof.
  unfold stopped. rewrite orb_true_iff, !String.eqb_eq. done.
Qed.

Lemma run_wait_observed (h : Handle) (n ty : string) (pre : list Operation)
    (last : Operation) (fuel : nat) self r r' :
  op_name h = Some n →
  Forall (λ o, status o ≠ DONE) pre →
  status last = DONE →
  observed api (config self) n (pre ++ [last]) r r' →
  (List.length pre < fuel)%nat →
  wait_for_operation api fuel h ty self r
  = Build_Out (Ret (negb (truthy (error last)))) self r'
              (waited (config self) n ty pre last).
Proof.
  intros Hn Hpre Hlast Hobs Hfuel.
  assert (Forall (λ o, is_DONE (status o) = false) pre) as Hpre'.
  { eapply Forall_impl; [exact Hpre|]. intros o Ho. cbn in Ho. by destruct (status o). }
  assert (is_DONE (status last) = true) as Hlast' by (by rewrite Hlast).
  rewrite run_wait_for_operation.
  by rewrite (wait_loop_observed _ _ _ _ _ _ _ _ _ _ Hn Hpre' Hlast' Hobs Hfuel).
Qed.

(** C5: when the instance is read as TERMINATED or STOPPED, [stop_instance]
    returns [True] after the read and a warning, with no stop request; when
    the read fails with an [Exception], as it does for an instance that does
    not exist, it returns [False], again with no stop request (an exception
    that is no [Exception] is let through, with no stop request either); in
    any other case the stop request comes right after the read, and when the
    request is accepted and the polls end on DONE with no error,
    [instance_state] is TERMINATED in the object, every other key is as it
    was, and the configuration the object then holds is written to the file
    after the wait; the call then returns [True], whether the write succeeds
    or fails with an [Exception]. *)
Theorem stop_instance_idempotent fuel self r :
  let c := config self in
  let p := project_id c in
  let z := Script.get_zone c in
  let n := vm_name c in
  let o := stop_instance api fuel self r in
  (∀ i r1, instances_get api p z n r = (Ok i, r1) →
     inst_status i = "TERMINATED" ∨ inst_status i = "STOPPED" →
     o = Build_Out (Ret true) self r1
           (InstancesGet p z n
            :: warning ("Instance " +:+ n +:+ " is already stopped")) ∧
     count is_mutation (evs o) = 0%nat) ∧
  (∀ e r1, instances_get api p z n r = (Err e, r1) →
     (is_exception e = true →
      o = Build_Out (Ret false) self r1
            (InstancesGet p z n
             :: failure ("Failed to get instance status: " +:+ exn_msg e)
             ++ failure ("Instance " +:+ n +:+ " not found"))) ∧
     (is_exception e = false → o = Build_Out (Raise e) self r1 [InstancesGet p z n]) ∧
     count is_mutation (evs o) = 0%nat) ∧
  (∀ i r1, instances_get api p z n r = (Ok i, r1) →
     inst_status i ≠ "TERMINATED" → inst_status i ≠ "STOPPED" →
     (∃ rest, evs o = InstancesGet p z n
                      :: info ("Stopping instance " +:+ n +:+ "...")
                      ++ InstancesStop p z n :: rest) ∧
     (∀ h r2 nm pre last r3,
        instances_stop api p z n r1 = (Ok h, r2) →
        op_name h = Some nm →
        Forall (λ a, status a ≠ DONE) pre →
        status last = DONE → error last = "" →
        observed api c nm (pre ++ [last]) r2 r3 →
        (List.length pre < fuel)%nat →
        instance_state (config (self_of o)) = "TERMINATED" ∧
        self_of o = with_config (set_instance_state "TERMINATED" c) self ∧
        (∃ rest,
           evs o = InstancesGet p z n
                   :: info ("Stopping instance " +:+ n +:+ "...")
                   ++ InstancesStop p z n
                   :: waited c nm "instance stop" pre last
                   ++ success ("Instance " +:+ n +:+ " stopped successfully!")
                   ++ FileWrite (config_file self) (config (self_of o)) :: rest) ∧
        (∀ x r4,
           file_write api (config_file self) (set_instance_state "TERMINATED" c) r3
           = (x, r4) →
           res o = match x with
                   | Ok _ => Ret true
                   | Err e => if is_exception e then Ret true else Raise e
                   end))).
Proof.
  cbn zeta. rewrite run_stop_instance. cbn zeta. split; [|split].
  - intros i r1 -> Hst. apply stopped_iff in Hst as ->. by split.
  - intros e r1 ->. split; [by intros ->|]. split; [by intros ->|].
    by destruct (is_exception e).
  - intros i r1 -> Hn1 Hn2.
    assert (stopped (inst_status i) = false) as ->.
    { destruct (stopped (inst_status i)) eqn:E; [|done].
      apply stopped_iff in E as [?|?]; done. }
    split.
    + eexists. unfold after. cbn [evs app]. by rewrite <- app_assoc.
    + intros h r2 nm pre last r3 -> Hnm Hpre Hlast Herr Hobs Hfuel.
      rewrite (run_wait_observed _ _ _ _ _ _ _ _ _ Hnm Hpre Hlast Hobs Hfuel).
      unfold stop_finish. rewrite Herr. cbn [truthy negb res self_of env_of evs].
      rewrite run_save_config. cbn [config_file config with_config].
      destruct (file_write api _ _ r3) as [[[]|x] r4];
        [|destruct (is_exception x) eqn:Hx];
        cbn [res self_of env_of evs config with_config after set_instance_state
             instance_state];
        (split; [done|split; [done|split]]);
        try (intros x' r4' [= <- <-]; cbn [res]; rewrite ?Hx; reflexivity);
        eexists; cbn [evs app]; rewrite <- !app_assoc; reflexivity.
Qed.

Lemma quiet_stop_instance P fuel :
  passive P → (∀ p c, P (FileWrite p c) = false) →
  (∀ p z n, P (InstancesStop p z n) = false) →
  bounded 0 P (stop_instance api fuel).
Proof.
  intros HP Hw Hs. unfold stop_instance.
  pose proof (quiet_get_instance_status api P HP).
  pose proof (quiet_save_config api P HP Hw).
  pose proof (λ h ty, quiet_wait_for_operation api P fuel h ty HP).
  destruct HP as (? & ? & ? & ? & ? & ?).
  unfold log_info, log_success, log_warning, log_error, print_colored, print, sleep.
  repeat first
    [ solve [auto]
    | apply bounded_emit; solve [auto]
    | apply bounded_call; intros ?; solve [auto]
    | method_step ].
Qed.

End StartStop.
End StartStopFacts.


(** ** Creating *)

Module CreateFacts.
Import Str Compute VM Run RunFacts Laws PollerFacts PartsFacts Exec StartStopFacts.

Section Create.
Context {R : Type} (api : Api R).

Lemma run_create_firewall_rule fuel self r :
  create_firewall_rule api fuel self r
  = let c := config self in
    let p := project_id c in
    let rule := rule_name_of c in
    if enable_http_server c then
      match firewalls_get api p rule r with
      | (Ok _, r1) =>
          Build_Out (Ret true) self r1
            (FirewallsGet p rule
             :: info ("Firewall rule " +:+ rule +:+ " already exists"))
      | (Err _, r1) =>
          after (FirewallsGet p rule
                 :: info ("Creating firewall rule: " +:+ rule)
                 ++ [FirewallsInsert p (firewall_rule_of c)])
            match firewalls_insert api p (firewall_rule_of c) r1 with
            | (Err e, r2) =>
                if is_exception e then
                  Build_Out (Ret false) self r2
                    (failure ("Failed to create firewall rule: " +:+ exn_msg e))
                else Build_Out (Raise e) self r2 []
            | (Ok h, r2) =>
                firewall_finish self
                  (wait_for_operation api fuel h "firewall rule creation" self r2)
            end
      end
    else Build_Out (Ret true) self r [].
Proof.
  unfold create_firewall_rule. run_step. cbn zeta.
  destruct (enable_http_server (config self)); cbn [negb]; [|reflexivity].
  rewrite run_bind.
  destruct (firewalls_get api (project_id (config self)) (rule_name_of (config self)) r)
    as [[x|e] r1] eqn:Hg;
    pose proof (run_call _ (λ _, FirewallsGet (project_id (config self))
                  (rule_name_of (config self))) _ _ self r Hg) as Hc;
    cbv beta iota in Hc; run_step.
  - do 2 run_step. reflexivity.
  - run_step. cbn [res self_of env_of evs after]. do 2 run_step.
    destruct (firewalls_insert api _ _ r1) as [[h|e'] r2] eqn:Hs;
      pose proof (run_call _ (λ _, FirewallsInsert (project_id (config self))
                    (firewall_rule_of (config self))) _ _ self r1 Hs) as Hc';
      cbv beta iota in Hc'; run_step; [|by destruct (is_exception e')].
    unfold firewall_finish.
    pose proof (keeps_wait_for_operation api fuel h "firewall rule creation" self r2)
      as Hk.
    destruct (wait_for_operation api fuel h "firewall rule creation" self r2)
      as [wres ws wenv wevs] eqn:Hw.
    cbn [res self_of env_of evs] in *. subst ws.
    destruct wres as [[|]|e'|]; run_step;
      [do 2 run_step; run_done|run_step; run_done
      |destruct (is_exception e'); [do 2 run_step|]; run_done|run_done].
Qed.

Lemma keeps_create_firewall_rule fuel : keeps (create_firewall_rule api fuel).
Proof.
  unfold create_firewall_rule.
  pose proof (keeps_wait_for_operation api fuel).
  unfold log_info, log_success, log_warning, log_error, print_colored, print, sleep.
  repeat first [ solve [auto] | method_step ].
Qed.

Lemma no_exception_create_firewall_rule fuel :
  no_exception (create_firewall_rule api fuel).
Proof. unfold create_firewall_rule. method_steps. Qed.

Lemma quiet_create_firewall_rule P fuel :
  passive P → (∀ p n, P (FirewallsGet p n) = false) →
  (∀ p n, P (FirewallsInsert p n) = false) →
  bounded 0 P (create_firewall_rule api fuel).
Proof.
  intros HP Hg Hi. unfold create_firewall_rule.
  pose proof (λ h ty, quiet_wait_for_operation api P fuel h ty HP).
  destruct HP as (? & ? & ? & ? & ? & ?).
  unfold log_info, log_success, log_warning, log_error, print_colored, print, sleep.
  repeat first
    [ solve [auto]
    | apply bounded_emit; solve [auto]
    | apply bounded_call; intros ?; solve [auto]
    | method_step ].
Qed.

Lemma run_create_instance fuel self r :
  create_instance api fuel self r
  = let c := config self in
    let p := project_id c in
    let z := Script.get_zone c in
    let n := vm_name c in
    after (banner c)
      match instances_get api p z n r with
      | (Ok _, r1) =>
          Build_Out (Ret true) self r1
            (InstancesGet p z n :: warning ("Instance " +:+ n +:+ " already exists"))
      | (Err _, r1) =>
          after [InstancesGet p z n]
            (after_firewall api fuel self (create_firewall_rule api fuel self r1))
      end.
Proof.
  unfold create_instance. cbn zeta. do 9 run_step. rewrite run_bind.
  destruct (instances_get api (project_id (config self))
              (Script.get_zone (config self)) (vm_name (config self)) r)
    as [[i|e] r1] eqn:Hg;
    pose proof (run_call _ (λ _, InstancesGet (project_id (config self))
                  (Script.get_zone (config self)) (vm_name (config self)))
                  _ _ self r Hg) as Hc;
    cbv beta iota in Hc; run_step.
  - do 2 run_step. cbn [res self_of env_of evs after]. unfold banner. run_done.
  - run_step. cbn [res self_of env_of evs after]. unfold after_firewall.
    destruct (create_firewall_rule api fuel self r1) as [wres ws wenv wevs] eqn:Hw.
    cbn [res self_of env_of evs].
    destruct wres as [[|]|e'|]; run_step; cbn [negb].
    + unfold submit, banner. run_done.
    + do 2 run_step. unfold banner. run_done.
    + unfold banner. run_done.
    + unfold banner. run_done.
Qed.

Lemma set_instance_state_same (self : VMManager) :
  instance_state (config self) = "TERMINATED" →
  with_config (set_instance_state "TERMINATED" (config self)) self = self.
Proof. destruct self as [f []]. cbn. by intros ->. Qed.

Lemma stop_keeps_when_terminated fuel self r :
  instance_state (config self) = "TERMINATED" →
  self_of (stop_instance api fuel self r) = self.
Proof.
  intros H. destruct (stop_instance_persistence api fuel self r) as [[Hs _]|[(Hs & _) _]];
    [done|]. by rewrite Hs, set_instance_state_same.
Qed.

(** The cascading stop of lines 443-448 leaves the object as it was. *)
Lemma keeps_cascading_stop fuel :
  keeps (R:=R)
    (c ← get_config;
     (if String.eqb (instance_state c) "TERMINATED" then
        log_info "Stopping instance as per configuration...";;
        stop_instance api fuel;;
        mret tt
      else mret tt);;
     mret true).
Proof.
  intros self r. run_step.
  destruct (String.eqb (instance_state (config self)) "TERMINATED") eqn:E.
  - apply String.eqb_eq in E. rewrite run_bind. run_step.
    pose proof (stop_keeps_when_terminated fuel self r E) as Hk.
    destruct (stop_instance api fuel self r) as [sres ss senv sevs] eqn:Hs.
    cbn [self_of] in Hk. subst ss. run_step. by destruct sres.
  - reflexivity.
Qed.

Lemma keeps_submit fuel n z : keeps (submit api fuel n z).
Proof.
  unfold submit, os_image, int64.
  pose proof (keeps_wait_for_operation api fuel).
  pose proof (keeps_cascading_stop fuel).
  unfold log_info, log_success, log_warning, log_error, print_colored, print, sleep.
  repeat first [ solve [auto] | method_step ].
Qed.

Lemma keeps_create_instance fuel : keeps (create_instance api fuel).
Proof.
  intros self r. rewrite run_create_instance. cbn zeta.
  destruct (instances_get api _ _ _ r) as [[i|e] r1]; [done|].
  pose proof (keeps_create_firewall_rule fuel self r1) as Hk.
  unfold after_firewall.
  destruct (create_firewall_rule api fuel self r1) as [wres ws wenv wevs].
  cbn [res self_of env_of evs] in *. subst ws.
  destruct wres as [[|]|e'|]; cbn [after self_of]; [|done..].
  apply keeps_submit.
Qed.


Lemma passive_is_insert : passive is_insert.
Proof. by repeat split. Qed.
Lemma passive_is_mutation : passive is_mutation.
Proof. by repeat split. Qed.

(** [submit] sends at most one instance-creation request. *)
Lemma submit_inserts_once fuel n z : bounded 1 is_insert (submit api fuel n z).
Proof.
  unfold submit, os_image.
  pose proof (λ h ty, quiet_wait_for_operation api is_insert fuel h ty passive_is_insert).
  pose proof (quiet_stop_instance api is_insert fuel passive_is_insert
                (λ _ _, eq_refl) (λ _ _ _, eq_refl)).
  apply bounded_bind_quiet; [apply bounded_get_config|intros c].
  apply bounded_bind_quiet; [destruct (dict_get _ _); method_steps|intros img].
  apply bounded_bind_quiet; [unfold int64; method_steps|intros _].
  apply bounded_try_quiet; [|intros e; method_steps].
  apply bounded_bind_quiet; [method_steps|intros _].
  apply bounded_bind_quiet; [apply bounded_get_config|intros c'].
  apply bounded_bind_then_quiet; [apply bounded_call_one|intros h].
  unfold log_info, log_success, log_warning, log_error, print_colored, print, sleep.
  repeat first [ solve [auto] | method_step ].
Qed.

Lemma create_instance_inserts_once fuel : bounded 1 is_insert (create_instance api fuel).
Proof.
  intros self r. rewrite run_create_instance. cbn zeta.
  assert (count is_insert (banner (config self)) = 0%nat) as Hb by reflexivity.
  destruct (instances_get api _ _ _ r) as [[i|e] r1].
  { unfold after. cbn [evs]. rewrite count_app. count_concrete. lia. }
  pose proof (count_quiet (create_firewall_rule api fuel) is_insert self r1
    (quiet_create_firewall_rule is_insert fuel passive_is_insert
       (λ _ _, eq_refl) (λ _ _, eq_refl))) as Hq.
  unfold after_firewall.
  destruct (create_firewall_rule api fuel self r1) as [wres ws wenv wevs].
  cbn [res self_of env_of evs] in *.
  pose proof (submit_inserts_once fuel (vm_name (config self))
                (Script.get_zone (config self)) ws wenv) as Hs.
  destruct wres as [[|]|e'|]; unfold after; cbn [evs];
    rewrite !count_app, ?Hq; count_concrete; lia.
Qed.

(** With an image for the configured [os_choice] and a disk size in the
    range of the field, [submit] lets no [Exception] out; with no image, it
    raises [KeyError] before any request is made; with an image and a disk
    size outside the range, [ValueError]. *)
Lemma submit_known_os fuel n z self (r : R) img e :
  dict_get os_images (os_choice (config self)) = Some img →
  in_int64 (disk_size (config self)) = true →
  res (submit api fuel n z self r) = Raise e → is_exception e = false.
Proof.
  intros H Hd. unfold submit, os_image, int64. run_step. rewrite H, Hd.
  cbv beta iota. do 2 run_step.
  pose proof (no_exception_stop_instance api fuel) as Hs.
  apply no_exception_try; [done|]. intros x. method_steps.
Qed.

Lemma submit_out_of_range fuel n z self (r : R) img :
  dict_get os_images (os_choice (config self)) = Some img →
  in_int64 (disk_size (config self)) = false →
  submit api fuel n z self r
  = Build_Out (Raise (ValueError ("Value out of range: "
                                  +:+ pretty (disk_size (config self))))) self r [].
Proof.
  intros H Hd. unfold submit, os_image, int64. run_step. rewrite H, Hd.
  cbv beta iota. do 2 run_step. reflexivity.
Qed.

Lemma submit_unknown_os fuel n z self (r : R) :
  dict_get os_images (os_choice (config self)) = None →
  submit api fuel n z self r
  = Build_Out (Raise (KeyError (os_choice (config self)))) self r [].
Proof.
  intros H. unfold submit, os_image. run_step. rewrite H. cbv beta iota.
  run_step. reflexivity.
Qed.




(** C3: when the instance is not found, the HTTP feature is off and
    [os_choice] is none of the keys of [os_images], [create_instance] raises
    [KeyError] for the configured [os_choice] after the opening log lines and
    the existence check: the lookup of line 366 is outside any [try]. *)
Theorem create_instance_raises_on_unknown_os fuel self r e r1 :
  let c := config self in
  instances_get api (project_id c) (Script.get_zone c) (vm_name c) r = (Err e, r1) →
  enable_http_server c = false →
  dict_get os_images (os_choice c) = None →
  create_instance api fuel self r
  = Build_Out (Raise (KeyError (os_choice c))) self r1
      (banner c ++ [InstancesGet (project_id c) (Script.get_zone c) (vm_name c)]).
Proof.
  cbn zeta. intros Hg Hh Ho.
  rewrite run_create_instance. cbn zeta. rewrite Hg, run_create_firewall_rule.
  cbn zeta. rewrite Hh. unfold after_firewall. cbn [res self_of env_of evs].
  rewrite submit_unknown_os by done. unfold after. cbn [res self_of env_of evs].
  done.
Qed.

(** With an image for the configured [os_choice] and a disk size in the
    range of the field, [create_instance] lets no [Exception] out either. *)
Lemma create_instance_known_os fuel self r img e :
  dict_get os_images (os_choice (config self)) = Some img →
  in_int64 (disk_size (config self)) = true →
  res (create_instance api fuel self r) = Raise e → is_exception e = false.
Proof.
  intros Ho Hd. rewrite run_create_instance. cbn zeta.
  destruct (instances_get api _ _ _ r) as [[i|e'] r1]; [done|].
  pose proof (keeps_create_firewall_rule fuel self r1) as Hk.
  pose proof (no_exception_create_firewall_rule fuel self r1) as Hn.
  unfold after_firewall.
  destruct (create_firewall_rule api fuel self r1) as [wres ws wenv wevs].
  cbn [res self_of env_of evs] in *. subst ws.
  destruct wres as [[|]|e''|]; cbn [after res]; [|done|intros [= ->]; by apply Hn|done].
  by apply (submit_known_os _ _ _ _ _ img).
Qed.

(** C4: when the instance is found, [create_instance] returns [True] after
    the opening log lines, the read and a warning: it sends no request that
    changes the remote side and writes nothing.  In any case it leaves the
    object as it was and sends at most one instance-creation request; so a
    second call that finds the instance returns [True] with no request of its
    own, and the two calls together send at most one creation request. *)
Theorem create_instance_idempotent fuel1 fuel2 self r :
  let c := config self in
  let p := project_id c in
  let z := Script.get_zone c in
  let n := vm_name c in
  let o1 := create_instance api fuel1 self r in
  let o2 := create_instance api fuel2 (self_of o1) (env_of o1) in
  (∀ i r1, instances_get api p z n r = (Ok i, r1) →
     o1 = Build_Out (Ret true) self r1
            (banner c ++ InstancesGet p z n
                         :: warning ("Instance " +:+ n +:+ " already exists")) ∧
     count is_mutation (evs o1) = 0%nat ∧ count is_write (evs o1) = 0%nat) ∧
  self_of o1 = self ∧
  (count is_insert (evs o1) ≤ 1)%nat ∧
  (∀ i r2, instances_get api p z n (env_of o1) = (Ok i, r2) →
     res o2 = Ret true ∧ self_of o2 = self ∧
     count is_mutation (evs o2) = 0%nat ∧
     (count is_insert (evs o1 ++ evs o2) ≤ 1)%nat).
Proof.
  cbn zeta.
  assert (∀ f s (r0 : R) i r1,
    instances_get api (project_id (config s)) (Script.get_zone (config s))
                  (vm_name (config s)) r0 = (Ok i, r1) →
    create_instance api f s r0
    = Build_Out (Ret true) s r1
        (banner (config s)
         ++ InstancesGet (project_id (config s)) (Script.get_zone (config s))
                         (vm_name (config s))
            :: warning ("Instance " +:+ vm_name (config s) +:+ " already exists")))
    as Hfound.
  { intros f s r0 i r1 Hg. rewrite run_create_instance. cbn zeta. by rewrite Hg. }
  pose proof (keeps_create_instance fuel1 self r) as Hk.
  pose proof (create_instance_inserts_once fuel1 self r) as H1.
  split; [|split; [done|split; [done|]]].
  - intros i r1 Hg. rewrite (Hfound _ _ _ _ _ Hg). split; [done|]. by split.
  - intros i r2 Hg. rewrite Hk in *. rewrite (Hfound _ _ _ _ _ Hg).
    split; [done|]. split; [done|]. split; [done|].
    rewrite count_app. cbn [evs].
    replace (count is_insert (banner _ ++ _)) with 0%nat by reflexivity. lia.
Qed.


End Create.
End CreateFacts.

(** ** The scenarios on the small cloud *)

Module Scenarios.
Import Str Compute VM Run Examples CreateFacts StartStopFacts PollerFacts.

Lemma two_polls_then_done (err : string) :
  observed cloud_api demo "operation-stop" ([running; running] ++ [finished err])
    (in_flight [("demo", "TERMINATED")] "operation-stop" ZoneScoped 2 err)
    (in_flight [("demo", "TERMINATED")] "operation-stop" ZoneScoped 0 err).
Proof.
  eexists. split; [reflexivity|]. eexists. split; [reflexivity|].
  eexists. split; reflexivity.
Defined.

Lemma running_not_done : Forall (λ o, status o ≠ DONE) [running; running].
Proof. repeat constructor; discriminate. Defined.

(** C1 on a stop that is done at the third poll: with three rounds the wait
    returns [True], and [False] when the operation ends with an error; with
    two rounds it is still waiting. *)
Lemma wait_for_operation_polls_witness :
  wait_for_operation cloud_api 3 stop_handle "instance stop" (manager demo)
    (in_flight [("demo", "TERMINATED")] "operation-stop" ZoneScoped 2 "")
  = Build_Out (Ret true) (manager demo)
      (in_flight [("demo", "TERMINATED")] "operation-stop" ZoneScoped 0 "")
      (info ("Waiting for " +:+ "instance stop" +:+ " to complete...")
       ++ flat_map (round demo "operation-stop" "instance stop") [running; running]
       ++ last_round demo "operation-stop" "instance stop" (finished "")) ∧
  res (wait_for_operation cloud_api 3 stop_handle "instance stop" (manager demo)
         (in_flight [("demo", "TERMINATED")] "operation-stop" ZoneScoped 2 "quota"))
  = Ret false ∧
  res (wait_for_operation cloud_api 2 stop_handle "instance stop" (manager demo)
         (in_flight [("demo", "TERMINATED")] "operation-stop" ZoneScoped 2 ""))
  = Diverge.
Proof.
  split; [|split].
  - exact (proj1 (wait_for_operation_polls cloud_api stop_handle "operation-stop"
                    "instance stop" [running; running] (finished "") 3 (manager demo)
                    _ _ eq_refl running_not_done eq_refl (two_polls_then_done ""))
                 (le_n 3)).
  - exact (f_equal res
             (proj1 (wait_for_operation_polls cloud_api stop_handle "operation-stop"
                       "instance stop" [running; running] (finished "quota") 3
                       (manager demo) _ _ eq_refl running_not_done eq_refl
                       (two_polls_then_done "quota"))
                    (le_n 3))).
  - exact (proj2 (wait_for_operation_polls cloud_api stop_handle "operation-stop"
                    "instance stop" [running; running] (finished "") 2 (manager demo)
                    _ _ eq_refl running_not_done eq_refl (two_polls_then_done ""))
                 (le_n 2)).
Defined.

(** C2 on the small cloud: the operation of a firewall insert is global, the
    poll asks the zone-operations client, which does not know it, and the
    rule that was just inserted is reported as a failure. *)
Example firewall_rule_polled_in_zone :
  let o := create_firewall_rule cloud_api 3 (manager demo) (empty_cloud 0) in
  res o = Ret false ∧ firewalls (env_of o) = ["demo-allow-http"] ∧
  ZoneOperationsGet "my-project" "us-west1-a" "operation-firewall"
    (Err (not_found "operation-firewall")) ∈ evs o.
Proof.
  cbn zeta. split; [reflexivity|]. split; [reflexivity|].
  apply list_elem_of_In. vm_compute. tauto.
Qed.

(** C3 on the small cloud: no instance yet, HTTP off, [os_choice] windows. *)
Lemma create_instance_raises_on_unknown_os_witness :
  create_instance cloud_api 1 (manager demo_windows_no_http) (empty_cloud 0)
  = Build_Out (Raise (KeyError "windows")) (manager demo_windows_no_http)
      (empty_cloud 0)
      (banner demo_windows_no_http ++ [InstancesGet "my-project" "us-west1-a" "demo"]).
Proof.
  exact (create_instance_raises_on_unknown_os cloud_api 1
           (manager demo_windows_no_http) (empty_cloud 0) (not_found "demo")
           (empty_cloud 0) eq_refl eq_refl eq_refl).
Defined.

(** C4 on the small cloud: the instance is there at both calls. *)
Lemma create_instance_idempotent_witness :
  let r := cloud_with [("demo", "RUNNING")] [] 2 "" in
  let o1 := create_instance cloud_api 3 (manager demo) r in
  let o2 := create_instance cloud_api 3 (self_of o1) (env_of o1) in
  res o1 = Ret true ∧ res o2 = Ret true ∧
  count is_mutation (evs o1) = 0%nat ∧ count is_mutation (evs o2) = 0%nat ∧
  (count is_insert (evs o1 ++ evs o2) ≤ 1)%nat.
Proof.
  cbn zeta.
  pose proof (create_instance_idempotent cloud_api 3 3 (manager demo)
                (cloud_with [("demo", "RUNNING")] [] 2 "")) as (H1 & Hk & _ & H2).
  cbn zeta in *.
  destruct (H1 _ _ eq_refl) as (Ho1 & Hm1 & _).
  assert (instances_get cloud_api (project_id demo) (Script.get_zone demo)
            (vm_name demo)
            (env_of (create_instance cloud_api 3 (manager demo)
                       (cloud_with [("demo", "RUNNING")] [] 2 "")))
          = (Ok {| inst_status := "RUNNING";
                   network_interfaces :=
                     [{| network_i_p := "10.0.0.2";
                         access_configs := [{| nat_i_p := "203.0.113.7" |}] |}] |},
             cloud_with [("demo", "RUNNING")] [] 2 "")) as Hg.
  { rewrite Ho1. reflexivity. }
  destruct (H2 _ _ Hg) as (Hr2 & _ & Hm2 & Hc).
  rewrite Ho1 at 1. exact (conj eq_refl (conj Hr2 (conj Hm1 (conj Hm2 Hc)))).
Defined.

(** C5 on the small cloud: an instance already stopped, no instance, a read
    interrupted from the keyboard, and a running instance whose stop is done
    at the third poll. *)
Lemma stop_instance_idempotent_witness :
  stop_instance cloud_api 3 (manager demo) (cloud_with [("demo", "TERMINATED")] [] 2 "")
  = Build_Out (Ret true) (manager demo) (cloud_with [("demo", "TERMINATED")] [] 2 "")
      (InstancesGet "my-project" "us-west1-a" "demo"
       :: warning ("Instance " +:+ "demo" +:+ " is already stopped")) ∧
  res (stop_instance cloud_api 3 (manager demo) (empty_cloud 2)) = Ret false ∧
  stop_instance ctrl_c 3 (manager demo) tt
  = Build_Out (Raise KeyboardInterrupt) (manager demo) tt
      [InstancesGet "my-project" "us-west1-a" "demo"] ∧
  (let o := stop_instance cloud_api 3 (manager demo)
              (cloud_with [("demo", "RUNNING")] [] 2 "") in
   res o = Ret true ∧ instance_state (config (self_of o)) = "TERMINATED" ∧
   self_of o = with_config (set_instance_state "TERMINATED" demo) (manager demo)).
Proof.
  split; [|split; [|split]].
  - pose proof (stop_instance_idempotent cloud_api 3 (manager demo)
                  (cloud_with [("demo", "TERMINATED")] [] 2 "")) as (H & _).
    exact (proj1 (H _ _ eq_refl (or_introl eq_refl))).
  - pose proof (stop_instance_idempotent cloud_api 3 (manager demo) (empty_cloud 2))
      as (_ & H & _).
    exact (f_equal res (proj1 (H (not_found "demo") _ eq_refl) eq_refl)).
  - pose proof (stop_instance_idempotent ctrl_c 3 (manager demo) tt) as (_ & H & _).
    exact (proj1 (proj2 (H KeyboardInterrupt tt eq_refl)) eq_refl).
  - pose proof (stop_instance_idempotent cloud_api 3 (manager demo)
                  (cloud_with [("demo", "RUNNING")] [] 2 "")) as (_ & _ & H).
    cbn zeta in *.
    destruct (H {| inst_status := "RUNNING";
                   network_interfaces :=
                     [{| network_i_p := "10.0.0.2";
                         access_configs := [{| nat_i_p := "203.0.113.7" |}] |}] |}
                (cloud_with [("demo", "RUNNING")] [] 2 "") eq_refl
                ltac:(discriminate) ltac:(discriminate)) as (_ & Hs).
    destruct (Hs stop_handle
                (in_flight [("demo", "TERMINATED")] "operation-stop" ZoneScoped 2 "")
                "operation-stop" [running; running] (finished "")
                (in_flight [("demo", "TERMINATED")] "operation-stop" ZoneScoped 0 "")
                eq_refl eq_refl running_not_done eq_refl eq_refl
                (two_polls_then_done "") (le_n 3)) as (Hstate & Hself & _ & Hres).
    exact (conj (Hres _ _ eq_refl) (conj Hstate Hself)).
Defined.



(** C10 on the small cloud: a stop that ends with an error persists nothing;
    a stop that succeeds persists TERMINATED and returns [True]. *)
Lemma persistence_after_success_witness :
  untouched (manager demo)
    (stop_instance cloud_api 3 (manager demo)
       (cloud_with [("demo", "RUNNING")] [] 2 "quota")) ∧
  changed_after_success "TERMINATED" (manager demo)
    (stop_instance cloud_api 3 (manager demo)
       (cloud_with [("demo", "RUNNING")] [] 2 "")) ∧
  ended_well
    (stop_instance cloud_api 3 (manager demo)
       (cloud_with [("demo", "RUNNING")] [] 2 "")).
Proof.
  split.
  - destruct (persistence_after_success cloud_api 3 (manager demo)
                (cloud_with [("demo", "RUNNING")] [] 2 "quota")) as (_ & H & _).
    apply H.
    + vm_compute. discriminate.
    + intros e He. vm_compute in He. discriminate He.
  - destruct (persistence_after_success cloud_api 3 (manager demo)
                (cloud_with [("demo", "RUNNING")] [] 2 "")) as (_ & _ & H & _).
    apply H. intros [Hs _]. vm_compute in Hs. discriminate Hs.
Defined.

(** C10 does not hold as the specification words it: when the write of the
    configuration file is interrupted from the keyboard, [save_config] and
    [stop_instance] let the [KeyboardInterrupt] through, with
    [instance_state] already changed in the object and the write attempted.
    The run did not end in success and did not leave things as they were. *)
Lemma stop_instance_interrupted_write :
  let o := stop_instance interrupted_api 3 (manager demo)
             (cloud_with [("demo", "RUNNING")] [] 2 "") in
  ¬ unchanged_unless_success (manager demo) o ∧
  res o = Raise KeyboardInterrupt ∧
  instance_state demo = "RUNNING" ∧
  instance_state (config (self_of o)) = "TERMINATED" ∧
  count is_write (evs o) = 1%nat.
Proof.
  cbn zeta. split; [|by vm_compute].
  intros H. destruct H as [Hs _].
  - vm_compute. discriminate.
  - vm_compute in Hs. discriminate Hs.
Qed.

End Scenarios.

(** ** More on the configuration store and on construction *)

Module StoreMore.
Import Store StoreFacts.

(** X1: [merge_defaults] keeps every key of the document with its value,
    gives every missing key its default, so that the keys of the result are
    those of the document and those of the defaults; merging twice changes
    nothing more; and the empty document gives the defaults. *)
Theorem merge_defaults_fills (config : gmap string json) :
  (∀ k v, config !! k = Some v → merge_defaults config !! k = Some v) ∧
  (∀ k, config !! k = None → merge_defaults config !! k = default_doc !! k) ∧
  dom (merge_defaults config) = dom config ∪ dom default_doc ∧
  merge_defaults (merge_defaults config) = merge_defaults config ∧
  merge_defaults ∅ = default_doc.
Proof.
  split; [|split; [|split; [|split]]].
  - intros k v H. by rewrite merge_defaults_lookup, H.
  - intros k H. by rewrite merge_defaults_lookup, H.
  - by rewrite merge_defaults_union, dom_union_L.
  - rewrite !merge_defaults_union, <- (assoc (∪)).
    assert (default_doc ∪ default_doc = default_doc) as -> by apply (idemp (∪)).
    reflexivity.
  - by rewrite merge_defaults_union, (left_id ∅ (∪)).
Qed.

(** X2: [load_config] never writes to a file that exists: the disk is as
    before and no write is among the events, whether the file can be read or
    not.  When the file is missing and cannot be created, the [OSError] of
    [open] comes out of [load_config] with nothing printed and the disk as
    before. *)
Theorem load_config_keeps_existing_file (self : manager) (d : disk) :
  (content d ≠ Absent →
     (load_config self d).1.2 = d ∧
     ∀ p doc, Write p doc ∉ (load_config self d).2) ∧
  (∀ e, content d = Absent → write_error d = Some e →
     load_config self d = (Raise (Exception "OSError" e), d, [])).
Proof.
  split.
  - intros Hc. unfold load_config.
    destruct (content d) as [|msg|doc] eqn:E; [done| |].
    + unfold log_error, logger_call, print_colored.
      destruct (logger self); cbn; (split; [done|]); intros p doc Hin;
        apply list_elem_of_In in Hin; cbn in Hin; intuition discriminate.
    + cbn. split; [done|]. intros p doc'. apply not_elem_of_nil.
  - intros e Hc Hw. unfold load_config. by rewrite Hc, Hw.
Qed.

Lemma init_on_defaults (path log : string) :
  let d1 := {| content := Document default_doc; write_error := None |} in
  init path log d1
  = (Ret ({| config_file := path; logger := true |}, default_doc), d1,
     [Print (Colors.BLUE +:+ ("[INFO] " +:+ "Logging to: " +:+ log) +:+ Colors.RESET);
      Logged INFO ("Logging to: " +:+ log)]).
Proof.
  cbn zeta. unfold init, load_config. cbn [content].
  rewrite merge_defaults_union.
  assert (default_doc ∪ default_doc = default_doc) as -> by apply (idemp (∪)).
  reflexivity.
Qed.

(** X3: on a first run, with no configuration file, [__init__] creates the
    file with the defaults and then fails on the missing logger, before
    [setup_gcp_clients] is reached.  The next run, from the disk the first
    one left, gets past the logger and leaves the file as it is; the
    configuration it loads holds the placeholder project, so that with a
    project detected and the clients built it returns a manager whose
    configuration is the defaults with [project_id] replaced by that project,
    and with no project detected it exits with status 1. *)
Theorem construct_second_run (path log1 log2 : string)
    (auth : result (option string)) (clients : result unit) :
  let d0 := {| content := Absent; write_error := None |} in
  let first := construct path log1 d0 auth clients in
  let d1 := first.1.2 in
  let second := construct path log2 d1 auth clients in
  first.1.1 = Raise (AttributeError "VMManager" "logger") ∧
  d1 = {| content := Document default_doc; write_error := None |} ∧
  second.1.2 = d1 ∧
  (∀ p, auth = Ok (Some p) → p ≠ "" → clients = Ok tt →
     second.1.1 = Ret ({| config_file := path; logger := true |},
                       <["project_id" := JStr p]> default_doc)) ∧
  (auth = Ok None ∨ auth = Ok (Some "") → second.1.1 = Raise (SystemExit "1")).
Proof.
  cbn zeta. split; [reflexivity|]. split; [reflexivity|].
  change ((construct path log1 {| content := Absent; write_error := None |}
             auth clients).1.2)
    with {| content := Document default_doc; write_error := None |}.
  unfold construct. rewrite init_on_defaults.
  destruct (setup_gcp_clients {| config_file := path; logger := true |} default_doc
              auth clients) as [[r2 config'] evs2] eqn:Hs.
  split; [by destruct r2|]. split.
  - intros p -> Hp ->. apply StrFacts.truthy_nonempty in Hp.
    unfold setup_gcp_clients in Hs.
    change (default_doc !! "project_id") with (Some (JStr "your-gcp-project-id")) in Hs.
    cbn [is_placeholder] in Hs.
    change (String.eqb "your-gcp-project-id" "your-gcp-project-id") with true in Hs.
    cbv iota in Hs. rewrite Hp in Hs. cbn in Hs. by injection Hs as <- <- <-.
  - intros Ha. unfold setup_gcp_clients in Hs.
    change (default_doc !! "project_id") with (Some (JStr "your-gcp-project-id")) in Hs.
    destruct Ha as [-> | ->]; cbn in Hs; by injection Hs as <- <- <-.
Qed.

(** X3 with the project [my-project] detected on the second run, and with
    none. *)
Lemma construct_second_run_witness :
  let d1 := {| content := Document default_doc; write_error := None |} in
  (construct "vm_config.json" "log2" d1 (Ok (Some "my-project")) (Ok tt)).1.1
  = Ret ({| config_file := "vm_config.json"; logger := true |},
         <["project_id" := JStr "my-project"]> default_doc) ∧
  (construct "vm_config.json" "log2" d1 (Ok None) (Ok tt)).1.1
  = Raise (SystemExit "1").
Proof.
  cbn zeta. split.
  - destruct (construct_second_run "vm_config.json" "log1" "log2"
                (Ok (Some "my-project")) (Ok tt)) as (_ & _ & _ & H & _).
    exact (H "my-project" eq_refl ltac:(discriminate) eq_refl).
  - destruct (construct_second_run "vm_config.json" "log1" "log2"
                (Ok None) (Ok tt)) as (_ & _ & _ & _ & H).
    exact (H (or_introl eq_refl)).
Defined.



End StoreMore.

(** ** More on the lifecycle methods *)

Module LifecycleMore.
Import Str Compute VM Run RunFacts Laws PollerFacts PartsFacts Exec StartStopFacts
       CreateFacts.

Section Lifecycle.
Context {R : Type} (api : Api R).


Lemma run_restart_instance fuel self r :
  restart_instance api fuel self r
  = let c := config self in
    let p := project_id c in
    let z := Script.get_zone c in
    let n := vm_name c in
    after (info ("Restarting instance " +:+ n +:+ "...") ++ [InstancesReset p z n])
      match instances_reset api p z n r with
      | (Err e, r1) =>
          if is_exception e then
            Build_Out (Ret false) self r1
              (failure ("Failed to restart instance: " +:+ exn_msg e))
          else Build_Out (Raise e) self r1 []
      | (Ok h, r1) =>
          let w := wait_for_operation api fuel h "instance restart" self r1 in
          match res w with
          | Ret true =>
              let a := show_access_info api (self_of w) (env_of w) in
              Build_Out (match res a with
                         | Ret _ => Ret true
                         | Raise e => Raise e
                         | Diverge => Diverge
                         end) (self_of a) (env_of a)
                (evs w ++ success ("Instance " +:+ n +:+ " restarted successfully!")
                 ++ [Sleep 5] ++ evs a)
          | Ret false => w
          | Raise e =>
              if is_exception e then
                Build_Out (Ret false) (self_of w) (env_of w)
                  (evs w ++ failure ("Failed to restart instance: " +:+ exn_msg e))
              else w
          | Diverge => w
          end
      end.
Proof.
  unfold restart_instance. cbn zeta. do 3 run_step.
  destruct (instances_reset api (project_id (config self))
              (Script.get_zone (config self)) (vm_name (config self)) r)
    as [[h|e] r1] eqn:Hs;
    pose proof (run_call _ (λ _, InstancesReset (project_id (config self))
                  (Script.get_zone (config self)) (vm_name (config self)))
                  _ _ self r Hs) as Hc;
    cbv beta iota in Hc; run_step;
    [|destruct (is_exception e); [do 2 run_step|]; run_done].
  pose proof (keeps_wait_for_operation api fuel h "instance restart" self r1) as Hk.
  destruct (wait_for_operation api fuel h "instance restart" self r1)
    as [wres ws wenv wevs] eqn:Hw.
  cbn [res self_of env_of evs] in *. subst ws.
  destruct wres as [[|]|e|]; run_step;
    [|run_step; run_done|destruct (is_exception e); [do 2 run_step|]; run_done
     |run_done].
  do 2 run_step.
  pose proof (no_exception_show_access_info api self wenv) as Hr.
  destruct (show_access_info api self wenv) as [ares as' aenv aevs] eqn:Ha.
  cbn [res self_of env_of evs] in *. run_step.
  destruct ares as [[]|e|]; [run_step; run_done| |run_done].
  rewrite (Hr e eq_refl). run_done.
Qed.

Lemma run_delete_instance fuel self r :
  delete_instance api fuel self r
  = let c := config self in
    let p := project_id c in
    let z := Script.get_zone c in
    let n := vm_name c in
    after (warning ("Deleting instance " +:+ n +:+ "...") ++ [InstancesDelete p z n])
      match instances_delete api p z n r with
      | (Err e, r1) =>
          if is_exception e then
            Build_Out (Ret false) self r1
              (failure ("Failed to delete instance: " +:+ exn_msg e))
          else Build_Out (Raise e) self r1 []
      | (Ok h, r1) =>
          let w := wait_for_operation api fuel h "instance deletion" self r1 in
          match res w with
          | Ret true =>
              Build_Out (Ret true) (self_of w) (env_of w)
                (evs w ++ success ("Instance " +:+ n +:+ " deleted successfully!"))
          | Ret false => w
          | Raise e =>
              if is_exception e then
                Build_Out (Ret false) (self_of w) (env_of w)
                  (evs w ++ failure ("Failed to delete instance: " +:+ exn_msg e))
              else w
          | Diverge => w
          end
      end.
Proof.
  unfold delete_instance. cbn zeta. do 3 run_step.
  destruct (instances_delete api (project_id (config self))
              (Script.get_zone (config self)) (vm_name (config self)) r)
    as [[h|e] r1] eqn:Hs;
    pose proof (run_call _ (λ _, InstancesDelete (project_id (config self))
                  (Script.get_zone (config self)) (vm_name (config self)))
                  _ _ self r Hs) as Hc;
    cbv beta iota in Hc; run_step;
    [|destruct (is_exception e); [do 2 run_step|]; run_done].
  pose proof (keeps_wait_for_operation api fuel h "instance deletion" self r1) as Hk.
  destruct (wait_for_operation api fuel h "instance deletion" self r1)
    as [wres ws wenv wevs] eqn:Hw.
  cbn [res self_of env_of evs] in *. subst ws.
  destruct wres as [[|]|e|]; run_step;
    [do 2 run_step; run_done|run_step; run_done
    |destruct (is_exception e); [do 2 run_step|]; run_done|run_done].
Qed.

Lemma passive_is_mutation' : passive is_mutation.
Proof. by repeat split. Qed.

(** After its request, a restart or a delete changes nothing more. *)
Lemma one_request_shape (L : list event) (x : event) (inner : Out R bool) self :
  self_of inner = self →
  count is_mutation (evs inner) = 0%nat → count is_write (evs inner) = 0%nat →
  (∃ rest, evs (after (L ++ [x]) inner) = L ++ x :: rest ∧
           count is_mutation rest = 0%nat ∧ count is_write rest = 0%nat) ∧
  self_of (after (L ++ [x]) inner) = self.
Proof.
  intros Hs Hm Hw. split; [|done]. exists (evs inner).
  split; [|done]. unfold after. cbn [evs]. by rewrite <- app_assoc.
Qed.

(** X6: [restart_instance] reads nothing first: after its log line comes the
    reset request, the only request of the run that changes the remote side;
    the object is left as it was and nothing is written to the file; when the
    request is refused with an [Exception] the call returns [False] with the
    error of the remote side in its log line, and when it is left by an
    exception that is no [Exception] that one is let through, with no log
    line; no [Exception] leaves the call; and it returns [True] only after a
    poll that saw the operation DONE with no error. *)
Theorem restart_instance_unconditional fuel self r :
  let c := config self in
  let p := project_id c in
  let z := Script.get_zone c in
  let n := vm_name c in
  let o := restart_instance api fuel self r in
  ((∃ rest, evs o = info ("Restarting instance " +:+ n +:+ "...")
                    ++ InstancesReset p z n :: rest ∧
            count is_mutation rest = 0%nat ∧ count is_write rest = 0%nat) ∧
   self_of o = self) ∧
  (∀ e r1, instances_reset api p z n r = (Err e, r1) →
     o = if is_exception e then
           Build_Out (Ret false) self r1
             (info ("Restarting instance " +:+ n +:+ "...")
              ++ InstancesReset p z n
              :: failure ("Failed to restart instance: " +:+ exn_msg e))
         else
           Build_Out (Raise e) self r1
             (info ("Restarting instance " +:+ n +:+ "...")
              ++ [InstancesReset p z n])) ∧
  (∀ e, is_exception e = true → res o ≠ Raise e) ∧
  (res o = Ret true → ∃ e, e ∈ evs o ∧ is_done_ok e = true).
Proof.
  cbn zeta. split; [|split; [|split]].
  3:{ intros e He Hr. apply no_exception_restart_instance in Hr. congruence. }
  all: rewrite run_restart_instance; cbn zeta.
  - destruct (instances_reset api _ _ _ r) as [[h|e] r1];
      [|apply one_request_shape; by destruct (is_exception e)].
    pose proof (keeps_wait_for_operation api fuel h "instance restart" self r1) as Hk.
    pose proof (count_quiet (wait_for_operation api fuel h "instance restart") _ self r1
                  (quiet_wait_for_operation api _ _ _ _ passive_is_write)) as Hqw.
    pose proof (count_quiet (wait_for_operation api fuel h "instance restart") _ self r1
                  (quiet_wait_for_operation api _ _ _ _ passive_is_mutation')) as Hqm.
    destruct (wait_for_operation api fuel h "instance restart" self r1)
      as [wres ws wenv wevs].
    cbn [res self_of env_of evs] in *. subst ws.
    apply one_request_shape; destruct wres as [[|]|e|]; try destruct (is_exception e);
      try done; cbn [res self_of env_of evs]; [apply keeps_show_access_info|..];
      rewrite ?count_app, ?Hqm, ?Hqw,
        ?(count_quiet (show_access_info api) is_mutation self wenv
            (quiet_show_access_info api _ passive_is_mutation')),
        ?(count_quiet (show_access_info api) is_write self wenv
            (quiet_show_access_info api _ passive_is_write));
      reflexivity.
  - intros e r1 ->. unfold after.
    destruct (is_exception e); cbn [res self_of env_of evs];
      by rewrite <- ?app_assoc, ?app_nil_r.
  - destruct (instances_reset api _ _ _ r) as [[h|e] r1];
      [|by destruct (is_exception e)].
    pose proof (wait_for_operation_true api fuel h "instance restart" self r1) as Ht.
    destruct (wait_for_operation api fuel h "instance restart" self r1)
      as [wres ws wenv wevs].
    cbn [res self_of env_of evs] in *.
    destruct wres as [[|]|e|]; try destruct (is_exception e);
      cbn [after res evs]; try done.
    intros _. destruct (Ht eq_refl) as (e & He & Hd). exists e. split; [|done].
    rewrite !elem_of_app. auto.
Qed.

(** X7: [delete_instance] does not check that the instance exists: after its
    warning comes the delete request, the only request of the run that
    changes the remote side; the object is left as it was and nothing is
    written; an instance that is not there shows as whatever [Exception] the
    remote side raises, in a [False] return and a log line; an exception that
    is no [Exception] is let through, with no log line; no [Exception]
    leaves the call; and [True] is returned only after a poll that saw the
    operation DONE with no error. *)
Theorem delete_instance_unconditional fuel self r :
  let c := config self in
  let p := project_id c in
  let z := Script.get_zone c in
  let n := vm_name c in
  let o := delete_instance api fuel self r in
  ((∃ rest, evs o = warning ("Deleting instance " +:+ n +:+ "...")
                    ++ InstancesDelete p z n :: rest ∧
            count is_mutation rest = 0%nat ∧ count is_write rest = 0%nat) ∧
   self_of o = self) ∧
  (∀ e r1, instances_delete api p z n r = (Err e, r1) →
     o = if is_exception e then
           Build_Out (Ret false) self r1
             (warning ("Deleting instance " +:+ n +:+ "...")
              ++ InstancesDelete p z n
              :: failure ("Failed to delete instance: " +:+ exn_msg e))
         else
           Build_Out (Raise e) self r1
             (warning ("Deleting instance " +:+ n +:+ "...")
              ++ [InstancesDelete p z n])) ∧
  (∀ e, is_exception e = true → res o ≠ Raise e) ∧
  (res o = Ret true → ∃ e, e ∈ evs o ∧ is_done_ok e = true).
Proof.
  cbn zeta. split; [|split; [|split]].
  3:{ intros e He Hr. apply no_exception_delete_instance in Hr. congruence. }
  all: rewrite run_delete_instance; cbn zeta.
  - destruct (instances_delete api _ _ _ r) as [[h|e] r1];
      [|apply one_request_shape; by destruct (is_exception e)].
    pose proof (keeps_wait_for_operation api fuel h "instance deletion" self r1) as Hk.
    pose proof (count_quiet (wait_for_operation api fuel h "instance deletion") _ self r1
                  (quiet_wait_for_operation api _ _ _ _ passive_is_write)) as Hqw.
    pose proof (count_quiet (wait_for_operation api fuel h "instance deletion") _ self r1
                  (quiet_wait_for_operation api _ _ _ _ passive_is_mutation')) as Hqm.
    destruct (wait_for_operation api fuel h "instance deletion" self r1)
      as [wres ws wenv wevs].
    cbn [res self_of env_of evs] in *. subst ws.
    apply one_request_shape; destruct wres as [[|]|e|]; try destruct (is_exception e);
      try done; cbn [res self_of env_of evs];
      rewrite ?count_app, ?Hqm, ?Hqw; reflexivity.
  - intros e r1 ->. unfold after.
    destruct (is_exception e); cbn [res self_of env_of evs];
      by rewrite <- ?app_assoc, ?app_nil_r.
  - destruct (instances_delete api _ _ _ r) as [[h|e] r1];
      [|by destruct (is_exception e)].
    pose proof (wait_for_operation_true api fuel h "instance deletion" self r1) as Ht.
    destruct (wait_for_operation api fuel h "instance deletion" self r1)
      as [wres ws wenv wevs].
    cbn [res self_of env_of evs] in *.
    destruct wres as [[|]|e|]; try destruct (is_exception e);
      cbn [after res evs]; try done.
    intros _. destruct (Ht eq_refl) as (e & He & Hd). exists e. split; [|done].
    rewrite !elem_of_app. auto.
Qed.

(** X8: whatever the remote side does, [start_instance], [stop_instance],
    [restart_instance] and [delete_instance] let no [Exception] out, and no
    more do [create_firewall_rule], [get_instance_status], [save_config] and
    [show_access_info]: every [Exception] of a remote call or of the write
    ends in a return.  An exception that is no [Exception] does come out:
    the one the status read raises leaves [get_instance_status], and with it
    [start_instance] and [stop_instance], and the one the write raises leaves
    [save_config]. *)
Theorem lifecycle_lets_no_exception_out fuel self r :
  let c := config self in
  (∀ e, is_exception e = true →
     res (start_instance api fuel self r) ≠ Raise e ∧
     res (stop_instance api fuel self r) ≠ Raise e ∧
     res (restart_instance api fuel self r) ≠ Raise e ∧
     res (delete_instance api fuel self r) ≠ Raise e ∧
     res (create_firewall_rule api fuel self r) ≠ Raise e ∧
     res (get_instance_status api self r) ≠ Raise e ∧
     res (save_config api self r) ≠ Raise e ∧
     res (show_access_info api self r) ≠ Raise e) ∧
  (∀ e r1,
     instances_get api (project_id c) (Script.get_zone c) (vm_name c) r = (Err e, r1) →
     is_exception e = false →
     res (get_instance_status api self r) = Raise e ∧
     res (start_instance api fuel self r) = Raise e ∧
     res (stop_instance api fuel self r) = Raise e ∧
     res (show_access_info api self r) = Raise e) ∧
  (∀ e r1, file_write api (config_file self) c r = (Err e, r1) →
     is_exception e = false → res (save_config api self r) = Raise e).
Proof.
  cbn zeta. split; [|split].
  - intros e He.
    assert (∀ A (m : M R A), no_exception m → res (m self r) ≠ Raise e) as Hno.
    { intros A m Hm Hr. apply Hm in Hr. congruence. }
    repeat split; apply Hno.
    + apply no_exception_start_instance.
    + apply no_exception_stop_instance.
    + apply no_exception_restart_instance.
    + apply no_exception_delete_instance.
    + apply no_exception_create_firewall_rule.
    + apply no_exception_get_instance_status.
    + apply no_exception_save_config.
    + apply no_exception_show_access_info.
  - intros e r1 Hg He.
    rewrite run_get_instance_status, run_start_instance, run_stop_instance.
    cbn zeta. rewrite Hg, He. split; [done|]. split; [done|]. split; [done|].
    unfold show_access_info. run_step.
    pose proof (run_call _ (λ _, InstancesGet (project_id (config self))
                  (Script.get_zone (config self)) (vm_name (config self)))
                  _ _ self r Hg) as Hc.
    cbv beta iota in Hc. run_step. by rewrite He.
  - intros e r1 Hw He. rewrite run_save_config, Hw, He. done.
Qed.

(** X9: when [os_choice] is one of the four keys of [os_images] and the
    configured disk size is in the range of a 64-bit integer,
    [create_instance] lets no [Exception] out either.  With a disk size
    outside that range, a run that gets as far as building the request (no
    instance yet, the firewall step passed) raises [ValueError] from line
    367, which is outside every [try], and no insert is sent. *)
Theorem create_instance_lets_out fuel self r :
  let c := config self in
  os_choice c = "ubuntu" ∨ os_choice c = "debian" ∨
  os_choice c = "centos" ∨ os_choice c = "rhel" →
  (in_int64 (disk_size c) = true →
   ∀ e, is_exception e = true → res (create_instance api fuel self r) ≠ Raise e) ∧
  (in_int64 (disk_size c) = false →
   ∀ e r1,
     instances_get api (project_id c) (Script.get_zone c) (vm_name c) r = (Err e, r1) →
     res (create_firewall_rule api fuel self r1) = Ret true →
     (∃ msg, res (create_instance api fuel self r) = Raise (ValueError msg)) ∧
     count is_insert (evs (create_instance api fuel self r)) = 0%nat).
Proof.
  cbn zeta. intros Hos.
  assert (∃ img, dict_get os_images (os_choice (config self)) = Some img) as (img & Himg).
  { destruct Hos as [H|[H|[H|H]]]; rewrite H; by eexists. }
  split.
  - intros Hd e He Hr.
    apply (create_instance_known_os _ _ _ _ img) in Hr; [congruence|done..].
  - intros Hd e r1 Hg Hf. rewrite run_create_instance. cbn zeta. rewrite Hg.
    pose proof (keeps_create_firewall_rule api fuel self r1) as Hk.
    pose proof (count_quiet (create_firewall_rule api fuel) is_insert self r1
      (quiet_create_firewall_rule api is_insert fuel passive_is_insert
         (λ _ _, eq_refl) (λ _ _, eq_refl))) as Hq.
    unfold after_firewall.
    destruct (create_firewall_rule api fuel self r1) as [wres ws wenv wevs].
    cbn [res self_of env_of evs] in *. subst ws wres.
    rewrite (submit_out_of_range _ _ _ _ _ _ img) by done.
    unfold after. cbn [res evs]. split; [by eexists|].
    rewrite !count_app, Hq. by count_concrete.
Qed.

(** X10: [save_config] makes one write, of the configuration the object
    holds, to the configured path, makes no request to the remote side and
    leaves the object as it was; it returns when the write succeeds, with a
    success line, and when the write fails with an [Exception], with an
    error line that carries the error; a write left by an exception that is
    no [Exception] lets that one through, with no line. *)
Theorem save_config_one_write self r :
  let o := save_config api self r in
  self_of o = self ∧
  (∃ said, evs o = FileWrite (config_file self) (config self) :: said ∧
           count is_write said = 0%nat ∧ count is_request said = 0%nat) ∧
  (∀ r', file_write api (config_file self) (config self) r = (Ok tt, r') →
     res o = Ret tt ∧
     evs o = FileWrite (config_file self) (config self)
             :: success ("Configuration saved to " +:+ config_file self)) ∧
  (∀ e r', file_write api (config_file self) (config self) r = (Err e, r') →
     is_exception e = true →
     res o = Ret tt ∧
     evs o = FileWrite (config_file self) (config self)
             :: failure ("Error saving config: " +:+ exn_msg e)) ∧
  (∀ e r', file_write api (config_file self) (config self) r = (Err e, r') →
     is_exception e = false →
     o = Build_Out (Raise e) self r' [FileWrite (config_file self) (config self)]).
Proof.
  cbn zeta. rewrite run_save_config.
  destruct (file_write api _ _ r) as [[[]|e] r1]; cbn [res self_of env_of evs].
  - split; [done|]. split; [by eexists|]. split; [done|].
    split; by intros ? ? [=].
  - destruct (is_exception e) eqn:He; cbn [res self_of env_of evs];
      (split; [done|]); (split; [by eexists|]); (split; [by intros ? [=]|]);
      split; intros ? ? [= <- <-]; congruence || done.
Qed.

Lemma round_not_done (c : Config) (n ty : string) (o : Operation) :
  is_DONE (status o) = false → count is_done_poll (round c n ty o) = 0%nat.
Proof.
  intros Hs. apply count_zero. intros e He.
  apply list_elem_of_In in He. cbn in He.
  destruct He as [<-|[<-|[<-|[<-|[]]]]]; cbn; done.
Qed.

Lemma wait_loop_returns fuel h ty self r b :
  res (wait_loop api fuel h ty self r) = Ret b →
  ∃ n pre last,
    op_name h = Some n ∧
    evs (wait_loop api fuel h ty self r)
    = pre ++ last_round (config self) n ty last ∧
    is_DONE (status last) = true ∧ b = negb (truthy (error last)) ∧
    count is_done_poll pre = 0%nat.
Proof.
  revert r. induction fuel as [|fuel IH]; intros r; [done|].
  destruct (op_name h) as [n|] eqn:Hn.
  - destruct (zone_operations_get api (project_id (config self))
                (Script.get_zone (config self)) n r) as [[o|e] r1] eqn:Hx.
    + destruct (is_DONE (status o)) eqn:Hs.
      * rewrite (wait_loop_done _ _ _ _ _ _ _ _ _ Hn Hx Hs). cbn [res evs].
        intros [= <-]. by exists n, [], o.
      * rewrite (wait_loop_round _ _ _ _ _ _ _ _ _ Hn Hx Hs). cbn [after res evs].
        intros H. destruct (IH _ H) as (n' & pre & last & Hn' & -> & Hd & Hb & Hc).
        exists n', (round (config self) n ty o ++ pre), last.
        split; [done|]. split; [by rewrite <- app_assoc|].
        split; [done|]. split; [done|].
        by rewrite count_app, round_not_done, Hc.
    + rewrite wait_loop_step, run_bind, (run_poll_named _ _ _ _ _ _ _ Hn Hx). done.
  - rewrite wait_loop_step, run_bind, (run_poll_nameless _ _ _ _ Hn). done.
Qed.

(** X11: whatever the remote side does, when [wait_for_operation] returns,
    its last poll saw the operation DONE and every poll before it saw it not
    done or was none; the value returned is [True] exactly when that last
    observation has no error attached; the last events are that poll and the
    success or failure line; and the object is as it was. *)
Theorem wait_for_operation_returns_on_done fuel h ty self r b :
  let o := wait_for_operation api fuel h ty self r in
  res o = Ret b →
  self_of o = self ∧
  ∃ n pre last,
    op_name h = Some n ∧
    evs o = info ("Waiting for " +:+ ty +:+ " to complete...")
            ++ pre ++ last_round (config self) n ty last ∧
    status last = DONE ∧ (b = true ↔ error last = "") ∧
    count is_done_poll pre = 0%nat.
Proof.
  cbn zeta. intros H. split; [apply keeps_wait_for_operation|].
  rewrite run_wait_for_operation in H |- *. cbn [after res evs] in *.
  destruct (wait_loop_returns _ _ _ _ _ _ H) as (n & pre & last & Hn & -> & Hd & -> & Hc).
  exists n, pre, last. split; [done|]. split; [done|].
  split; [by destruct (status last)|]. split; [|done].
  destruct (error last); cbn; split; congruence.
Qed.

Lemma wait_loop_poll_error (h : Handle) (n ty : string) (pre : list Operation)
    (e : exn) (fuel : nat) self r rk r' :
  op_name h = Some n →
  Forall (λ o, is_DONE (status o) = false) pre →
  observed api (config self) n pre r rk →
  zone_operations_get api (project_id (config self)) (Script.get_zone (config self)) n rk
  = (Err e, r') →
  (List.length pre < fuel)%nat →
  wait_loop api fuel h ty self r
  = Build_Out (Raise e) self r'
      (flat_map (round (config self) n ty) pre
       ++ [ZoneOperationsGet (project_id (config self))
             (Script.get_zone (config self)) n (Err e)]).
Proof.
  intros Hn Hpre. revert fuel r.
  induction Hpre as [|o pre Ho Hpre IH]; intros fuel r Hobs Hx Hfuel.
  - destruct fuel as [|fuel]; [cbn in Hfuel; lia|]. cbn in Hobs. subst rk.
    by rewrite wait_loop_step, run_bind, (run_poll_named _ _ _ _ _ _ _ Hn Hx).
  - destruct fuel as [|fuel]; [cbn in Hfuel; lia|].
    destruct Hobs as (r1 & Hx1 & Hobs).
    rewrite (wait_loop_round _ _ _ _ _ _ _ _ _ Hn Hx1 Ho).
    rewrite (IH fuel r1 Hobs Hx) by (cbn in Hfuel; lia).
    unfold after. cbn [res self_of env_of evs flat_map]. by rewrite <- app_assoc.
Qed.

(** X12: an exception of the remote side while polling is not caught in
    [wait_for_operation]: when the polls answer observations that are not
    DONE and the next poll raises, the wait raises that exception, after the
    progress lines and sleeps of the observations before; and for a handle
    with no name it raises [AttributeError] right after its opening line,
    with no request made. *)
Theorem wait_for_operation_poll_error (h : Handle) (ty : string) (fuel : nat) self r :
  let c := config self in
  (∀ n pre e rk r',
     op_name h = Some n →
     Forall (λ o, status o ≠ DONE) pre →
     observed api c n pre r rk →
     zone_operations_get api (project_id c) (Script.get_zone c) n rk = (Err e, r') →
     (List.length pre < fuel)%nat →
     wait_for_operation api fuel h ty self r
     = Build_Out (Raise e) self r'
         (info ("Waiting for " +:+ ty +:+ " to complete...")
          ++ flat_map (round c n ty) pre
          ++ [ZoneOperationsGet (project_id c) (Script.get_zone c) n (Err e)])) ∧
  (op_name h = None → (0 < fuel)%nat →
     wait_for_operation api fuel h ty self r
     = Build_Out (Raise (AttributeError "Operation" "name")) self r
         (info ("Waiting for " +:+ ty +:+ " to complete..."))).
Proof.
  cbn zeta. split.
  - intros n pre e rk r' Hn Hpre Hobs Hx Hfuel.
    assert (Forall (λ o, is_DONE (status o) = false) pre) as Hpre'.
    { eapply Forall_impl; [exact Hpre|]. intros o Ho. cbn in Ho. by destruct (status o). }
    rewrite run_wait_for_operation.
    by rewrite (wait_loop_poll_error _ _ _ _ _ _ _ _ _ _ Hn Hpre' Hobs Hx Hfuel).
  - intros Hn Hfuel. destruct fuel as [|fuel]; [lia|].
    rewrite run_wait_for_operation, wait_loop_step, run_bind.
    by rewrite (run_poll_nameless _ _ _ _ Hn).
Qed.

Lemma run_show_access_info self r :
  show_access_info api self r
  = let c := config self in
    let p := project_id c in
    let z := Script.get_zone c in
    let n := vm_name c in
    match instances_get api p z n r with
    | (Err e, r1) =>
        if is_exception e then
          Build_Out (Ret tt) self r1
            (InstancesGet p z n
             :: failure ("Failed to get access information: " +:+ exn_msg e))
        else Build_Out (Raise e) self r1 [InstancesGet p z n]
    | (Ok i, r1) =>
        Build_Out (Ret tt) self r1
          (InstancesGet p z n
           :: printed "=== Access Information ===" Colors.CYAN
           ++ match external_ip i with
              | Some ip =>
                  [Print "SSH Command:";
                   Print ("  gcloud compute ssh " +:+ n +:+ " --zone=" +:+ z
                          +:+ " --project=" +:+ p);
                   Print ("External IP: " +:+ ip)]
                  ++ (if enable_http_server c
                      then [Print ("Web URL: http://" +:+ ip)] else [])
              | None => []
              end)
    end.
Proof.
  unfold show_access_info. cbn zeta. run_step.
  destruct (instances_get api (project_id (config self))
              (Script.get_zone (config self)) (vm_name (config self)) r)
    as [[i|e] r1] eqn:Hg;
    pose proof (run_call _ (λ _, InstancesGet (project_id (config self))
                  (Script.get_zone (config self)) (vm_name (config self)))
                  _ _ self r Hg) as Hc;
    cbv beta iota in Hc; run_step;
    [|destruct (is_exception e); [rewrite run_log_error|]; run_done].
  run_step. unfold external_ip.
  destruct (network_interfaces i) as [|ni ?]; [run_step; run_done|].
  destruct (access_configs ni) as [|ac ?]; [run_step; run_done|].
  do 3 run_step.
  destruct (enable_http_server (config self)); [|run_step; run_done].
  unfold try_catch. rewrite Exec.run_print. cbv beta iota.
  cbn [res self_of env_of evs]. run_done.
Qed.

(** Statements run in sequence, however they are grouped. *)
Lemma run_bind_assoc {A B C} (m : M R A) (f : A → M R B) (g : B → M R C) self r :
  ((m ≫= f) ≫= g) self r = (m ≫= λ x, f x ≫= g) self r.
Proof.
  unfold mbind, M_bind, bind.
  destruct (m self r) as [x s' r' l]. cbn [res self_of env_of evs].
  destruct x as [a|e|]; cbn [res self_of env_of evs]; [|reflexivity..].
  destruct (f a s' r') as [y s'' r'' l']. cbn [res self_of env_of evs].
  destruct y as [b|e|]; cbn [res self_of env_of evs]; [|reflexivity..].
  by rewrite app_assoc.
Qed.

Lemma try_bind_assoc {A B C} c (m : M R A) (f : A → M R B) (g : B → M R C)
    (h : exn → M R C) self r :
  try_catch c ((m ≫= f) ≫= g) h self r = try_catch c (m ≫= λ x, f x ≫= g) h self r.
Proof. unfold try_catch. by rewrite run_bind_assoc. Qed.

Lemma passive_is_start_reset_delete : passive is_start_reset_delete.
Proof. by repeat split. Qed.
Lemma passive_is_stop : passive is_stop.
Proof. by repeat split. Qed.

(** With an image for the configured [os_choice] and a disk size in range,
    [submit] logs one line and sends the insert request; nothing after it
    inserts, starts, resets or deletes, and it stops the instance or writes
    the file only for the configured state TERMINATED. *)
Lemma submit_shape fuel n z self r img :
  dict_get os_images (os_choice (config self)) = Some img →
  in_int64 (disk_size (config self)) = true →
  ∃ tail,
    evs (submit api fuel n z self r)
    = info "Submitting instance creation request..."
      ++ InstancesInsert (project_id (config self)) z
           (instance_resource_of (config self) img) :: tail ∧
    count is_insert tail = 0%nat ∧ count is_start_reset_delete tail = 0%nat ∧
    (instance_state (config self) ≠ "TERMINATED" →
     count is_stop tail = 0%nat ∧ count is_write tail = 0%nat).
Proof.
  intros Himg Hd. unfold submit, os_image, int64. run_step. rewrite Himg, Hd.
  cbv beta iota. do 4 run_step.
  destruct (instances_insert api (project_id (config self)) z
              (instance_resource_of (config self) img) r) as [[h|e] r1] eqn:Hi;
    pose proof (run_call _ (λ _, InstancesInsert (project_id (config self)) z
                  (instance_resource_of (config self) img)) _ _ self r Hi) as Hc;
    cbv beta iota in Hc; run_step.
  2:{ destruct (is_exception e); [do 2 run_step|];
        rewrite ?after_after; unfold after; cbn [evs app];
        rewrite ?app_nil_r, <- ?app_assoc; cbn [app];
        (eexists; split; [reflexivity|]); by count_concrete. }
  pose proof (keeps_wait_for_operation api fuel h "instance creation" self r1) as Hk.
  pose proof (count_quiet (wait_for_operation api fuel h "instance creation")
                is_insert self r1
                (quiet_wait_for_operation api _ fuel h _ passive_is_insert)) as Hq1.
  pose proof (count_quiet (wait_for_operation api fuel h "instance creation")
                is_start_reset_delete self r1
                (quiet_wait_for_operation api _ fuel h _
                   passive_is_start_reset_delete)) as Hq2.
  pose proof (count_quiet (wait_for_operation api fuel h "instance creation")
                is_stop self r1
                (quiet_wait_for_operation api _ fuel h _ passive_is_stop)) as Hq3.
  pose proof (count_quiet (wait_for_operation api fuel h "instance creation")
                is_write self r1
                (quiet_wait_for_operation api _ fuel h _ passive_is_write)) as Hq4.
  destruct (wait_for_operation api fuel h "instance creation" self r1)
    as [wres ws wenv wevs] eqn:Hw.
  cbn [res self_of env_of evs] in *. subst ws. run_step.
  destruct wres as [[|]|e|].
  - do 2 run_step.
    destruct (String.eqb (instance_state (config self)) "TERMINATED") eqn:E.
    + rewrite try_bind_assoc. run_step. rewrite try_bind_assoc.
      pose proof (count_quiet (stop_instance api fuel) is_insert self wenv
                    (quiet_stop_instance api _ fuel passive_is_insert
                       (λ _ _, eq_refl) (λ _ _ _, eq_refl))) as Hs1.
      pose proof (count_quiet (stop_instance api fuel) is_start_reset_delete self wenv
                    (quiet_stop_instance api _ fuel passive_is_start_reset_delete
                       (λ _ _, eq_refl) (λ _ _ _, eq_refl))) as Hs2.
      destruct (stop_instance api fuel self wenv) as [sres ss senv sevs] eqn:Hs.
      cbn [res self_of env_of evs] in *. run_step.
      apply String.eqb_eq in E.
      destruct sres as [b|e|]; [|destruct (is_exception e)|]; repeat run_step;
        rewrite ?after_after; unfold after; cbn [evs app];
        rewrite ?app_nil_r, <- ?app_assoc; cbn [app];
        (eexists; split; [reflexivity|]);
        rewrite ?count_app, ?Hq1, ?Hq2, ?Hs1, ?Hs2; count_concrete;
        (split; [done|split; [done|intros Hn; by destruct Hn]]).
    + repeat run_step.
      rewrite ?after_after; unfold after; cbn [evs app];
        rewrite ?app_nil_r, <- ?app_assoc; cbn [app].
      eexists; split; [reflexivity|].
      rewrite ?count_app, ?Hq1, ?Hq2, ?Hq3, ?Hq4. by count_concrete.
  - repeat run_step.
    rewrite ?after_after; unfold after; cbn [evs app];
      rewrite ?app_nil_r, <- ?app_assoc; cbn [app].
    eexists; split; [reflexivity|].
    rewrite ?count_app, ?Hq1, ?Hq2, ?Hq3, ?Hq4. by count_concrete.
  - destruct (is_exception e); repeat run_step;
      rewrite ?after_after; unfold after; cbn [evs app];
      rewrite ?app_nil_r, <- ?app_assoc; cbn [app];
      (eexists; split; [reflexivity|]);
      rewrite ?count_app, ?Hq1, ?Hq2, ?Hq3, ?Hq4; by count_concrete.
  - rewrite ?after_after; unfold after; cbn [evs app];
      rewrite ?app_nil_r, <- ?app_assoc; cbn [app].
    eexists; split; [reflexivity|].
    rewrite ?count_app, ?Hq1, ?Hq2, ?Hq3, ?Hq4. by count_concrete.
Qed.

Lemma not_in_quiet (P : event → bool) (l : list event) e :
  count P l = 0%nat → e ∈ l → P e = true → False.
Proof. rewrite count_zero. intros H Hin He. rewrite (H e Hin) in He. discriminate. Qed.

(** X13. Whatever [create_instance] asks the remote side to insert is the
    resource built from the configuration: the configured project, the zone
    of [get_zone], and [instance_resource_of] the configuration and the image
    that [os_images] has for the configured [os_choice] (lines 354-434). *)
Theorem create_instance_submits_configured_resource fuel self r e :
  let c := config self in
  e ∈ evs (create_instance api fuel self r) → is_insert e = true →
  ∃ img, dict_get os_images (os_choice c) = Some img ∧
         e = InstancesInsert (project_id c) (Script.get_zone c)
               (instance_resource_of c img).
Proof.
  cbn zeta. rewrite run_create_instance. cbn zeta. unfold after at 1. cbn [evs].
  intros [Hin|Hin]%elem_of_app He.
  { exfalso. by apply (not_in_quiet is_insert (banner (config self)) e). }
  destruct (instances_get api _ _ _ r) as [[i|ge] r1].
  { exfalso. cbn [evs] in Hin. revert Hin He. by apply not_in_quiet. }
  pose proof (keeps_create_firewall_rule api fuel self r1) as Hk.
  pose proof (count_quiet (create_firewall_rule api fuel) is_insert self r1
    (quiet_create_firewall_rule api is_insert fuel passive_is_insert
       (λ _ _, eq_refl) (λ _ _, eq_refl))) as Hq.
  unfold after_firewall in Hin.
  destruct (create_firewall_rule api fuel self r1) as [wres ws wenv wevs].
  cbn [res self_of env_of evs] in *. subst ws.
  destruct wres as [[|]|e'|]; unfold after in Hin; cbn [evs app] in Hin;
    apply elem_of_cons in Hin as [->|Hin]; try discriminate He.
  - apply elem_of_app in Hin as [Hin|Hin]; [exfalso; by apply (not_in_quiet _ _ e Hq)|].
    destruct (dict_get os_images (os_choice (config self))) as [img|] eqn:Himg.
    + destruct (in_int64 (disk_size (config self))) eqn:Hd.
      2:{ rewrite (submit_out_of_range _ _ _ _ _ _ img) in Hin by done.
          by apply elem_of_nil in Hin. }
      destruct (submit_shape fuel (vm_name (config self)) (Script.get_zone (config self))
                  self wenv img Himg Hd) as (tail & Ht & Hi & _).
      rewrite Ht in Hin.
      apply elem_of_app in Hin as [Hin|Hin].
      { exfalso. revert Hin He. by apply not_in_quiet. }
      apply elem_of_cons in Hin as [->|Hin]; [by exists img|].
      exfalso. by apply (not_in_quiet _ _ e Hi).
    + rewrite submit_unknown_os in Hin by done. by apply elem_of_nil in Hin.
  - exfalso. apply elem_of_app in Hin as [Hin|Hin];
      [by apply (not_in_quiet _ _ e Hq)|].
    revert Hin He. by apply not_in_quiet.
  - exfalso. by apply (not_in_quiet _ _ e Hq).
  - exfalso. by apply (not_in_quiet _ _ e Hq).
Qed.

(** X14. [create_instance] never asks for a start, a reset or a delete; and
    unless the configured [instance_state] is TERMINATED it asks for no stop
    and writes no configuration file (lines 323-454, the cascade at 443-445). *)
Theorem create_instance_only_creates fuel self r :
  let o := create_instance api fuel self r in
  count is_start_reset_delete (evs o) = 0%nat ∧
  (instance_state (config self) ≠ "TERMINATED" →
   count is_stop (evs o) = 0%nat ∧ count is_write (evs o) = 0%nat).
Proof.
  cbn zeta. rewrite run_create_instance. cbn zeta. unfold after at 1 3 5. cbn [evs].
  rewrite !count_app.
  assert (count is_start_reset_delete (banner (config self)) = 0%nat) as -> by reflexivity.
  assert (count is_stop (banner (config self)) = 0%nat) as -> by reflexivity.
  assert (count is_write (banner (config self)) = 0%nat) as -> by reflexivity.
  destruct (instances_get api _ _ _ r) as [[i|ge] r1].
  { cbn [evs]. by count_concrete. }
  pose proof (keeps_create_firewall_rule api fuel self r1) as Hk.
  pose proof (count_quiet (create_firewall_rule api fuel) is_start_reset_delete self r1
    (quiet_create_firewall_rule api _ fuel passive_is_start_reset_delete
       (λ _ _, eq_refl) (λ _ _, eq_refl))) as Hq1.
  pose proof (count_quiet (create_firewall_rule api fuel) is_stop self r1
    (quiet_create_firewall_rule api _ fuel passive_is_stop
       (λ _ _, eq_refl) (λ _ _, eq_refl))) as Hq2.
  pose proof (count_quiet (create_firewall_rule api fuel) is_write self r1
    (quiet_create_firewall_rule api _ fuel passive_is_write
       (λ _ _, eq_refl) (λ _ _, eq_refl))) as Hq3.
  unfold after_firewall.
  destruct (create_firewall_rule api fuel self r1) as [wres ws wenv wevs].
  cbn [res self_of env_of evs] in *. subst ws.
  destruct wres as [[|]|e'|]; unfold after; cbn [evs];
    rewrite ?count_app, ?Hq1, ?Hq2, ?Hq3; count_concrete; [|done..].
  destruct (dict_get os_images (os_choice (config self))) as [img|] eqn:Himg.
  - destruct (in_int64 (disk_size (config self))) eqn:Hd.
    2:{ rewrite (submit_out_of_range _ _ _ _ _ _ img) by done. cbn [evs].
        by count_concrete. }
    destruct (submit_shape fuel (vm_name (config self)) (Script.get_zone (config self))
                self wenv img Himg Hd) as (tail & -> & _ & Hs & Hn).
    change (InstancesInsert ?p ?z ?x :: tail) with ([InstancesInsert p z x] ++ tail).
    rewrite !count_app, Hs. count_concrete.
    split; [done|]. intros H. by destruct (Hn H) as [-> ->].
  - rewrite submit_unknown_os by done. cbn [evs]. by count_concrete.
Qed.

(** X15. [create_firewall_rule] with the HTTP feature off does nothing and
    returns [True]; with a rule already there it returns [True] and changes
    nothing; and any failure of the lookup, whatever the exception, is taken
    as a missing rule: the insert is then the only change asked for
    (lines 275-321). *)
Theorem create_firewall_rule_idempotent fuel self r :
  let c := config self in
  let p := project_id c in
  let rule := rule_name_of c in
  let o := create_firewall_rule api fuel self r in
  (enable_http_server c = false → o = Build_Out (Ret true) self r []) ∧
  (enable_http_server c = true →
   (∀ x r1, firewalls_get api p rule r = (Ok x, r1) →
      res o = Ret true ∧ env_of o = r1 ∧ count is_mutation (evs o) = 0%nat) ∧
   (∀ e r1, firewalls_get api p rule r = (Err e, r1) →
      ∃ rest, evs o = FirewallsGet p rule
                      :: info ("Creating firewall rule: " +:+ rule)
                      ++ FirewallsInsert p (firewall_rule_of c) :: rest ∧
              count is_mutation rest = 0%nat)).
Proof.
  cbn zeta. rewrite run_create_firewall_rule. cbn zeta.
  split; [by intros ->|]. intros ->. split.
  - intros x r1 ->. by count_concrete.
  - intros e r1 ->.
    destruct (firewalls_insert api (project_id (config self))
                (firewall_rule_of (config self)) r1) as [[h|e'] r2].
    + pose proof (count_quiet (wait_for_operation api fuel h "firewall rule creation")
                    is_mutation self r2
                    (quiet_wait_for_operation api _ fuel h _ passive_is_mutation')) as Hq.
      unfold firewall_finish.
      destruct (wait_for_operation api fuel h "firewall rule creation" self r2)
        as [wres ws wenv wevs].
      cbn [res self_of env_of evs] in *.
      destruct wres as [[|]|e'|]; [| |destruct (is_exception e')|];
        unfold after; cbn [evs app];
        rewrite <- ?app_assoc; cbn [app];
        (eexists; split; [reflexivity|]);
        rewrite ?count_app, ?Hq; by count_concrete.
    + destruct (is_exception e');
        unfold after; cbn [evs app]; rewrite <- ?app_assoc; cbn [app];
        (eexists; split; [reflexivity|]); by count_concrete.
Qed.

(** X16. [show_access_info] only reads: it leaves the object as it was,
    asks the remote side once and changes nothing there, and writes no file,
    whether the read succeeds or fails; it returns normally when the read
    succeeds and when it fails with an [Exception], and lets through an
    exception that is no [Exception] (lines 622-645). *)
Theorem show_access_info_read_only self r :
  let c := config self in
  let o := show_access_info api self r in
  self_of o = self ∧
  count is_request (evs o) = 1%nat ∧ count is_mutation (evs o) = 0%nat ∧
  count is_write (evs o) = 0%nat ∧
  (∀ x r1,
     instances_get api (project_id c) (Script.get_zone c) (vm_name c) r = (x, r1) →
     res o = match x with
             | Ok _ => Ret tt
             | Err e => if is_exception e then Ret tt else Raise e
             end).
Proof.
  cbn zeta. rewrite run_show_access_info. cbn zeta.
  destruct (instances_get api _ _ _ r) as [[i|e] r1].
  - cbn [res self_of evs]. split; [done|].
    assert (∀ x r0, (Ok i, r1) = (x, r0) →
              Ret tt = match x with
                       | Ok _ => Ret tt
                       | Err e => if is_exception e then Ret tt else Raise e
                       end) as Hres by (by intros x r0 [= <- <-]).
    destruct (external_ip i) as [ip|];
      [destruct (enable_http_server (config self))|];
      (split; [by count_concrete|]); (split; [by count_concrete|]);
      (split; [by count_concrete|]); exact Hres.
  - destruct (is_exception e) eqn:He; cbn [res self_of evs];
      (split; [done|]); (split; [by count_concrete|]);
      (split; [by count_concrete|]); (split; [by count_concrete|]);
      intros x r0 [= <- <-]; by rewrite He.
Qed.

Ltac heads H :=
  injection H as H;
  cbv beta iota zeta delta
    [String.append Str.esc Colors.RED Colors.CYAN Colors.RESET] in H;
  congruence.

(** X17. [show_access_info] prints the web address of an external address
    exactly when the read of the instance succeeds, the instance has that
    address on the first access configuration of its first interface, and
    the HTTP feature is on (lines 630-642). *)
Theorem show_access_info_web_url self r ip :
  let c := config self in
  Print ("Web URL: http://" +:+ ip) ∈ evs (show_access_info api self r)
  ↔ enable_http_server c = true ∧
    ∃ i r1, instances_get api (project_id c) (Script.get_zone c) (vm_name c) r
            = (Ok i, r1) ∧ external_ip i = Some ip.
Proof.
  cbn zeta. rewrite run_show_access_info. cbn zeta.
  destruct (instances_get api _ _ _ r) as [[i|e] r1]; cbn [evs].
  2:{ split; [|intros (_ & i & r' & H & _); discriminate H].
      destruct (is_exception e); cbn [evs]; unfold failure, printed; cbn [app];
        rewrite list_elem_of_In; cbn [In].
      - intros [H|[H|[H|[]]]]; try discriminate H; try (exfalso; heads H).
      - intros [H|[]]. discriminate H. }
  unfold printed. cbn [app]. rewrite list_elem_of_In.
  destruct (external_ip i) as [ip'|] eqn:Hip.
  2:{ cbn [In]. split.
      - intros [H|[H|[]]]; try discriminate H; try (exfalso; heads H).
      - intros (_ & i' & r' & H & Hi). injection H as <- <-. congruence. }
  destruct (enable_http_server (config self)); cbn [app In]; split.
  - intros [H|[H|[H|[H|[H|[H|[]]]]]]]; try discriminate H;
      try (exfalso; heads H).
    assert (ip' = ip) as -> by heads H. eauto.
  - intros (_ & i' & r' & H & Hi). injection H as <- <-.
    assert (ip' = ip) as -> by congruence. tauto.
  - intros [H|[H|[H|[H|[H|[]]]]]]; try discriminate H; try (exfalso; heads H).
  - intros (H & _). discriminate H.
Qed.

Lemma run_show_deployment_summary self r :
  show_deployment_summary api self r
  = let c := config self in
    let p := project_id c in
    let z := Script.get_zone c in
    let n := vm_name c in
    after (summary c)
      match instances_get api p z n r with
      | (Ok i, r1) =>
          Build_Out (Ret tt) self r1
            (InstancesGet p z n
             :: (if truthy (inst_status i)
                 then [Print ("Current Status: " +:+ inst_status i)] else []))
      | (Err e, r1) =>
          if is_exception e then
            Build_Out (Ret tt) self r1
              (InstancesGet p z n
               :: failure ("Failed to get instance status: " +:+ exn_msg e))
          else Build_Out (Raise e) self r1 [InstancesGet p z n]
      end.
Proof.
  unfold show_deployment_summary. cbn zeta. do 13 run_step.
  pose proof (run_get_instance_status api self r) as Hs. cbn zeta in Hs.
  destruct (instances_get api _ _ _ r) as [[i|e] r1];
    [|destruct (is_exception e)]; run_step.
  - destruct (truthy (inst_status i)).
    + rewrite Exec.run_print. unfold summary, printed. run_done.
    + run_step. unfold summary, printed. run_done.
  - run_step. unfold summary, printed. run_done.
  - unfold summary, printed. run_done.
Qed.

(** X18. [show_deployment_summary] prints the lines of the configuration,
    then reads the status once; it leaves the object as it was, changes
    nothing on the remote side and writes no file.  It returns normally when
    the read succeeds and when it fails with an [Exception], which is logged;
    an exception that is no [Exception] is let through (lines 647-665,
    456-467). *)
Theorem show_deployment_summary_read_only self r :
  let c := config self in
  let o := show_deployment_summary api self r in
  self_of o = self ∧
  (∃ tail, evs o = summary c
                   ++ InstancesGet (project_id c) (Script.get_zone c) (vm_name c)
                   :: tail ∧ count is_request tail = 0%nat) ∧
  count is_mutation (evs o) = 0%nat ∧ count is_write (evs o) = 0%nat ∧
  (∀ x r1,
     instances_get api (project_id c) (Script.get_zone c) (vm_name c) r = (x, r1) →
     res o = match x with
             | Ok _ => Ret tt
             | Err e => if is_exception e then Ret tt else Raise e
             end) ∧
  (∀ e r1,
     instances_get api (project_id c) (Script.get_zone c) (vm_name c) r = (Err e, r1) →
     is_exception e = true →
     evs o = summary c
             ++ InstancesGet (project_id c) (Script.get_zone c) (vm_name c)
             :: failure ("Failed to get instance status: " +:+ exn_msg e)).
Proof.
  cbn zeta. rewrite run_show_deployment_summary. cbn zeta. unfold after.
  assert (count is_mutation (summary (config self)) = 0%nat) as Hm by reflexivity.
  assert (count is_write (summary (config self)) = 0%nat) as Hw by reflexivity.
  destruct (instances_get api _ _ _ r) as [[i|e] r1];
    [destruct (truthy (inst_status i))|destruct (is_exception e) eqn:He];
    cbn [res self_of evs]; rewrite !count_app, Hm, Hw;
    (split; [done|]);
    (split; [eexists; split; [reflexivity|]; by count_concrete|]);
    (split; [by count_concrete|]); (split; [by count_concrete|]);
    (split; [intros x r0 [= <- <-]; by rewrite ?He|]);
    intros e' r0 [= <- <-]; congruence || done.
Qed.

(** X19. The summary shows a current status exactly when the read of the
    instance succeeds with a status that is not the empty string; that line
    carries the status read (lines 662-665). *)
Theorem show_deployment_summary_status self r st :
  let c := config self in
  Print ("Current Status: " +:+ st) ∈ evs (show_deployment_summary api self r)
  ↔ st ≠ "" ∧
    ∃ i r1, instances_get api (project_id c) (Script.get_zone c) (vm_name c) r
            = (Ok i, r1) ∧ inst_status i = st.
Proof.
  cbn zeta. rewrite run_show_deployment_summary. cbn zeta. unfold after. cbn [evs].
  rewrite elem_of_app.
  assert (¬ Print ("Current Status: " +:+ st) ∈ summary (config self)) as Hsum.
  { unfold summary, printed. cbn [app]. rewrite list_elem_of_In. cbn [In].
    intros H. repeat (destruct H as [H|H]; [heads H|]). done. }
  destruct (instances_get api _ _ _ r) as [[i|e] r1]; cbn [evs].
  - destruct (truthy (inst_status i)) eqn:Ht; split.
    + intros [H|H]; [done|]. apply list_elem_of_In in H. cbn [In] in H.
      destruct H as [H|[H|[]]]; [discriminate H|].
      assert (inst_status i = st) as <- by heads H.
      split; [by destruct (inst_status i)|eauto].
    + intros (_ & i' & r' & H & <-). injection H as <- <-.
      right. apply list_elem_of_In. cbn [In]. tauto.
    + intros [H|H]; [done|]. apply list_elem_of_In in H. cbn [In] in H.
      destruct H as [H|[]]. discriminate H.
    + intros (Hne & i' & r' & H & <-). injection H as <- <-.
      by destruct (inst_status i).
  - split; [|intros (_ & i' & r' & H & _); discriminate H].
    intros [H|H]; [done|]. destruct (is_exception e); cbn [evs] in H.
    + unfold failure, printed in H. cbn [app] in H.
      apply list_elem_of_In in H. cbn [In] in H.
      destruct H as [H|[H|[H|[]]]];
        [discriminate H|exfalso; heads H|discriminate H].
    + apply list_elem_of_In in H. cbn [In] in H.
      destruct H as [H|[]]. discriminate H.
Qed.

End Lifecycle.
End LifecycleMore.

(** ** The instance resource and the zone *)

Module ResourceMore.
Import Str Compute VM.

Lemma contains_elem (x : string) (l : list string) : contains x l = true ↔ x ∈ l.
Proof.
  unfold contains. rewrite existsb_exists, list_elem_of_In. split.
  - intros (y & Hy & ->%String.eqb_eq). done.
  - intros H. exists x. split; [done|apply String.eqb_refl].
Qed.

(** X20. The zone used in every request is never the empty string: it is the
    configured zone when there is one, and the region followed by -a when
    there is none, even for an empty region (lines 183-187). *)
Theorem get_zone_nonempty (c : Config) :
  Script.get_zone c ≠ "" ∧
  (zone c ≠ "" → Script.get_zone c = zone c) ∧
  (zone c = "" → Script.get_zone c = region c +:+ "-a").
Proof.
  unfold Script.get_zone. destruct (zone c) as [|a z] eqn:Hz; cbn [truthy].
  - split; [|done]. by destruct (region c).
  - done.
Qed.

(** X21. The tags of the instance resource are the configured tags, in their
    order, followed by http-server when the HTTP feature is on and the tag is
    not among them: the tag is never added twice, and it is there whenever
    the feature is on (lines 415-420). *)
Theorem instance_resource_tags (c : Config) (img : string) :
  let t := r_tags (instance_resource_of c img) in
  (∀ x, x ∈ t ↔ x ∈ tags c ∨ (x = "http-server" ∧ enable_http_server c = true)) ∧
  tags c `prefix_of` t ∧
  (enable_http_server c = true → "http-server" ∈ t) ∧
  (NoDup (tags c) → NoDup t).
Proof.
  cbn zeta. cbn [instance_resource_of r_tags].
  destruct (enable_http_server c); cbn [andb].
  - destruct (contains "http-server" (tags c)) eqn:E; cbn [negb].
    + apply contains_elem in E. split; [|split; [done|split; [done|done]]].
      intros x. split; [tauto|]. intros [H|[-> _]]; done.
    + assert ("http-server" ∉ tags c) as Hn.
      { intros H%contains_elem. congruence. }
      split; [|split; [by eexists|split]].
      * intros x. rewrite elem_of_app, list_elem_of_singleton. tauto.
      * intros _. apply elem_of_app. right. by apply list_elem_of_singleton.
      * intros Hd. apply NoDup_app. split; [done|]. split; [|apply NoDup_singleton].
        intros x Hx ->%list_elem_of_singleton. done.
  - split; [|done]. intros x. split; [tauto|]. by intros [H|[_ H]].
Qed.

(** X22. The labels of the instance resource: the four labels the program
    derives from the configuration are always there, with the derived value
    in place of a configured one of the same key, and every other configured
    label is kept as it is (lines 422-430). *)
Theorem instance_resource_labels (c : Config) (img k : string) :
  let l := r_labels (instance_resource_of c img) in
  l !! "os-type" = Some (os_choice c) ∧
  l !! "managed-by" = Some "python-script" ∧
  l !! "instance-state" = Some (lower (instance_state c)) ∧
  l !! "preemptible" = Some (if preemptible c then "true" else "false") ∧
  (k ≠ "os-type" → k ≠ "managed-by" → k ≠ "instance-state" → k ≠ "preemptible" →
   l !! k = labels c !! k).
Proof.
  cbn zeta. cbn [instance_resource_of r_labels].
  split; [|split; [|split; [|split]]].
  - by rewrite !lookup_insert_ne, lookup_insert by done.
  - by rewrite !lookup_insert_ne, lookup_insert by done.
  - by rewrite lookup_insert_ne, lookup_insert by done.
  - rewrite lookup_insert. by destruct (preemptible c).
  - intros. by rewrite !lookup_insert_ne by done.
Qed.

End ResourceMore.

(** ** The further properties on the small cloud *)

Module MoreScenarios.
Import Str Compute VM Run Examples.

Lemma merge_defaults_fills_witness :
  Store.merge_defaults {["vm_name" := Store.JStr "web"]} !! "vm_name"
  = Some (Store.JStr "web").
Proof.
  apply (proj1 (StoreMore.merge_defaults_fills {["vm_name" := Store.JStr "web"]})).
  reflexivity.
Defined.

Lemma load_config_keeps_existing_file_witness :
  let self := {| Store.config_file := "vm_config.json"; Store.logger := true |} in
  let d := {| Store.content := Store.Document Store.default_doc;
              Store.write_error := None |} in
  let d0 := {| Store.content := Store.Absent; Store.write_error := Some "denied" |} in
  (Store.load_config self d).1.2 = d ∧
  Store.load_config self d0 = (Raise (Exception "OSError" "denied"), d0, []).
Proof.
  cbn zeta. split.
  - apply (proj1 (StoreMore.load_config_keeps_existing_file _ _)). discriminate.
  - apply (proj2 (StoreMore.load_config_keeps_existing_file _ _)); reflexivity.
Defined.



(** X6 on the small cloud: a restart that is done at the third poll, no
    instance, and a request interrupted from the keyboard. *)
Lemma restart_instance_unconditional_witness :
  (∃ e, e ∈ evs (restart_instance cloud_api 3 (manager demo)
                   (cloud_with [("demo", "TERMINATED")] [] 2 ""))
        ∧ is_done_ok e = true) ∧
  res (restart_instance cloud_api 3 (manager demo) (empty_cloud 2)) = Ret false ∧
  res (restart_instance ctrl_c 3 (manager demo) tt) = Raise KeyboardInterrupt ∧
  res (restart_instance cloud_api 3 (manager demo) (empty_cloud 2))
  ≠ Raise (not_found "demo").
Proof.
  split; [|split; [|split]].
  - destruct (LifecycleMore.restart_instance_unconditional cloud_api 3 (manager demo)
                (cloud_with [("demo", "TERMINATED")] [] 2 "")) as (_ & _ & _ & H).
    apply H. reflexivity.
  - destruct (LifecycleMore.restart_instance_unconditional cloud_api 3 (manager demo)
                (empty_cloud 2)) as (_ & H & _).
    exact (f_equal res (H (not_found "demo") _ eq_refl)).
  - destruct (LifecycleMore.restart_instance_unconditional ctrl_c 3 (manager demo) tt)
      as (_ & H & _).
    exact (f_equal res (H KeyboardInterrupt tt eq_refl)).
  - destruct (LifecycleMore.restart_instance_unconditional cloud_api 3 (manager demo)
                (empty_cloud 2)) as (_ & _ & H & _).
    exact (H (not_found "demo") eq_refl).
Defined.

(** X7 on the small cloud: a delete that is done at the third poll, no
    instance, and a request interrupted from the keyboard. *)
Lemma delete_instance_unconditional_witness :
  (∃ e, e ∈ evs (delete_instance cloud_api 3 (manager demo)
                   (cloud_with [("demo", "RUNNING")] [] 2 ""))
        ∧ is_done_ok e = true) ∧
  res (delete_instance cloud_api 3 (manager demo) (empty_cloud 2)) = Ret false ∧
  res (delete_instance ctrl_c 3 (manager demo) tt) = Raise KeyboardInterrupt ∧
  res (delete_instance cloud_api 3 (manager demo) (empty_cloud 2))
  ≠ Raise (not_found "demo").
Proof.
  split; [|split; [|split]].
  - destruct (LifecycleMore.delete_instance_unconditional cloud_api 3 (manager demo)
                (cloud_with [("demo", "RUNNING")] [] 2 "")) as (_ & _ & _ & H).
    apply H. reflexivity.
  - destruct (LifecycleMore.delete_instance_unconditional cloud_api 3 (manager demo)
                (empty_cloud 2)) as (_ & H & _).
    exact (f_equal res (H (not_found "demo") _ eq_refl)).
  - destruct (LifecycleMore.delete_instance_unconditional ctrl_c 3 (manager demo) tt)
      as (_ & H & _).
    exact (f_equal res (H KeyboardInterrupt tt eq_refl)).
  - destruct (LifecycleMore.delete_instance_unconditional cloud_api 3 (manager demo)
                (empty_cloud 2)) as (_ & _ & H & _).
    exact (H (not_found "demo") eq_refl).
Defined.

(** X8 on the small cloud: the [Exception] of a missing instance stays in
    [stop_instance]; an interrupt from the keyboard leaves it. *)
Lemma lifecycle_lets_no_exception_out_witness :
  res (stop_instance cloud_api 3 (manager demo) (empty_cloud 2))
  ≠ Raise (not_found "demo") ∧
  res (stop_instance ctrl_c 3 (manager demo) tt) = Raise KeyboardInterrupt ∧
  res (save_config interrupted_api (manager demo) (empty_cloud 0))
  = Raise KeyboardInterrupt.
Proof.
  split; [|split].
  - destruct (LifecycleMore.lifecycle_lets_no_exception_out cloud_api 3 (manager demo)
                (empty_cloud 2)) as (H & _).
    exact (proj1 (proj2 (H (not_found "demo") eq_refl))).
  - destruct (LifecycleMore.lifecycle_lets_no_exception_out ctrl_c 3 (manager demo) tt)
      as (_ & H & _).
    exact (proj1 (proj2 (proj2 (H KeyboardInterrupt tt eq_refl eq_refl)))).
  - destruct (LifecycleMore.lifecycle_lets_no_exception_out interrupted_api 3
                (manager demo) (empty_cloud 0)) as (_ & _ & H).
    exact (H KeyboardInterrupt (empty_cloud 0) eq_refl eq_refl).
Defined.

(** X9 on the small cloud, HTTP off and no instance yet, so that the run gets
    to the request: with disk size 20 no [KeyError] comes out; with disk size
    2^63 the run raises [ValueError] and sends no insert. *)
Lemma create_instance_lets_out_witness :
  res (create_instance cloud_api 1 (manager demo_no_http) (empty_cloud 0))
  ≠ Raise (KeyError "ubuntu") ∧
  (∃ msg, res (create_instance cloud_api 1 (manager demo_huge_disk) (empty_cloud 0))
          = Raise (ValueError msg)) ∧
  count is_insert (evs (create_instance cloud_api 1 (manager demo_huge_disk)
                          (empty_cloud 0))) = 0%nat.
Proof.
  split.
  - destruct (LifecycleMore.create_instance_lets_out cloud_api 1 (manager demo_no_http)
                (empty_cloud 0) (or_introl eq_refl)) as (H & _).
    exact (H eq_refl (KeyError "ubuntu") eq_refl).
  - destruct (LifecycleMore.create_instance_lets_out cloud_api 1 (manager demo_huge_disk)
                (empty_cloud 0) (or_introl eq_refl)) as (_ & H).
    exact (H eq_refl (not_found "demo") (empty_cloud 0) eq_refl eq_refl).
Defined.

(** X10 on the small cloud: a write that succeeds, and one interrupted from
    the keyboard. *)
Lemma save_config_one_write_witness :
  evs (save_config cloud_api (manager demo) (empty_cloud 0))
  = FileWrite "vm_config.json" demo
    :: success ("Configuration saved to " +:+ "vm_config.json") ∧
  save_config interrupted_api (manager demo) (empty_cloud 0)
  = Build_Out (Raise KeyboardInterrupt) (manager demo) (empty_cloud 0)
      [FileWrite "vm_config.json" demo].
Proof.
  split.
  - destruct (LifecycleMore.save_config_one_write cloud_api (manager demo)
                (empty_cloud 0)) as (_ & _ & H & _).
    exact (proj2 (H _ eq_refl)).
  - destruct (LifecycleMore.save_config_one_write interrupted_api (manager demo)
                (empty_cloud 0)) as (_ & _ & _ & _ & H).
    exact (H KeyboardInterrupt _ eq_refl eq_refl).
Defined.

Lemma wait_for_operation_returns_on_done_witness :
  let o := wait_for_operation cloud_api 3 stop_handle "instance stop" (manager demo)
             (in_flight [("demo", "TERMINATED")] "operation-stop" ZoneScoped 2 "quota") in
  self_of o = manager demo ∧
  ∃ n pre last,
    op_name stop_handle = Some n ∧
    evs o = info ("Waiting for " +:+ "instance stop" +:+ " to complete...")
            ++ pre ++ last_round demo n "instance stop" last ∧
    status last = DONE ∧ (false = true ↔ error last = "") ∧
    count is_done_poll pre = 0%nat.
Proof.
  apply (LifecycleMore.wait_for_operation_returns_on_done cloud_api 3 stop_handle
           "instance stop" (manager demo)
           (in_flight [("demo", "TERMINATED")] "operation-stop" ZoneScoped 2 "quota")
           false).
  reflexivity.
Defined.

Lemma wait_for_operation_poll_error_witness :
  wait_for_operation cloud_api 3 stop_handle "instance stop" (manager demo)
    (empty_cloud 2)
  = Build_Out (Raise (not_found "operation-stop")) (manager demo) (empty_cloud 2)
      (info ("Waiting for " +:+ "instance stop" +:+ " to complete...")
       ++ flat_map (round demo "operation-stop" "instance stop") []
       ++ [ZoneOperationsGet "my-project" "us-west1-a" "operation-stop"
             (Err (not_found "operation-stop"))]) ∧
  wait_for_operation cloud_api 1 {| op_name := None; op_scope := ZoneScoped |}
    "instance stop" (manager demo) (empty_cloud 2)
  = Build_Out (Raise (AttributeError "Operation" "name")) (manager demo) (empty_cloud 2)
      (info ("Waiting for " +:+ "instance stop" +:+ " to complete...")).
Proof.
  split.
  - apply (proj1 (LifecycleMore.wait_for_operation_poll_error cloud_api stop_handle
                    "instance stop" 3 (manager demo) (empty_cloud 2))
             "operation-stop" [] (not_found "operation-stop") (empty_cloud 2)
             (empty_cloud 2));
      [reflexivity|constructor|reflexivity|reflexivity|cbn; lia].
  - apply (proj2 (LifecycleMore.wait_for_operation_poll_error cloud_api
                    {| op_name := None; op_scope := ZoneScoped |}
                    "instance stop" 1 (manager demo) (empty_cloud 2)));
      [reflexivity|lia].
Defined.

Lemma create_instance_submits_configured_resource_witness :
  ∃ img, dict_get os_images (os_choice demo_no_http) = Some img ∧
    InstancesInsert "my-project" "us-west1-a"
      (instance_resource_of demo_no_http
         "projects/ubuntu-os-cloud/global/images/ubuntu-minimal-2504-plucky-amd64-v20250624")
    = InstancesInsert (project_id demo_no_http) (Script.get_zone demo_no_http)
        (instance_resource_of demo_no_http img).
Proof.
  apply (LifecycleMore.create_instance_submits_configured_resource cloud_api 1
           (manager demo_no_http) (empty_cloud 0)).
  - apply (list_elem_of_lookup_2 _ 19%nat). vm_compute. reflexivity.
  - reflexivity.
Defined.

Lemma create_instance_only_creates_witness :
  let o := create_instance cloud_api 1 (manager demo_no_http) (empty_cloud 0) in
  count is_stop (evs o) = 0%nat ∧ count is_write (evs o) = 0%nat.
Proof.
  apply (proj2 (LifecycleMore.create_instance_only_creates cloud_api 1
                  (manager demo_no_http) (empty_cloud 0))).
  discriminate.
Defined.

Lemma create_firewall_rule_idempotent_witness :
  create_firewall_rule cloud_api 3 (manager demo_no_http) (empty_cloud 0)
  = Build_Out (Ret true) (manager demo_no_http) (empty_cloud 0) [] ∧
  (let o := create_firewall_rule cloud_api 3 (manager demo)
              (cloud_with [] ["demo-allow-http"] 0 "") in
   res o = Ret true ∧ env_of o = cloud_with [] ["demo-allow-http"] 0 "" ∧
   count is_mutation (evs o) = 0%nat) ∧
  ∃ rest,
    evs (create_firewall_rule cloud_api 3 (manager demo) (empty_cloud 0))
    = FirewallsGet "my-project" (rule_name_of demo)
      :: info ("Creating firewall rule: " +:+ rule_name_of demo)
      ++ FirewallsInsert "my-project" (firewall_rule_of demo) :: rest ∧
    count is_mutation rest = 0%nat.
Proof.
  split; [|split].
  - apply (proj1 (LifecycleMore.create_firewall_rule_idempotent cloud_api 3
                    (manager demo_no_http) (empty_cloud 0))).
    reflexivity.
  - destruct (LifecycleMore.create_firewall_rule_idempotent cloud_api 3 (manager demo)
                (cloud_with [] ["demo-allow-http"] 0 "")) as (_ & H).
    destruct (H eq_refl) as (H1 & _). exact (H1 tt _ eq_refl).
  - destruct (LifecycleMore.create_firewall_rule_idempotent cloud_api 3 (manager demo)
                (empty_cloud 0)) as (_ & H).
    destruct (H eq_refl) as (_ & H2).
    exact (H2 (not_found "demo-allow-http") _ eq_refl).
Defined.

(** X16 on the small cloud: a read that fails with an [Exception], and one
    interrupted from the keyboard. *)
Lemma show_access_info_read_only_witness :
  res (show_access_info cloud_api (manager demo) (empty_cloud 0)) = Ret tt ∧
  res (show_access_info ctrl_c (manager demo) tt) = Raise KeyboardInterrupt.
Proof.
  split.
  - destruct (LifecycleMore.show_access_info_read_only cloud_api (manager demo)
                (empty_cloud 0)) as (_ & _ & _ & _ & H).
    exact (H (Err (not_found "demo")) (empty_cloud 0) eq_refl).
  - destruct (LifecycleMore.show_access_info_read_only ctrl_c (manager demo) tt)
      as (_ & _ & _ & _ & H).
    exact (H (Err KeyboardInterrupt) tt eq_refl).
Defined.

(** X18 on the small cloud: a read that fails with an [Exception], logged,
    and one interrupted from the keyboard. *)
Lemma show_deployment_summary_read_only_witness :
  res (show_deployment_summary cloud_api (manager demo) (empty_cloud 0)) = Ret tt ∧
  evs (show_deployment_summary cloud_api (manager demo) (empty_cloud 0))
  = summary demo
    ++ InstancesGet "my-project" "us-west1-a" "demo"
    :: failure ("Failed to get instance status: " +:+ exn_msg (not_found "demo")) ∧
  res (show_deployment_summary ctrl_c (manager demo) tt) = Raise KeyboardInterrupt.
Proof.
  split; [|split].
  - destruct (LifecycleMore.show_deployment_summary_read_only cloud_api (manager demo)
                (empty_cloud 0)) as (_ & _ & _ & _ & H & _).
    exact (H (Err (not_found "demo")) (empty_cloud 0) eq_refl).
  - destruct (LifecycleMore.show_deployment_summary_read_only cloud_api (manager demo)
                (empty_cloud 0)) as (_ & _ & _ & _ & _ & H).
    exact (H (not_found "demo") (empty_cloud 0) eq_refl eq_refl).
  - destruct (LifecycleMore.show_deployment_summary_read_only ctrl_c (manager demo) tt)
      as (_ & _ & _ & _ & H & _).
    exact (H (Err KeyboardInterrupt) tt eq_refl).
Defined.

Lemma show_access_info_web_url_witness :
  Print ("Web URL: http://" +:+ "203.0.113.7")
  ∈ evs (show_access_info cloud_api (manager demo)
           (cloud_with [("demo", "RUNNING")] [] 0 "")).
Proof.
  apply (LifecycleMore.show_access_info_web_url cloud_api (manager demo)
           (cloud_with [("demo", "RUNNING")] [] 0 "") "203.0.113.7").
  split; [reflexivity|]. eexists _, _. split; reflexivity.
Defined.

Lemma show_deployment_summary_status_witness :
  Print ("Current Status: " +:+ "RUNNING")
  ∈ evs (show_deployment_summary cloud_api (manager demo)
           (cloud_with [("demo", "RUNNING")] [] 0 "")).
Proof.
  apply (LifecycleMore.show_deployment_summary_status cloud_api (manager demo)
           (cloud_with [("demo", "RUNNING")] [] 0 "") "RUNNING").
  split; [discriminate|]. eexists _, _. split; reflexivity.
Defined.

Lemma get_zone_nonempty_witness :
  Script.get_zone demo = "us-west1" +:+ "-a" ∧
  Script.get_zone (with_fields "demo" "ubuntu" "" true "RUNNING" default_config) = "-a".
Proof.
  split.
  - apply (proj2 (proj2 (ResourceMore.get_zone_nonempty demo))). reflexivity.
  - apply (proj2 (proj2 (ResourceMore.get_zone_nonempty
                           (with_fields "demo" "ubuntu" "" true "RUNNING"
                                        default_config)))).
    reflexivity.
Defined.

Lemma instance_resource_tags_witness :
  "http-server" ∈ r_tags (instance_resource_of demo "image") ∧
  NoDup (r_tags (instance_resource_of demo "image")).
Proof.
  destruct (ResourceMore.instance_resource_tags demo "image") as (_ & _ & H1 & H2).
  split; [exact (H1 eq_refl)|]. apply H2.
  refine (bool_decide_unpack (NoDup (tags demo)) _). vm_compute. exact I.
Defined.

Lemma instance_resource_labels_witness :
  r_labels (instance_resource_of demo "image") !! "environment"
  = labels demo !! "environment".
Proof.
  apply (ResourceMore.instance_resource_labels demo "image" "environment");
    discriminate.
Defined.

End MoreScenarios.
